(** * XLSX Processing API

    A shallow embedding of [file_processing.py] (the normalisation and
    discrepancy pipeline) and of the upload / status / result handlers of
    [main.py], with the Python and pandas operations they call.

    Layout: [Py] holds the Python built-ins the code uses ([str] methods,
    [str()], [float()]); [Pandas] the table operations; [FileProcessing]
    and [Main] follow the two source files function by function.  The
    properties come after the definitions. *)

From Stdlib Require Import ZArith NArith List Bool Lia Ascii String Floats
  DecimalN.
From stdpp Require Import base option list gmap.
Import ListNotations.

(** ** Python built-ins *)

Module Py.

(** A Python [str] is a sequence of Unicode code points. *)
Abbreviation pystr := (list N).

(** Literals are written as UTF-8 text and decoded to code points. *)
Fixpoint utf8_go (need : nat) (acc : N) (s : string) : pystr :=
  match s with
  | EmptyString => []
  | String c s' =>
      let b := N_of_ascii c in
      match need with
      | O => if (b <? 0x80)%N then b :: utf8_go 0 0%N s'
             else if (b <? 0xE0)%N then utf8_go 1 (b - 0xC0)%N s'
             else if (b <? 0xF0)%N then utf8_go 2 (b - 0xE0)%N s'
             else utf8_go 3 (b - 0xF0)%N s'
      | S O => (acc * 64 + (b - 0x80))%N :: utf8_go 0 0%N s'
      | S k => utf8_go k (acc * 64 + (b - 0x80))%N s'
      end
  end.

Definition py (s : string) : pystr := utf8_go 0 0%N s.

(** *** [str] methods *)

(** [s.startswith(p)] *)
Fixpoint startswith (s p : pystr) : bool :=
  match p, s with
  | [], _ => true
  | _ :: _, [] => false
  | c :: p', d :: s' => (c =? d)%N && startswith s' p'
  end.

(** [s.endswith(p)] *)
Definition endswith (s p : pystr) : bool := startswith (rev s) (rev p).

(** [s.replace(old, new)] for a non-empty [old]: a left-to-right scan that,
    at each position, either consumes a whole occurrence of [old] or copies
    one character.  [skip] counts the characters of the occurrence still to
    be consumed. *)
Fixpoint replace_from (old new : pystr) (skip : nat) (s : pystr) : pystr :=
  match s with
  | [] => []
  | c :: s' =>
      match skip with
      | S k => replace_from old new k s'
      | O => if startswith s old
             then new ++ replace_from old new (length old - 1) s'
             else c :: replace_from old new 0 s'
      end
  end.

(** [s.replace(old, new)]; an empty [old] matches between all characters. *)
Definition replace (s old new : pystr) : pystr :=
  match old with
  | [] => new ++ flat_map (fun c => c :: new) s
  | _ :: _ => replace_from old new 0 s
  end.

(** [c.isspace()]: the code points Python 3 treats as whitespace. *)
Definition isspace (c : N) : bool :=
  ((0x09 <=? c) && (c <=? 0x0D) || (0x1C <=? c) && (c <=? 0x20)
   || (c =? 0x85) || (c =? 0xA0) || (c =? 0x1680)
   || (0x2000 <=? c) && (c <=? 0x200A)
   || (c =? 0x2028) || (c =? 0x2029) || (c =? 0x202F) || (c =? 0x205F)
   || (c =? 0x3000))%N.

Fixpoint lstrip (s : pystr) : pystr :=
  match s with
  | c :: s' => if isspace c then lstrip s' else s
  | [] => []
  end.

Definition rstrip (s : pystr) : pystr := rev (lstrip (rev s)).

(** [s.strip()] *)
Definition strip (s : pystr) : pystr := rstrip (lstrip s).

(** [sep.join(parts)] *)
Fixpoint join (sep : pystr) (parts : list pystr) : pystr :=
  match parts with
  | [] => []
  | [x] => x
  | x :: rest => x ++ sep ++ join sep rest
  end.

(** *** [str()] of an integer *)

Fixpoint uint_codes (d : Decimal.uint) : pystr :=
  match d with
  | Decimal.Nil => []
  | Decimal.D0 r => 48%N :: uint_codes r
  | Decimal.D1 r => 49%N :: uint_codes r
  | Decimal.D2 r => 50%N :: uint_codes r
  | Decimal.D3 r => 51%N :: uint_codes r
  | Decimal.D4 r => 52%N :: uint_codes r
  | Decimal.D5 r => 53%N :: uint_codes r
  | Decimal.D6 r => 54%N :: uint_codes r
  | Decimal.D7 r => 55%N :: uint_codes r
  | Decimal.D8 r => 56%N :: uint_codes r
  | Decimal.D9 r => 57%N :: uint_codes r
  end.

(** Decimal digits of a natural number, most significant first. *)
Definition digits_of (n : N) : pystr := uint_codes (N.to_uint n).

(** [str(z)] for a whole number of at most 4300 digits; CPython raises
    [ValueError] for a longer one.  A cell read from a sheet is far
    shorter, and the properties of whole numbers below carry the bound. *)
Definition str_int (z : Z) : pystr :=
  match z with
  | Zneg p => 45%N :: digits_of (Npos p)
  | _ => digits_of (Z.to_N z)
  end.

(** *** [float(text)]

    CPython first maps every non-ASCII whitespace character to a space and
    every non-ASCII decimal digit to its ASCII digit (any other non-ASCII
    character becomes [?], which no number contains), strips ASCII
    whitespace, and then reads
    [[sign] (inf | infinity | nan | digits[.digits][e[sign]digits])],
    where single underscores may separate digits.  The decimal value is
    rounded to the nearest binary64 number, ties to even. *)

(** The zero digit of each decimal-digit block of Unicode 14. *)
Definition decimal_zeros : list N :=
  [0x30; 0x660; 0x6f0; 0x7c0; 0x966; 0x9e6; 0xa66; 0xae6; 0xb66; 0xbe6;
   0xc66; 0xce6; 0xd66; 0xde6; 0xe50; 0xed0; 0xf20; 0x1040; 0x1090; 0x17e0;
   0x1810; 0x1946; 0x19d0; 0x1a80; 0x1a90; 0x1b50; 0x1bb0; 0x1c40; 0x1c50;
   0xa620; 0xa8d0; 0xa900; 0xa9d0; 0xa9f0; 0xaa50; 0xabf0; 0xff10; 0x104a0;
   0x10d30; 0x11066; 0x110f0; 0x11136; 0x111d0; 0x112f0; 0x11450; 0x114d0;
   0x11650; 0x116c0; 0x11730; 0x118e0; 0x11950; 0x11c50; 0x11d50; 0x11da0;
   0x16a60; 0x16ac0; 0x16b50; 0x1d7ce; 0x1d7d8; 0x1d7e2; 0x1d7ec; 0x1d7f6;
   0x1e140; 0x1e2f0; 0x1e950; 0x1fbf0]%N.

Definition to_decimal (c : N) : option N :=
  match find (fun z => (z <=? c) && (c <? z + 10))%N decimal_zeros with
  | Some z => Some (c - z)%N
  | None => None
  end.

Definition transform_decimal_and_space (c : N) : N :=
  if (c <? 127)%N then c
  else if isspace c then 32%N
  else match to_decimal c with
       | Some d => (48 + d)%N
       | None => 63%N
       end.

Definition ascii_isspace (c : N) : bool :=
  ((0x09 <=? c) && (c <=? 0x0D) || (c =? 0x20))%N.

Fixpoint ascii_lstrip (s : pystr) : pystr :=
  match s with
  | c :: s' => if ascii_isspace c then ascii_lstrip s' else s
  | [] => []
  end.

Definition ascii_strip (s : pystr) : pystr :=
  rev (ascii_lstrip (rev (ascii_lstrip s))).

Definition is_digit (c : N) : bool := ((48 <=? c) && (c <=? 57))%N.

Definition ascii_lower (c : N) : N :=
  if ((65 <=? c) && (c <=? 90))%N then (c + 32)%N else c.

(** [digit (["_"] digit)*]: the digit values read and the text left. *)
Fixpoint digitpart (s : pystr) : list N * pystr :=
  match s with
  | c :: s' =>
      if is_digit c then
        let '(ds, r) :=
          match s' with
          | u :: t =>
              if (u =? 95)%N && match t with d :: _ => is_digit d | [] => false end
              then digitpart t
              else digitpart s'
          | [] => ([], [])
          end in
        ((c - 48)%N :: ds, r)
      else ([], s)
  | [] => ([], [])
  end.

Definition digits_value (ds : list N) : N :=
  fold_left (fun a d => 10 * a + d)%N ds 0%N.

Definition split_sign (s : pystr) : bool * pystr :=
  match s with
  | 45%N :: r => (true, r)
  | 43%N :: r => (false, r)
  | _ => (false, s)
  end.

(** The exponent part, or [None] when the text does not end as a number. *)
Definition parse_exponent (s : pystr) : option Z :=
  match s with
  | [] => Some 0%Z
  | c :: r =>
      if (ascii_lower c =? 101)%N then
        let '(neg, r') := split_sign r in
        match digitpart r' with
        | ((_ :: _) as ds, []) =>
            let e := Z.of_N (digits_value ds) in
            Some (if neg then (- e)%Z else e)
        | _ => None
        end
      else None
  end.

(** An unsigned decimal number as [(m, e)], standing for [m * 10 ^ e]. *)
Definition parse_number (s : pystr) : option (N * Z) :=
  let '(ip, r1) := digitpart s in
  let '(fp, r2) :=
    match r1 with
    | 46%N :: r => digitpart r
    | _ => ([], r1)
    end in
  match ip ++ fp with
  | [] => None
  | ds =>
      match parse_exponent r2 with
      | Some e => Some (digits_value ds, (e - Z.of_nat (length fp))%Z)
      | None => None
      end
  end.

(** [m * 10 ^ e10], correctly rounded to binary64. *)
Definition sf_of_decimal (neg : bool) (m : N) (e10 : Z) : spec_float :=
  match m with
  | N0 => S754_zero neg
  | Npos p =>
      match e10 with
      | Zneg k =>
          let '(q, e, l) :=
            SFdiv_core_binary prec emax (Zpos p) 0 (10 ^ Zpos k)%Z 0 in
          binary_round_aux prec emax neg q e l
      | _ =>
          match (Zpos p * 10 ^ e10)%Z with
          | Zpos n => binary_round prec emax neg n 0
          | _ => S754_zero neg
          end
      end
  end.

(** [float(s)]; [None] stands for [ValueError]. *)
Definition py_float (s : pystr) : option float :=
  let s := ascii_strip (map transform_decimal_and_space s) in
  let '(neg, r) := split_sign s in
  let low := map ascii_lower r in
  if bool_decide (low = py "inf") || bool_decide (low = py "infinity")
  then Some (if neg then neg_infinity else infinity)
  else if bool_decide (low = py "nan") then Some nan
  else match parse_number r with
       | Some (m, e) => Some (SF2Prim (sf_of_decimal neg m e))
       | None => None
       end.

(** *** [str()] of a float

    The shortest decimal digit string that [float()] reads back as the same
    number, laid out as [repr] does: exponent notation when the decimal
    point falls more than 16 places right or more than 3 places left of the
    first digit. *)

(** Nearest integer to [a / b], ties to even ([0 <= a], [0 < b]). *)
Definition round_div_even (a b : Z) : Z :=
  let q := (a / b)%Z in
  match (2 * (a mod b) ?= b)%Z with
  | Lt => q
  | Gt => (q + 1)%Z
  | Eq => if Z.even q then q else (q + 1)%Z
  end.

(** [m * 2 ^ e / 10 ^ k] as a fraction of integers. *)
Definition scaled_num (m : positive) (e k : Z) : Z :=
  (Zpos m * 2 ^ Z.max e 0 * 10 ^ Z.max (- k) 0)%Z.
Definition scaled_den (e k : Z) : Z :=
  (2 ^ Z.max (- e) 0 * 10 ^ Z.max k 0)%Z.

(** The position [d] of the decimal point: [10 ^ (d - 1) <= m * 2 ^ e < 10 ^ d]. *)
Definition decimal_point (m : positive) (e : Z) : Z :=
  let b := (Zpos (digits2_pos m) + e)%Z in
  let d := (b * 1233 / 4096)%Z in
  let d := if (scaled_num m e d <? scaled_den e d)%Z then (d - 1)%Z else d in
  let d := if (scaled_num m e d <? scaled_den e d)%Z then (d - 1)%Z else d in
  if (scaled_den e (d + 1) <=? scaled_num m e (d + 1))%Z then (d + 2)%Z
  else (d + 1)%Z.

(** An [n]-digit decimal, as its digits and the position of its decimal
    point; rounding up from all nines carries into one more place. *)
Definition carried (n d q : Z) : Z * Z :=
  if (q =? 10 ^ n)%Z then (10 ^ (n - 1), d + 1)%Z else (q, d).

(** The [n]-digit decimal nearest to [m * 2 ^ e]. *)
Definition round_to_digits (m : positive) (e : Z) (n : Z) : Z * Z :=
  let d := decimal_point m e in
  carried n d (round_div_even (scaled_num m e (d - n)) (scaled_den e (d - n))).

(** The two [n]-digit decimals around [m * 2 ^ e], the nearer one first. *)
Definition neighbours (m : positive) (e : Z) (n : Z) : list (Z * Z) :=
  let d := decimal_point m e in
  let a := scaled_num m e (d - n) in
  let b := scaled_den e (d - n) in
  let near := round_div_even a b in
  let far := if (near =? a / b)%Z then (a / b + 1)%Z else (a / b)%Z in
  [carried n d near; carried n d far].

(** Whether [float()] reads the [n]-digit decimal [qd] as [m * 2 ^ e]. *)
Definition reads_back (m : positive) (e : Z) (n : Z) (qd : Z * Z) : bool :=
  let '(q, d) := qd in
  match sf_of_decimal false (Z.to_N q) (d - n) with
  | S754_finite false m' e' => (m' =? m)%positive && (e' =? e)%Z
  | _ => false
  end.

(** The shortest decimal that reads back, and of the two of that length the
    nearer one; 17 digits always read back. *)
Definition shortest_digits (m : positive) (e : Z) : Z * Z :=
  let candidates :=
    flat_map (fun n => List.filter (reads_back m e n) (neighbours m e n))
             (map Z.of_nat (seq 1 16)) in
  match candidates with
  | qd :: _ => qd
  | [] => round_to_digits m e 17
  end.

Definition zeros (n : Z) : pystr := repeat 48%N (Z.to_nat n).

Definition format_short (q d : Z) : pystr :=
  let ds := digits_of (Z.to_N q) in
  let n := Z.of_nat (length ds) in
  if ((d <=? -4) || (16 <? d))%Z then
    let x := (d - 1)%Z in
    let mant := match ds with
                | c :: ((_ :: _) as rest) => c :: 46%N :: rest
                | _ => ds
                end in
    let xs := digits_of (Z.to_N (Z.abs x)) in
    mant ++ [101%N; if (x <? 0)%Z then 45%N else 43%N]
         ++ (if (Z.abs x <? 10)%Z then [48%N] else []) ++ xs
  else if (d <=? 0)%Z then py "0." ++ zeros (- d) ++ ds
  else if (n <=? d)%Z then ds ++ zeros (d - n) ++ py ".0"
  else take (Z.to_nat d) ds ++ 46%N :: drop (Z.to_nat d) ds.

(** [str(x)] for a float [x]. *)
Definition float_repr (x : float) : pystr :=
  match Prim2SF x with
  | S754_nan => py "nan"
  | S754_infinity s => (if s then [45%N] else []) ++ py "inf"
  | S754_zero s => (if s then [45%N] else []) ++ py "0.0"
  | S754_finite s m e =>
      let '(q, d) := shortest_digits m e in
      (if s then [45%N] else []) ++ format_short q d
  end.

End Py.

(** ** Exceptions *)

Module Exn.
Import Py.

Inductive exn_class :=
  | ValueError | KeyError | TypeError | FileNotFoundError | BadZipFile
  | Exception.

(** An exception: its class and [str(e)]. *)
Record exn := Exn { kind : exn_class; message : pystr }.

(** A computation that returns or raises. *)
Inductive result (A : Type) :=
  | Ok (a : A)
  | Raise (e : exn).
Arguments Ok {A} a.
Arguments Raise {A} e.

#[export] Instance result_ret : MRet result := fun A a => Ok a.
#[export] Instance result_bind : MBind result := fun A B f m =>
  match m with
  | Ok a => f a
  | Raise e => Raise e
  end.

End Exn.

(** ** pandas *)

Module Pandas.
Import Py Exn.

(** A cell as [read_excel] yields it: text, a whole number, a float (an
    empty cell reads as the float NaN), a boolean, or [None]. *)
Inductive Cell :=
  | CStr (s : pystr)
  | CInt (z : Z)
  | CFloat (x : float)
  | CBool (b : bool)
  | CNone.

Definition NaN : Cell := CFloat nan.

(** [str(x)] *)
Definition py_str (x : Cell) : pystr :=
  match x with
  | CStr s => s
  | CInt z => str_int z
  | CFloat f => float_repr f
  | CBool true => py "True"
  | CBool false => py "False"
  | CNone => py "None"
  end.

(** [pd.isna(x)] on a scalar *)
Definition isna (x : Cell) : bool :=
  match x with
  | CFloat f => is_nan f
  | CNone => true
  | _ => false
  end.

(** A table: the column labels in order and the rows in order, each row
    holding one cell per column.  [read_excel] yields distinct labels.  A
    column carries no dtype of its own: its dtype is the one its cells give
    ([dtype_of] below), and the tables [read_excel] yields are the [typed]
    ones. *)
Record DataFrame := { columns : list pystr; rows : list (list Cell) }.

(** Every row has one cell per column. *)
Definition rectangular (df : DataFrame) : Prop :=
  Forall (fun r => length r = length (columns df)) (rows df).

(** [df.empty]: no rows or no columns *)
Definition empty (df : DataFrame) : bool :=
  match columns df, rows df with
  | _ :: _, _ :: _ => false
  | _, _ => true
  end.

(** [col in df.columns] *)
Definition has_column (df : DataFrame) (col : pystr) : bool :=
  bool_decide (col ∈ columns df).

Fixpoint col_index (col : pystr) (cols : list pystr) : option nat :=
  match cols with
  | [] => None
  | c :: cols' =>
      if bool_decide (c = col) then Some O else S <$> col_index col cols'
  end.

(** The cell of a row at a column position; a cell the sheet lacks is NaN. *)
Definition cell (i : nat) (r : list Cell) : Cell := default NaN (r !! i).

(** [df[col]]: the column as a series, [KeyError] when absent *)
Definition get_col (df : DataFrame) (col : pystr) : result (list Cell) :=
  match col_index col (columns df) with
  | Some i => Ok (map (cell i) (rows df))
  | None => Raise (Exn KeyError (py "'" ++ col ++ py "'"))
  end.

(** [df[col] = series]: the column is replaced when it exists and appended
    otherwise.  ([df.loc[:, col] = series] is [loc_set_col] below.) *)
Definition set_col (df : DataFrame) (col : pystr) (series : list Cell)
  : DataFrame :=
  match col_index col (columns df) with
  | Some i =>
      {| columns := columns df;
         rows := zip_with (fun r v => <[i := v]> r) (rows df) series |}
  | None =>
      {| columns := columns df ++ [col];
         rows := zip_with (fun r v => r ++ [v]) (rows df) series |}
  end.

(** The float in a cell of a float64 column. *)
Definition as_float (x : Cell) : float :=
  match x with
  | CFloat f => f
  | _ => nan
  end.

(** The dtype [read_excel] gives a column, inferred from the cells of the
    sheet: whole numbers without an empty cell are int64; numbers with a
    float or an empty cell among them, and empty cells alone, are float64;
    booleans without an empty cell are bool; text, with or without empty
    cells, is str; any other mix is object.  A column without cells is
    object.  (This is pandas 3; pandas 2 reads text as object.) *)
Inductive dtype := Int64 | Float64 | Bool | Str | Object.

Definition is_int (x : Cell) : bool :=
  match x with CInt _ => true | _ => false end.

Definition is_number (x : Cell) : bool :=
  match x with CInt _ | CFloat _ => true | _ => false end.

Definition is_bool (x : Cell) : bool :=
  match x with CBool _ => true | _ => false end.

Definition is_text (x : Cell) : bool :=
  match x with CStr _ => true | _ => false end.

Definition dtype_of (cells : list Cell) : dtype :=
  match cells with
  | [] => Object
  | _ :: _ =>
      if forallb is_int cells then Int64
      else if forallb (fun x => is_number x || isna x) cells then Float64
      else if forallb is_bool cells then Bool
      else if forallb (fun x => is_text x || isna x) cells then Str
      else Object
  end.

(** The dtype of column [col], when the frame has it. *)
Definition column_dtype (df : DataFrame) (col : pystr) : option dtype :=
  match col_index col (columns df) with
  | Some i => Some (dtype_of (map (cell i) (rows df)))
  | None => None
  end.

(** The whole number a float is, when it is one, and when it is one that
    int64 holds. *)
Definition whole_float (x : float) : option Z :=
  match Prim2SF x with
  | S754_zero _ => Some 0%Z
  | S754_finite s m e =>
      if (0 <=? e)%Z then Some (if s then - (Zpos m * 2 ^ e) else Zpos m * 2 ^ e)%Z
      else if (Zpos m mod 2 ^ (- e) =? 0)%Z
      then Some (if s then - (Zpos m / 2 ^ (- e)) else Zpos m / 2 ^ (- e))%Z
      else None
  | _ => None
  end.

Definition float_to_int64 (x : float) : option Z :=
  match whole_float x with
  | Some z => if ((- 2 ^ 63 <=? z) && (z <? 2 ^ 63))%Z then Some z else None
  | None => None
  end.

(** A table as [read_excel] yields it.  The reader takes a number of the
    sheet that is whole as a whole number, and a column of numbers is
    float64 only when it has an empty cell or a number that is not whole;
    its whole numbers are then floats.  So a float64 column has no
    whole-number cell and has some cell that is empty or a float that is
    not whole, and a column of another dtype has no float that is whole. *)
Definition column_typed (cells : list Cell) : bool :=
  match dtype_of cells with
  | Float64 =>
      forallb (fun x => negb (is_int x)) cells
      && existsb (fun x => bool_decide (whole_float (as_float x) = None)) cells
  | _ =>
      forallb (fun x => match x with
                        | CFloat f => bool_decide (whole_float f = None)
                        | _ => true
                        end) cells
  end.

Definition typed (df : DataFrame) : Prop :=
  rectangular df
  /\ forall i, i < length (columns df) ->
       column_typed (map (cell i) (rows df)) = true.

(** [df[mask]]: the rows whose mask entry is true, in order *)
Definition select (df : DataFrame) (mask : list bool) : DataFrame :=
  {| columns := columns df;
     rows := map fst (List.filter snd (zip (rows df) mask)) |}.

(** One value under [pd.to_numeric(..., errors='coerce')]: numbers are
    kept, text is read as a number when it is one and becomes NaN
    otherwise.  pandas' reader of numeric text is taken to accept what
    [float()] accepts. *)
Definition to_numeric_coerce (x : Cell) : float :=
  match x with
  | CFloat f => f
  | CInt z => SF2Prim (binary_normalize prec emax z 0 false)
  | CBool b => if b then 1%float else 0%float
  | CStr s => match py_float s with Some f => f | None => nan end
  | CNone => nan
  end.

Definition to_numeric (series : list Cell) : list Cell :=
  map (fun x => CFloat (to_numeric_coerce x)) series.

(** [a > b] and [a - b] on float64 series, element by element *)
Definition series_gt (a b : list Cell) : list bool :=
  zip_with (fun x y => (as_float y <? as_float x)%float) a b.

Definition series_sub (a b : list Cell) : list Cell :=
  zip_with (fun x y => CFloat (as_float x - as_float y)%float) a b.

(** [TypeError] of an assignment the column's dtype cannot hold.  pandas'
    text goes on to name the values and the dtype; [message] holds its
    beginning. *)
Definition IncompatibleDtypeError : exn := Exn TypeError (py "Invalid value").

(** [df.loc[:, col] = series] with a float64 [series], where [dt] is the
    dtype of the column [col] when [df] has it.  A new column is appended.
    An existing column is set in place and keeps its dtype: a float64 or an
    object column takes the floats; an int64 column takes them as whole
    numbers when each of them is one and raises otherwise; a bool or a str
    column raises.  Assigning no value raises nothing.  (This is pandas 3;
    where it raises, pandas 2 casts the column and warns.) *)
Definition loc_set_col (dt : option dtype) (df : DataFrame) (col : pystr)
    (series : list Cell) : result DataFrame :=
  match dt, series with
  | None, _ | _, [] => Ok (set_col df col series)
  | Some Int64, _ :: _ =>
      if forallb (fun x => bool_decide (is_Some (float_to_int64 (as_float x))))
                 series
      then Ok (set_col df col
                 (map (fun x => match float_to_int64 (as_float x) with
                                | Some z => CInt z
                                | None => x
                                end) series))
      else Raise IncompatibleDtypeError
  | Some (Float64 | Object), _ :: _ => Ok (set_col df col series)
  | Some (Bool | Str), _ :: _ => Raise IncompatibleDtypeError
  end.

(** A file as [read_excel] sees it: a workbook holding a table, or content
    on which it raises.  [to_excel] stores the table it is given; the bytes
    of the workbook, which carry the time of writing, are not modelled. *)
Inductive file :=
  | Workbook (df : DataFrame)
  | Unreadable (e : exn).

Abbreviation files := (gmap pystr file).

Definition read_excel (fs : files) (path : pystr) : result DataFrame :=
  match fs !! path with
  | Some (Workbook df) => Ok df
  | Some (Unreadable e) => Raise e
  | None => Raise (Exn FileNotFoundError
                     (py "[Errno 2] No such file or directory: '" ++ path ++ py "'"))
  end.

Definition to_excel (fs : files) (path : pystr) (df : DataFrame) : files :=
  <[path := Workbook df]> fs.

End Pandas.

(** ** file_processing.py *)

Module FileProcessing.
Import Py Exn Pandas.

Definition units : list pystr :=
  Eval vm_compute in map py ["М3"; "КГ"; "Т"; "шт"; "кг"; "т"; "м3"]%string.

(** The text handed to [float()]: commas become dots, then each unit is
    removed and the text stripped, unit after unit. *)
Definition clean (text : pystr) : pystr :=
  fold_left (fun value unit => strip (replace value unit []))
            units (replace text (py ",") (py ".")).

Definition normalize_numeric (value : Cell) : Cell :=
  if isna value then value
  else
    let value := clean (py_str value) in
    match py_float value with
    | Some x => CFloat x
    | None => CStr value
    end.

Definition ID : pystr := Eval vm_compute in py "ID Материала".
Definition RECEIVED : pystr := Eval vm_compute in py "Поступило всего".
Definition REQUESTED : pystr := Eval vm_compute in py "Кол-во по заявке".
Definition DISCREPANCY : pystr :=
  Eval vm_compute in py "Расхождение заявка-приход".

Definition required_columns : list pystr := [ID; RECEIVED; REQUESTED].

(** The three failures the pipeline raises itself. *)
Definition EmptyInputError : exn := Exn ValueError (py "Файл пустой").
Definition MissingColumnsError (missing_columns : list pystr) : exn :=
  Exn ValueError (py "Отсутствуют колонки: " ++ join (py ", ") missing_columns).
Definition InvalidNumericDataError : exn :=
  Exn ValueError (py "В числовых колонках есть некорректные данные").

(** The material-ID correction: [lambda x: str(x).replace('I', '1')] *)
Definition fix_id (x : Cell) : Cell := CStr (replace (py_str x) (py "I") (py "1")).

(** The body of [process_xlsb_file] between reading and writing.  The
    filtered copy keeps the dtypes of the frame it is taken from. *)
Definition pipeline (df : DataFrame) : result DataFrame :=
  if empty df then Raise EmptyInputError
  else
    let missing_columns :=
      List.filter (fun col => negb (has_column df col)) required_columns in
    match missing_columns with
    | _ :: _ => Raise (MissingColumnsError missing_columns)
    | [] =>
        ids ← get_col df ID;
        let df := set_col df ID (map fix_id ids) in
        received ← get_col df RECEIVED;
        let df := set_col df RECEIVED (map normalize_numeric received) in
        requested ← get_col df REQUESTED;
        let df := set_col df REQUESTED (map normalize_numeric requested) in
        received ← get_col df RECEIVED;
        let df := set_col df RECEIVED (to_numeric received) in
        requested ← get_col df REQUESTED;
        let df := set_col df REQUESTED (to_numeric requested) in
        received ← get_col df RECEIVED;
        requested ← get_col df REQUESTED;
        if existsb isna received || existsb isna requested
        then Raise InvalidNumericDataError
        else
          let filtered_df := select df (series_gt requested received) in
          requested ← get_col filtered_df REQUESTED;
          received ← get_col filtered_df RECEIVED;
          loc_set_col (column_dtype df DISCREPANCY) filtered_df DISCREPANCY
                      (series_sub requested received)
    end.

(** [Exception(f"Ошибка обработки файла: {str(e)}")] *)
Definition wrapped (e : exn) : exn :=
  Exn Exception (py "Ошибка обработки файла: " ++ message e).

(** Any exception in the body is re-raised as a plain [Exception]; the
    output is written only when the body returns.  (The line printed to
    standard output on success is left out.) *)
Definition process_xlsb_file (fs : files) (input_path output_path : pystr)
  : files * result unit :=
  match read_excel fs input_path ≫= pipeline with
  | Ok filtered_df => (to_excel fs output_path filtered_df, Ok tt)
  | Raise e => (fs, Raise (wrapped e))
  end.

End FileProcessing.

(** ** main.py

    The three request handlers and the background coroutine.
    [cleanup_old_files] runs once when the service starts, before any
    request, and only deletes old files; it is left out. *)

Module Main.
Import Py Exn Pandas FileProcessing.

(** An entry of the [tasks] dictionary. *)
Record task := { status : pystr; output_path : pystr; error : option pystr }.

(** A coroutine handed to [asyncio.create_task]: the [process_task] closure
    with the variables it captured. *)
Record coroutine :=
  { co_task_id : pystr; co_input_path : pystr; co_output_path : pystr }.

(** The state of the service: the files under [TEMP_DIR], the [tasks]
    dictionary and the coroutines the event loop has still to run. *)
Record world :=
  { fs : files; tasks : gmap pystr task; loop : list coroutine }.

Definition TEMP_DIR : pystr := py "temp".

(** [os.path.join(a, b)] for a relative [b] *)
Definition path_join (a b : pystr) : pystr := a ++ py "/" ++ b.

(** What a handler answers: an [HTTPException], an exception nobody
    caught, or its return value. *)
Inductive response :=
  | HTTPException (status_code : nat) (detail : pystr)
  | Unhandled (e : exn)
  | Uploaded (task_id : pystr)
  | TaskStatus (task_id status : pystr) (error : option pystr)
  | FileResponse (path filename : pystr).

(** [upload_file]; [task_id] is the value [uuid.uuid4()] returned and
    [content] the uploaded bytes as [read_excel] will see them. *)
Definition upload_file (filename : pystr) (content : file) (task_id : pystr)
    (w : world) : world * response :=
  if negb (endswith filename (py ".xlsx")) then
    (w, HTTPException 400 (py "Требуется файл с расширением .xlsx"))
  else
    let input_path := path_join TEMP_DIR (task_id ++ py "_input.xlsx") in
    let output_path := path_join TEMP_DIR (task_id ++ py "_output.xlsx") in
    let tasks :=
      <[task_id := {| status := py "pending"; output_path := output_path;
                      error := None |}]> (tasks w) in
    let fs := <[input_path := content]> (fs w) in
    match read_excel fs input_path with
    | Raise e =>
        match kind e with
        | ValueError =>
            ({| fs := delete input_path fs; tasks := tasks; loop := loop w |},
             HTTPException 400 (py "Некорректный формат XLSX-файла"))
        | _ => ({| fs := fs; tasks := tasks; loop := loop w |}, Unhandled e)
        end
    | Ok _ =>
        ({| fs := fs; tasks := tasks;
            loop := loop w ++ [{| co_task_id := task_id;
                                  co_input_path := input_path;
                                  co_output_path := output_path |}] |},
         Uploaded task_id)
    end.

Definition set_status (s : pystr) (t : task) : task :=
  {| status := s; output_path := output_path t; error := error t |}.

Definition set_error (e : pystr) (t : task) : task :=
  {| status := status t; output_path := output_path t; error := Some e |}.

(** [process_task]: the coroutine body, run to completion in one go (it
    never awaits). *)
Definition process_task (c : coroutine) (w : world) : world :=
  let '(fs', r) :=
    process_xlsb_file (fs w) (co_input_path c) (co_output_path c) in
  let tasks' :=
    match r with
    | Ok _ => alter (set_status (py "success")) (co_task_id c) (tasks w)
    | Raise e =>
        alter (set_error (message e)) (co_task_id c)
              (alter (set_status (py "failed")) (co_task_id c) (tasks w))
    end in
  {| fs := delete (co_input_path c) fs'; tasks := tasks'; loop := loop w |}.

(** One turn of the event loop: the oldest waiting coroutine runs. *)
Definition run_next (w : world) : world :=
  match loop w with
  | [] => w
  | c :: rest =>
      process_task c {| fs := fs w; tasks := tasks w; loop := rest |}
  end.

Definition get_status (task_id : pystr) (w : world) : response :=
  match tasks w !! task_id with
  | None => HTTPException 404 (py "Задача не найдена")
  | Some t => TaskStatus task_id (status t) (error t)
  end.

Definition get_result (task_id : pystr) (w : world) : response :=
  match tasks w !! task_id with
  | None => HTTPException 404 (py "Задача не найдена")
  | Some t =>
      if negb (bool_decide (status t = py "success")) then
        HTTPException 404 (py "Задача не завершена или завершилась с ошибкой")
      else
        match fs w !! output_path t with
        | None => HTTPException 404 (py "Результат не найден")
        | Some _ =>
            FileResponse (output_path t)
                         (py "result_" ++ task_id ++ py ".xlsx")
        end
  end.

(** What can happen to the running service. *)
Inductive event :=
  | Upload (filename : pystr) (content : file) (task_id : pystr)
  | Turn
  | Status (task_id : pystr)
  | Result (task_id : pystr).

(** One event; an upload draws a [task_id] no task has yet (a fresh
    UUID).  The two read-only handlers leave the state as it is. *)
Inductive step : world -> event -> world -> Prop :=
  | step_upload w filename content task_id :
      tasks w !! task_id = None ->
      step w (Upload filename content task_id)
           (upload_file filename content task_id w).1
  | step_turn w : step w Turn (run_next w)
  | step_status w task_id : step w (Status task_id) w
  | step_result w task_id : step w (Result task_id) w.

Inductive steps : world -> list event -> world -> Prop :=
  | steps_nil w : steps w [] w
  | steps_cons w1 ev w2 evs w3 :
      step w1 ev w2 -> steps w2 evs w3 -> steps w1 (ev :: evs) w3.

(** The service as it starts: no task, nothing scheduled. *)
Definition start (fs : files) : world := {| fs := fs; tasks := ∅; loop := [] |}.

End Main.

Import Py Exn Pandas FileProcessing Main.

(** ** Vocabulary of the properties *)

(** *** Text *)

(** Character [c] with [a] turned into [b]. *)
Definition subst_char (a b c : N) : N := if (c =? a)%N then b else c.

(** Text made of unit tokens and whitespace, in any arrangement. *)
Inductive unit_suffix (allowed : list pystr) : pystr -> Prop :=
  | suffix_end : unit_suffix allowed []
  | suffix_space c t :
      isspace c = true -> unit_suffix allowed t -> unit_suffix allowed (c :: t)
  | suffix_unit u t :
      u ∈ allowed -> unit_suffix allowed t -> unit_suffix allowed (u ++ t).

(** What the removal order needs of a unit list: a unit starts with a
    character that no later unit contains, and holds no whitespace. *)
Fixpoint ordered_units (us : list pystr) : bool :=
  match us with
  | [] => true
  | u :: rest =>
      match u with
      | [] => false
      | h :: _ => forallb (forallb (fun c => negb (c =? h)%N)) rest
      end
      && forallb (fun c => negb (isspace c)) u
      && ordered_units rest
  end.

(** *** Rows of a table *)

(** [r] with the cell at [i] sent through [f]. *)
Definition update (i : nat) (f : Cell -> Cell) (r : list Cell) : list Cell :=
  <[i := f (cell i r)]> r.

(** The cell of row [r] under column [col] of [df]. *)
Definition at_col (df : DataFrame) (col : pystr) (r : list Cell) : Cell :=
  match col_index col (columns df) with
  | Some i => cell i r
  | None => NaN
  end.

(** Row [r] with [v] under column [col]: in place when [df] has the
    column, as a new last cell otherwise. *)
Definition put (df : DataFrame) (col : pystr) (v : Cell) (r : list Cell)
  : list Cell :=
  match col_index col (columns df) with
  | Some i => <[i := v]> r
  | None => r ++ [v]
  end.

(** A quantity cell after normalisation and numeric coercion. *)
Definition quantity (x : Cell) : float :=
  to_numeric_coerce (normalize_numeric x).

Definition requested (df : DataFrame) (r : list Cell) : float :=
  quantity (at_col df REQUESTED r).

Definition received (df : DataFrame) (r : list Cell) : float :=
  quantity (at_col df RECEIVED r).

(** The filter: requested quantity strictly above received quantity. *)
Definition exceeds (df : DataFrame) (r : list Cell) : bool :=
  (received df r <? requested df r)%float.

(** An input row with its identifier corrected and its two quantities
    as numbers; the other cells as they were. *)
Definition normalized_row (df : DataFrame) (r : list Cell) : list Cell :=
  put df REQUESTED (CFloat (requested df r))
    (put df RECEIVED (CFloat (received df r))
       (put df ID (fix_id (at_col df ID r)) r)).

(** The discrepancy [d] as the discrepancy column of the output holds it:
    a whole number when the input has an int64 column of that name, a float
    otherwise. *)
Definition discrepancy_cell (df : DataFrame) (d : float) : Cell :=
  match column_dtype df DISCREPANCY, float_to_int64 d with
  | Some Int64, Some z => CInt z
  | _, _ => CFloat d
  end.

(** Whether the discrepancy column of [df], if it has one, can hold the
    discrepancy of row [r]. *)
Definition discrepancy_fits (df : DataFrame) (r : list Cell) : bool :=
  match column_dtype df DISCREPANCY with
  | Some Int64 =>
      bool_decide (is_Some (float_to_int64 (requested df r - received df r)))
  | Some (Bool | Str) => false
  | _ => true
  end.

(** The output row of an input row. *)
Definition output_row (df : DataFrame) (r : list Cell) : list Cell :=
  put df DISCREPANCY
      (discrepancy_cell df (requested df r - received df r)%float)
      (normalized_row df r).

(** The input has no discrepancy column, or one of floats. *)
Definition float_discrepancy (df : DataFrame) : Prop :=
  column_dtype df DISCREPANCY = None
  \/ column_dtype df DISCREPANCY = Some Float64.

(** The columns of the output. *)
Definition output_columns (df : DataFrame) : list pystr :=
  if has_column df DISCREPANCY then columns df
  else columns df ++ [DISCREPANCY].

(** The required columns a table lacks, in the order the code lists them. *)
Definition missing (df : DataFrame) : list pystr :=
  List.filter (fun col => negb (has_column df col)) required_columns.

(** *** Floats *)

(** A float strictly above zero. *)
Definition positive_float (x : spec_float) : Prop :=
  SFltb (S754_zero false) x = true.

(** *** The service *)

(** Handle [h] is registered as pending, without an error, and no waiting
    coroutine works for it. *)
Definition abandoned (h : pystr) (w : world) : Prop :=
  (exists t, tasks w !! h = Some t /\ status t = py "pending" /\ error t = None)
  /\ Forall (fun c => co_task_id c <> h) (loop w).

(** Every waiting coroutine works for a registered handle. *)
Definition loop_registered (w : world) : Prop :=
  Forall (fun c => is_Some (tasks w !! co_task_id c)) (loop w).

(** *** Sample tables *)

(** The table of the repository's tests. *)
Definition test_data : DataFrame :=
  {| columns :=
       [RECEIVED; py "№ Акта ВК"; py "Дата выпуска акта ВК";
        py "№ упаковочного листа"; ID; py "Наименование ТМЦ";
        py "Единица измерения"; REQUESTED; py "Масса, кг"; py "Длина, м";
        py "Площадь, м²"; py "Объем, м³"];
     rows :=
       [[CFloat 506; CStr []; CStr []; CStr []; CStr (py "I46872");
         CStr (py "Бетонная смесь B25"); CStr (py "м3"); CStr (py "358 М3");
         CStr (py "-"); CStr (py "-"); CStr (py "-"); CStr (py "-")];
        [CFloat 369; CStr []; CStr []; CStr []; CStr (py "694304");
         CStr (py "Бетонная смесь B25"); CStr (py "м3"); CStr (py "80 М3");
         CStr (py "-"); CStr (py "-"); CStr (py "-"); CStr (py "-")];
        [CFloat 723; CStr []; CStr []; CStr []; CStr (py "727698");
         CStr (py "Гайка М20"); CStr (py "кг"); CStr (py "934 КГ");
         CStr (py "-"); CStr (py "-"); CStr (py "-"); CStr (py "-")]] |}.

(** What the pipeline makes of it: the third row, with its discrepancy. *)
Definition test_output : DataFrame :=
  {| columns := columns test_data ++ [DISCREPANCY];
     rows :=
       [[CFloat 723; CStr []; CStr []; CStr []; CStr (py "727698");
         CStr (py "Гайка М20"); CStr (py "кг"); CFloat 934;
         CStr (py "-"); CStr (py "-"); CStr (py "-"); CStr (py "-");
         CFloat 211]] |}.


(** A table with a text column of that name and the quantities the other
    way round: nothing passes. *)
Definition rerun_table_none : DataFrame :=
  {| columns := [ID; RECEIVED; REQUESTED; DISCREPANCY];
     rows := [[CStr (py "727698"); CInt 934; CInt 723; CStr (py "old")]] |}.

(** The table of the test for invalid numeric data. *)
Definition invalid_data : DataFrame :=
  {| columns := [ID; RECEIVED; REQUESTED];
     rows := [[CStr (py "I123"); CStr (py "abc"); CStr (py "100")]] |}.

(** A table without the two quantity columns. *)
Definition ids_only : DataFrame :=
  {| columns := [ID; py "Наименование ТМЦ"];
     rows := [[CStr (py "I123"); CStr (py "Гайка М20")]] |}.

(** A table with none of the required columns. *)
Definition names_only : DataFrame :=
  {| columns := [py "Наименование ТМЦ"];
     rows := [[CStr (py "Гайка М20")]] |}.

(** A table whose only row is fully received. *)
Definition fulfilled : DataFrame :=
  {| columns := [ID; RECEIVED; REQUESTED];
     rows := [[CStr (py "694304"); CInt 369; CStr (py "80 М3")]] |}.

(** A table with an empty identifier cell and a whole-number identifier, as
    read: the identifier column is float64. *)
Definition blank_id : DataFrame :=
  {| columns := [ID; RECEIVED; REQUESTED];
     rows := [[NaN; CInt 1; CInt 2]; [CFloat 146872; CInt 1; CInt 2]] |}.

(** *** Digits *)

(** An ASCII digit, which is no whitespace to [strip] nor to [float()]. *)
Definition plain_digit (c : N) : Prop :=
  (48 <= c <= 57)%N /\ isspace c = false /\ ascii_isspace c = false.

(** *** The life of a task *)

(** The two files of handle [h], as [upload_file] names them. *)
Definition input_path_of (h : pystr) : pystr :=
  path_join TEMP_DIR (h ++ py "_input.xlsx").

Definition output_path_of (h : pystr) : pystr :=
  path_join TEMP_DIR (h ++ py "_output.xlsx").

(** The coroutine [upload_file] schedules for handle [h]. *)
Definition coroutine_of (h : pystr) : coroutine :=
  {| co_task_id := h; co_input_path := input_path_of h;
     co_output_path := output_path_of h |}.

(** A task record in one of the three states the handlers give it: pending,
    finished with the output written, or failed with the wrapped message of
    an exception. *)
Definition task_ok (w : world) (h : pystr) (t : task) : Prop :=
  output_path t = output_path_of h
  /\ (status t = py "pending" /\ error t = None
      \/ status t = py "success" /\ error t = None
         /\ (exists out, fs w !! output_path_of h = Some (Workbook out))
      \/ status t = py "failed"
         /\ exists e, error t = Some (message (wrapped e))).

(** A waiting coroutine is the one of its handle, its task is pending and
    its input file is a workbook. *)
Definition coroutine_ok (w : world) (c : coroutine) : Prop :=
  c = coroutine_of (co_task_id c)
  /\ (exists t, tasks w !! co_task_id c = Some t /\ status t = py "pending")
  /\ exists df, fs w !! input_path_of (co_task_id c) = Some (Workbook df).

(** What every state of the running service satisfies. *)
Definition well_formed (w : world) : Prop :=
  NoDup (map co_task_id (loop w))
  /\ Forall (coroutine_ok w) (loop w)
  /\ forall h t, tasks w !! h = Some t -> task_ok w h t.

(** [n] turns of the event loop. *)
Fixpoint turns (n : nat) (w : world) : world :=
  match n with
  | O => w
  | S k => turns k (run_next w)
  end.

(** ** Properties of the text operations *)

Section Text.

#[local] Arguments isspace : simpl never.

Lemma startswith_nil (s : pystr) : startswith s [] = true.
Proof. destruct s; reflexivity. Qed.

Lemma startswith_app (u s : pystr) : startswith (u ++ s) u = true.
Proof.
  induction u as [|c u IH]; [apply startswith_nil|].
  cbn. rewrite N.eqb_refl. exact IH.
Qed.

Lemma startswith_other (h c : N) (u s : pystr) :
  c <> h -> startswith (c :: s) (h :: u) = false.
Proof.
  intros Hne. cbn. destruct (N.eqb_spec h c); [congruence|reflexivity].
Qed.

(** A single character replaced by a single character: a pointwise map. *)
Lemma replace_char (s : pystr) (a b : N) :
  replace s [a] [b] = map (subst_char a b) s.
Proof.
  unfold replace. induction s as [|c s IH]; [reflexivity|].
  cbn [replace_from startswith length Nat.sub map].
  rewrite startswith_nil, andb_true_r. unfold subst_char at 1.
  rewrite N.eqb_sym. destruct (c =? a)%N; cbn; f_equal; exact IH.
Qed.

Lemma replace_from_skip (old new a s : pystr) :
  replace_from old new (length a) (a ++ s) = replace_from old new 0 s.
Proof.
  induction a as [|c a IH]; [reflexivity|exact IH].
Qed.

(** An occurrence at the front is consumed whole. *)
Lemma replace_from_occurrence (h : N) (u new s : pystr) :
  replace_from (h :: u) new 0 ((h :: u) ++ s)
  = new ++ replace_from (h :: u) new 0 s.
Proof.
  change ((h :: u) ++ s) with (h :: (u ++ s)).
  cbn [replace_from]. change (h :: u ++ s) with ((h :: u) ++ s).
  rewrite startswith_app.
  replace (length (h :: u) - 1) with (length u) by (cbn [length]; lia).
  f_equal. apply replace_from_skip.
Qed.

(** Text without the first character of [old] is copied. *)
Lemma replace_from_other (h : N) (u new b s : pystr) :
  Forall (fun c => c <> h) b ->
  replace_from (h :: u) new 0 (b ++ s) = b ++ replace_from (h :: u) new 0 s.
Proof.
  induction 1 as [|c b Hc _ IH]; [reflexivity|].
  change ((c :: b) ++ s) with (c :: (b ++ s)).
  cbn [replace_from]. rewrite (startswith_other h c) by exact Hc.
  cbn. f_equal. exact IH.
Qed.

Lemma lstrip_app_nonspace (c : N) (a s : pystr) :
  isspace c = false -> lstrip (a ++ c :: s) = lstrip a ++ c :: s.
Proof.
  intros Hc. induction a as [|d a IH]; cbn.
  - rewrite Hc. reflexivity.
  - destruct (isspace d); [exact IH|reflexivity].
Qed.

Lemma lstrip_spaces (a : pystr) :
  Forall (fun c => isspace c = true) a -> lstrip a = [].
Proof.
  induction 1 as [|c a Hc _ IH]; [reflexivity|].
  cbn. rewrite Hc. exact IH.
Qed.

Lemma lstrip_snoc (a : pystr) (c : N) :
  lstrip (a ++ [c])
  = match lstrip a with
    | [] => if isspace c then [] else [c]
    | r => r ++ [c]
    end.
Proof.
  induction a as [|d a IH]; [reflexivity|].
  cbn [app lstrip]. destruct (isspace d); [exact IH|reflexivity].
Qed.

(** [rstrip] read from the left. *)
Lemma rstrip_cons (c : N) (s : pystr) :
  rstrip (c :: s)
  = match rstrip s with
    | [] => if isspace c then [] else [c]
    | r => c :: r
    end.
Proof.
  unfold rstrip. cbn [rev]. rewrite lstrip_snoc.
  destruct (lstrip (rev s)) as [|d r].
  - cbn [rev]. destruct (isspace c); reflexivity.
  - rewrite rev_app_distr. cbn [rev app].
    destruct (rev r ++ [d]) eqn:E; [|reflexivity].
    destruct (rev r); discriminate.
Qed.

Lemma rstrip_nonspace_app (a s : pystr) :
  Forall (fun c => isspace c = false) a -> rstrip (a ++ s) = a ++ rstrip s.
Proof.
  induction 1 as [|c a Hc _ IH]; [reflexivity|].
  change ((c :: a) ++ s) with (c :: (a ++ s)).
  rewrite rstrip_cons, IH.
  change ((c :: a) ++ rstrip s) with (c :: (a ++ rstrip s)).
  destruct (a ++ rstrip s); [rewrite Hc|]; reflexivity.
Qed.

Lemma rstrip_spaces (a : pystr) :
  Forall (fun c => isspace c = true) a -> rstrip a = [].
Proof.
  induction 1 as [|c a Hc _ IH]; [reflexivity|].
  rewrite rstrip_cons, IH, Hc. reflexivity.
Qed.

Lemma unit_suffix_spaces (t : pystr) :
  unit_suffix [] t -> Forall (fun c => isspace c = true) t.
Proof.
  induction 1 as [|c t Hc _ IH|u t Hu _ _]; [constructor|constructor; auto|].
  inversion Hu.
Qed.

Lemma unit_suffix_lstrip (A : list pystr) (t : pystr) :
  Forall (fun u => Forall (fun c => isspace c = false) u) A ->
  Forall (fun u => u <> []) A ->
  unit_suffix A t -> unit_suffix A (lstrip t).
Proof.
  intros HA HA'. induction 1 as [|c t Hc _ IH|u t Hu Ht IH].
  - constructor.
  - cbn [lstrip]. rewrite Hc. exact IH.
  - rewrite Forall_forall in HA, HA'.
    specialize (HA u Hu). specialize (HA' u Hu).
    destruct u as [|h u]; [congruence|].
    inversion_clear HA as [|? ? Hh _].
    change ((h :: u) ++ t) with (h :: (u ++ t)). cbn [lstrip]. rewrite Hh.
    change (h :: u ++ t) with ((h :: u) ++ t). constructor; assumption.
Qed.

Lemma unit_suffix_rstrip (A : list pystr) (t : pystr) :
  Forall (fun u => Forall (fun c => isspace c = false) u) A ->
  unit_suffix A t -> unit_suffix A (rstrip t).
Proof.
  intros HA. induction 1 as [|c t Hc _ IH|u t Hu Ht IH].
  - constructor.
  - rewrite rstrip_cons, Hc.
    destruct (rstrip t) eqn:E; [constructor|].
    constructor; assumption.
  - rewrite Forall_forall in HA.
    rewrite rstrip_nonspace_app by (apply HA; exact Hu).
    constructor; assumption.
Qed.

(** Removing the first unit of the list leaves text over the other units. *)
Lemma unit_suffix_replace (h : N) (u : pystr) (rest : list pystr) (t : pystr) :
  Forall (fun v => Forall (fun c => c <> h) v) rest ->
  isspace h = false ->
  unit_suffix ((h :: u) :: rest) t ->
  unit_suffix rest (replace t (h :: u) []).
Proof.
  intros Hrest Hh. unfold replace.
  induction 1 as [|c t Hc _ IH|v t Hv Ht IH].
  - constructor.
  - cbn [replace_from].
    rewrite (startswith_other h c) by congruence.
    constructor; assumption.
  - apply elem_of_cons in Hv as [->|Hv].
    + rewrite replace_from_occurrence. exact IH.
    + rewrite Forall_forall in Hrest.
      rewrite replace_from_other by (apply Hrest; exact Hv).
      constructor; assumption.
Qed.

Lemma strip_nonspace_app (num t : pystr) :
  Forall (fun c => isspace c = false) num ->
  strip (num ++ t)
  = num ++ rstrip (match num with [] => lstrip t | _ :: _ => t end).
Proof.
  intros Hnum. unfold strip. destruct Hnum as [|c num Hc Hnum].
  - reflexivity.
  - change ((c :: num) ++ t) with (c :: (num ++ t)). cbn [lstrip]. rewrite Hc.
    change (c :: num ++ t) with ((c :: num) ++ t).
    apply rstrip_nonspace_app. constructor; assumption.
Qed.

(** One turn of the loop over the units. *)
Lemma clean_step (num : pystr) (h : N) (u : pystr) (rest : list pystr)
    (t : pystr) :
  ordered_units ((h :: u) :: rest) = true ->
  Forall (fun c => isspace c = false /\ c <> h) num ->
  unit_suffix ((h :: u) :: rest) t ->
  exists t', strip (replace (num ++ t) (h :: u) []) = num ++ t'
             /\ unit_suffix rest t' /\ (rest = [] -> t' = []).
Proof.
  intros Hord Hnum Ht. cbn [ordered_units] in Hord.
  apply andb_prop in Hord as [Hord Hrest_ord].
  apply andb_prop in Hord as [Hheads Hu].
  assert (Hh : isspace h = false).
  { cbn [forallb] in Hu. apply andb_prop in Hu as [Hu _].
    destruct (isspace h); [discriminate|reflexivity]. }
  assert (Hrest : Forall (fun v => Forall (fun c => c <> h) v) rest).
  { rewrite forallb_forall in Hheads. apply Forall_forall. intros v Hv.
    apply list_elem_of_In in Hv. specialize (Hheads v Hv).
    rewrite forallb_forall in Hheads. apply Forall_forall. intros c Hc.
    apply list_elem_of_In in Hc. specialize (Hheads c Hc).
    destruct (N.eqb_spec c h); [discriminate|assumption]. }
  assert (Hspace : Forall (fun v => Forall (fun c => isspace c = false) v) rest
                   /\ Forall (fun v => v <> []) rest).
  { clear -Hrest_ord. induction rest as [|v rest IH]; [split; constructor|].
    cbn [ordered_units] in Hrest_ord.
    apply andb_prop in Hrest_ord as [Hv Hr].
    apply andb_prop in Hv as [Hv1 Hv2].
    destruct (IH Hr) as [IH1 IH2]. split; constructor; try assumption.
    - rewrite forallb_forall in Hv2. apply Forall_forall. intros c Hc.
      apply list_elem_of_In in Hc. specialize (Hv2 c Hc).
      destruct (isspace c); [discriminate|reflexivity].
    - destruct v; [discriminate|congruence]. }
  destruct Hspace as [Hspace Hne].
  pose proof (unit_suffix_replace h u rest t Hrest Hh Ht) as Hr.
  assert (Hrepl : replace (num ++ t) (h :: u) []
                  = num ++ replace t (h :: u) []).
  { unfold replace. apply replace_from_other.
    eapply Forall_impl; [exact Hnum|]. cbn. tauto. }
  rewrite Hrepl, strip_nonspace_app
    by (eapply Forall_impl; [exact Hnum|]; cbn; tauto).
  eexists. split; [reflexivity|]. split.
  - apply unit_suffix_rstrip; [exact Hspace|].
    destruct num; [apply unit_suffix_lstrip|]; assumption.
  - intros ->. apply rstrip_spaces, unit_suffix_spaces.
    destruct num; [apply unit_suffix_lstrip|]; assumption.
Qed.

(** The whole loop: a text followed by units and whitespace is left bare. *)
Lemma clean_units (us : list pystr) (num t : pystr) :
  us <> [] ->
  ordered_units us = true ->
  Forall (fun c => isspace c = false /\ Forall (fun u => head u <> Some c) us) num ->
  unit_suffix us t ->
  fold_left (fun value unit => strip (replace value unit [])) us (num ++ t)
  = num.
Proof.
  intros Hne Hord Hnum. revert t. induction us as [|u us IH]; [congruence|].
  intros t Ht. clear Hne.
  destruct u as [|h u]; [discriminate|].
  destruct (clean_step num h u us t Hord) as (t' & Hstep & Ht' & Hlast).
  { eapply Forall_impl; [exact Hnum|]. cbn. intros c [Hc Hheads].
    split; [exact Hc|]. inversion_clear Hheads as [|? ? Hh _].
    cbn in Hh. congruence. }
  { exact Ht. }
  cbn [fold_left]. rewrite Hstep.
  destruct us as [|u2 us].
  - rewrite (Hlast eq_refl), app_nil_r. reflexivity.
  - apply IH; [congruence| | |exact Ht'].
    + cbn [ordered_units] in Hord. apply andb_prop in Hord as [_ Hord].
      exact Hord.
    + eapply Forall_impl; [exact Hnum|]. cbn. intros c [Hc Hheads].
      split; [exact Hc|]. inversion_clear Hheads. assumption.
Qed.

End Text.

(** ** normalize_numeric and the material-ID correction *)

Lemma units_codes :
  units = [[1052; 51]; [1050; 1043]; [1058]; [1096; 1090]; [1082; 1075];
           [1090]; [1084; 51]]%N.
Proof. reflexivity. Qed.

(** The cleaned text of a number followed by units and whitespace. *)
Lemma clean_unit_suffix (num sfx : pystr) :
  Forall (fun c => (c < 128)%N /\ isspace c = false) num ->
  unit_suffix units sfx ->
  clean (num ++ sfx) = map (subst_char 44 46) num.
Proof.
  intros Hnum Hsfx. unfold clean.
  change (py ",") with [44%N]. change (py ".") with [46%N].
  rewrite replace_char, map_app.
  assert (Hs : map (subst_char 44 46) sfx = sfx).
  { clear -Hsfx. induction Hsfx as [|c t Hc _ IH|u t Hu _ IH].
    - reflexivity.
    - cbn [map]. rewrite IH. unfold subst_char.
      destruct (N.eqb_spec c 44) as [->|_]; [discriminate Hc|reflexivity].
    - rewrite map_app, IH. f_equal.
      rewrite units_codes in Hu.
      repeat (apply elem_of_cons in Hu as [->|Hu]; [reflexivity|]).
      inversion Hu. }
  rewrite Hs. apply clean_units.
  - rewrite units_codes. discriminate.
  - reflexivity.
  - rewrite units_codes. apply Forall_forall. intros c Hc.
    apply list_elem_of_In, in_map_iff in Hc as (d & <- & Hd).
    apply list_elem_of_In in Hd.
    rewrite Forall_forall in Hnum. destruct (Hnum d Hd) as [Hlt Hsp].
    unfold subst_char. destruct (N.eqb_spec d 44) as [_|_].
    + split; [reflexivity|].
      repeat constructor; cbn; intros [= H]; discriminate H.
    + split; [exact Hsp|].
      repeat constructor; cbn; intros [= H]; rewrite <- H in Hlt; lia.
  - exact Hsfx.
Qed.

Lemma normalize_numeric_text (s : pystr) :
  normalize_numeric (CStr s)
  = match py_float (clean s) with
    | Some x => CFloat x
    | None => CStr (clean s)
    end.
Proof. reflexivity. Qed.

Lemma uint_codes_digits (d : Decimal.uint) :
  Forall (fun c => (48 <= c <= 57)%N) (uint_codes d).
Proof. induction d; cbn [uint_codes]; constructor; (lia || assumption). Qed.

Lemma str_int_no_I (z : Z) : Forall (fun c => c <> 73%N) (str_int z).
Proof.
  assert (H : forall n, Forall (fun c => c <> 73%N) (digits_of n)).
  { intros n. eapply Forall_impl; [apply uint_codes_digits|]. cbn. lia. }
  destruct z; cbn [str_int]; [apply H|apply H|].
  constructor; [discriminate|apply H].
Qed.

Lemma float_repr_no_I (x : float) : Forall (fun c => c <> 73%N) (float_repr x).
Proof.
  assert (Hd : forall n, Forall (fun c => c <> 73%N) (digits_of n)).
  { intros n. eapply Forall_impl; [apply uint_codes_digits|]. cbn. lia. }
  assert (Hz : forall n, Forall (fun c => c <> 73%N) (zeros n)).
  { intros n. unfold zeros. apply Forall_forall. intros c Hc.
    apply list_elem_of_In, repeat_spec in Hc. subst c. discriminate. }
  assert (Hs : forall s : bool,
             Forall (fun c => c <> 73%N) (if s then [45%N] else [])).
  { intros [|]; repeat constructor. discriminate. }
  unfold float_repr. destruct (Prim2SF x) as [s|s| |s m e].
  - apply Forall_app; split; [apply Hs|]. repeat constructor; discriminate.
  - apply Forall_app; split; [apply Hs|]. repeat constructor; discriminate.
  - repeat constructor; discriminate.
  - destruct (shortest_digits m e) as [q d].
    apply Forall_app; split; [apply Hs|]. unfold format_short.
    pose proof (Hd (Z.to_N q)) as Hq.
    destruct ((d <=? -4)%Z || (16 <? d)%Z).
    + apply Forall_app; split.
      * destruct (digits_of (Z.to_N q)) as [|c [|c' l]]; try exact Hq.
        inversion_clear Hq as [|? ? H1 H2].
        constructor; [exact H1|]. constructor; [discriminate|exact H2].
      * constructor; [discriminate|]. constructor.
        { destruct (d - 1 <? 0)%Z; discriminate. }
        apply Forall_app; split; [|apply Hd].
        destruct (Z.abs (d - 1) <? 10)%Z; repeat constructor. discriminate.
    + destruct (d <=? 0)%Z.
      * apply Forall_app; split; [repeat constructor; discriminate|].
        apply Forall_app; split; [apply Hz|exact Hq].
      * destruct (Z.of_nat (length (digits_of (Z.to_N q))) <=? d)%Z.
        { apply Forall_app; split; [exact Hq|].
          apply Forall_app; split; [apply Hz|].
          repeat constructor; discriminate. }
        apply Forall_app; split; [apply Forall_take; exact Hq|].
        constructor; [discriminate|apply Forall_drop; exact Hq].
Qed.

Lemma map_subst_id (a b : N) (s : pystr) :
  Forall (fun c => c <> a) s -> map (subst_char a b) s = s.
Proof.
  induction 1 as [|c s Hc _ IH]; [reflexivity|].
  cbn [map]. rewrite IH. unfold subst_char.
  destruct (N.eqb_spec c a); [contradiction|reflexivity].
Qed.

(** C3 (as amended): for every ASCII text without whitespace followed by
    unit tokens of the code's list (the Cyrillic spellings) and whitespace
    in any arrangement, [normalize_numeric] gives what it gives for the
    text alone with its commas turned into dots: the tokens are removed as
    substrings, also without whitespace before them and when there are
    several.  ["80 М3"] and ["80,0 М3"] (Cyrillic М) normalise to [80.0]. *)
Theorem normalize_numeric_units (num sfx : pystr) :
  Forall (fun c => (c < 128)%N /\ isspace c = false) num ->
  unit_suffix units sfx ->
  normalize_numeric (CStr (num ++ sfx))
  = normalize_numeric (CStr (map (subst_char 44 46) num))
  /\ (forall x, py_float (map (subst_char 44 46) num) = Some x ->
      normalize_numeric (CStr (num ++ sfx)) = CFloat x)
  /\ normalize_numeric (CStr (py "80 М3")) = CFloat 80%float
  /\ normalize_numeric (CStr (py "80,0 М3")) = CFloat 80%float
  /\ normalize_numeric (CStr (py "7,5шт")) = CFloat 7.5%float
  /\ normalize_numeric (CStr (py "934 КГ шт")) = CFloat 934%float.
Proof.
  intros Hnum Hsfx.
  assert (Hdot : Forall (fun c => (c < 128)%N /\ isspace c = false)
                        (map (subst_char 44 46) num)).
  { apply Forall_forall. intros c Hc.
    apply list_elem_of_In, in_map_iff in Hc as (d & <- & Hd).
    apply list_elem_of_In in Hd. rewrite Forall_forall in Hnum.
    specialize (Hnum d Hd). unfold subst_char.
    destruct (d =? 44)%N; [split; [lia|reflexivity]|exact Hnum]. }
  assert (Hidem : map (subst_char 44 46) (map (subst_char 44 46) num)
                  = map (subst_char 44 46) num).
  { apply map_subst_id. apply Forall_forall. intros c Hc.
    apply list_elem_of_In, in_map_iff in Hc as (d & <- & _).
    unfold subst_char. destruct (N.eqb_spec d 44); [discriminate|assumption]. }
  assert (Hclean : clean (num ++ sfx) = map (subst_char 44 46) num)
    by (apply clean_unit_suffix; assumption).
  assert (Hclean' : clean (map (subst_char 44 46) num)
                    = map (subst_char 44 46) num).
  { rewrite <- (app_nil_r (map _ num)) at 1.
    rewrite clean_unit_suffix; [exact Hidem|exact Hdot|constructor]. }
  rewrite !normalize_numeric_text, Hclean, Hclean'.
  split; [reflexivity|]. split; [intros x ->; reflexivity|].
  repeat split; vm_compute; reflexivity.
Qed.

(** The theorem at ["80,5"] followed by [" КГ"]. *)
Lemma normalize_numeric_units_witness :
  normalize_numeric (CStr (py "80,5" ++ py " КГ")) = CFloat 80.5%float.
Proof.
  refine (proj1 (proj2 (normalize_numeric_units (py "80,5") (py " КГ") _ _))
                _ _).
  - vm_compute. repeat constructor.
  - change (py " КГ") with (32%N :: ([1050; 1043]%N ++ [])).
    apply suffix_space; [reflexivity|].
    apply suffix_unit; [|apply suffix_end].
    rewrite units_codes. apply list_elem_of_In. vm_compute. tauto.
  - vm_compute. reflexivity.
Defined.

(** C3 as stated fails: a Latin-spelt unit is not in the code's list, so
    ["80 M3"] (Latin M) is not read as a number. *)
Lemma latin_unit_kept :
  normalize_numeric (CStr (py "80 M3")) = CStr (py "80 M3")
  /\ normalize_numeric (CStr (py "80 M3")) <> CFloat 80%float.
Proof.
  split; [vm_compute; reflexivity|].
  intros H. vm_compute in H. discriminate H.
Qed.

(** C4 (as amended): when the cleaned text of a value that is not missing
    fails to parse, [normalize_numeric] returns the cleaned text (commas
    turned to dots, units removed, stripped); numeric coercion then makes
    it NaN.  [normalize("invalid")] is ["invalid"]. *)
Theorem normalize_numeric_unparsed (value : Cell) :
  isna value = false ->
  py_float (clean (py_str value)) = None ->
  normalize_numeric value = CStr (clean (py_str value))
  /\ to_numeric_coerce (normalize_numeric value) = nan
  /\ normalize_numeric (CStr (py "invalid")) = CStr (py "invalid").
Proof.
  intros Hna Hfail. unfold normalize_numeric. rewrite Hna, Hfail.
  split; [reflexivity|]. split; [|vm_compute; reflexivity].
  cbn [to_numeric_coerce]. rewrite Hfail. reflexivity.
Qed.

(** The theorem at ["1,2,3"]. *)
Lemma normalize_numeric_unparsed_witness :
  normalize_numeric (CStr (py "1,2,3")) = CStr (py "1.2.3").
Proof.
  refine (proj1 (normalize_numeric_unparsed (CStr (py "1,2,3")) _ _)).
  - reflexivity.
  - vm_compute. reflexivity.
Defined.

(** C4 as stated fails: what comes back is the cleaned text, not the
    original value. *)
Lemma unparsed_not_original :
  normalize_numeric (CStr (py "1,2,3")) = CStr (py "1.2.3")
  /\ normalize_numeric (CStr (py "1,2,3")) <> CStr (py "1,2,3").
Proof.
  split; [vm_compute; reflexivity|].
  intros H. vm_compute in H. discriminate H.
Qed.

(** C6: on a text identifier the correction turns every ["I"] (code point
    73) into ["1"] (code point 49) and leaves every other character as it
    is; ["I46872"] becomes ["146872"]. *)
Theorem fix_id_text (s : pystr) :
  fix_id (CStr s) = CStr (map (fun c => if (c =? 73)%N then 49%N else c) s)
  /\ fix_id (CStr (py "I46872")) = CStr (py "146872").
Proof.
  split; [|vm_compute; reflexivity].
  unfold fix_id. cbn [py_str].
  change (py "I") with [73%N]. change (py "1") with [49%N].
  rewrite replace_char. reflexivity.
Qed.

(** ** The pipeline, row by row *)

Section Rows.

Lemma bind_Ok {A B} (a : A) (f : A -> result B) : (Ok a ≫= f) = f a.
Proof. reflexivity. Qed.

Lemma col_index_Some (col : pystr) (cols : list pystr) :
  col ∈ cols -> exists i, col_index col cols = Some i.
Proof.
  induction cols as [|c cols IH]; [inversion 1|].
  intros Hin. cbn [col_index]. case_bool_decide as Hc; [eauto|].
  apply elem_of_cons in Hin as [->|Hin]; [congruence|].
  destruct (IH Hin) as [i ->]. eauto.
Qed.

Lemma col_index_None (col : pystr) (cols : list pystr) :
  col ∉ cols -> col_index col cols = None.
Proof.
  induction cols as [|c cols IH]; [reflexivity|].
  intros Hin. cbn [col_index]. case_bool_decide as Hc.
  - subst c. exfalso. apply Hin. left.
  - rewrite IH; [reflexivity|]. intros H. apply Hin. right. exact H.
Qed.

Lemma col_index_lookup (col : pystr) (cols : list pystr) (i : nat) :
  col_index col cols = Some i -> cols !! i = Some col.
Proof.
  revert i. induction cols as [|c cols IH]; [discriminate|].
  intros i. cbn [col_index]. case_bool_decide as Hc.
  - intros [= <-]. subst c. reflexivity.
  - destruct (col_index col cols) as [j|]; [|discriminate].
    intros [= <-]. cbn. apply IH. reflexivity.
Qed.

Lemma col_index_ne (a b : pystr) (cols : list pystr) (i j : nat) :
  col_index a cols = Some i -> col_index b cols = Some j -> a <> b -> i <> j.
Proof.
  intros Ha Hb Hne ->. apply col_index_lookup in Ha, Hb. congruence.
Qed.

Lemma get_col_rows (df : DataFrame) (col : pystr) (i : nat) :
  col_index col (columns df) = Some i ->
  get_col df col = Ok (map (cell i) (rows df)).
Proof. intros H. unfold get_col. rewrite H. reflexivity. Qed.

Lemma zip_with_map_same {A B C} (f : A -> B -> C) (g : A -> B) (l : list A) :
  zip_with f l (map g l) = map (fun x => f x (g x)) l.
Proof. induction l; cbn; f_equal; assumption. Qed.

Lemma set_col_map (df : DataFrame) (col : pystr) (i : nat)
    (g : list Cell -> Cell) :
  col_index col (columns df) = Some i ->
  set_col df col (map g (rows df))
  = {| columns := columns df;
       rows := map (fun r => <[i := g r]> r) (rows df) |}.
Proof.
  intros H. unfold set_col. rewrite H, zip_with_map_same. reflexivity.
Qed.

Lemma cell_insert_ne (i j : nat) (v : Cell) (r : list Cell) :
  i <> j -> cell j (<[i := v]> r) = cell j r.
Proof. intros H. unfold cell. rewrite list_lookup_insert_ne by exact H. reflexivity. Qed.

Lemma cell_insert_eq (i : nat) (v : Cell) (r : list Cell) :
  i < length r -> cell i (<[i := v]> r) = v.
Proof. intros H. unfold cell. rewrite list_lookup_insert_eq by exact H. reflexivity. Qed.

Lemma cell_ge (i : nat) (r : list Cell) : length r <= i -> cell i r = NaN.
Proof. intros H. unfold cell. rewrite lookup_ge_None_2 by exact H. reflexivity. Qed.

Lemma update_update (i : nat) (f g : Cell -> Cell) (r : list Cell) :
  update i g (update i f r) = update i (fun x => g (f x)) r.
Proof.
  unfold update. rewrite list_insert_insert_eq.
  destruct (Nat.lt_ge_cases i (length r)) as [Hlt|Hge].
  - rewrite cell_insert_eq by exact Hlt. reflexivity.
  - rewrite !list_insert_ge by exact Hge. reflexivity.
Qed.

Lemma update_comm (i j : nat) (f g : Cell -> Cell) (r : list Cell) :
  i <> j -> update i f (update j g r) = update j g (update i f r).
Proof.
  intros H. unfold update.
  rewrite !cell_insert_ne by congruence.
  apply list_insert_insert_ne. exact H.
Qed.

Lemma cell_update_ne (i j : nat) (f : Cell -> Cell) (r : list Cell) :
  i <> j -> cell j (update i f r) = cell j r.
Proof. intros H. apply cell_insert_ne. exact H. Qed.

(** A cell sent through a function that keeps NaN reads as its image, also
    in a row too short to hold it. *)
Lemma cell_update_eq (i : nat) (f : Cell -> Cell) (r : list Cell) :
  f NaN = NaN -> cell i (update i f r) = f (cell i r).
Proof.
  intros HNaN. unfold update.
  destruct (Nat.lt_ge_cases i (length r)) as [Hlt|Hge].
  - apply cell_insert_eq. exact Hlt.
  - rewrite list_insert_ge by exact Hge.
    rewrite cell_ge by exact Hge. symmetry. exact HNaN.
Qed.

Lemma quantity_NaN : CFloat (quantity NaN) = NaN.
Proof. reflexivity. Qed.

Lemma select_rows {A} (a b : A -> Cell) (l : list A) :
  map fst (List.filter snd (zip l (series_gt (map a l) (map b l))))
  = List.filter (fun x => (as_float (b x) <? as_float (a x))%float) l.
Proof.
  induction l as [|x l IH]; [reflexivity|].
  cbn. destruct (as_float (b x) <? as_float (a x))%float; cbn; f_equal; exact IH.
Qed.

Lemma filter_map {A B} (p : B -> bool) (f : A -> B) (l : list A) :
  List.filter p (map f l) = map f (List.filter (fun x => p (f x)) l).
Proof.
  induction l as [|x l IH]; [reflexivity|].
  cbn. destruct (p (f x)); cbn; f_equal; exact IH.
Qed.

Lemma zip_with_sub_same {A C} (f : A -> Cell -> C) (a b : A -> Cell)
    (l : list A) :
  zip_with f l (series_sub (map a l) (map b l))
  = map (fun x => f x (CFloat (as_float (a x) - as_float (b x))%float)) l.
Proof. induction l; cbn; f_equal; assumption. Qed.

Lemma existsb_orb {A} (p q : A -> bool) (l : list A) :
  existsb p l || existsb q l = existsb (fun x => p x || q x) l.
Proof.
  induction l as [|x l IH]; [reflexivity|].
  cbn. rewrite <- IH. destruct (p x), (q x), (existsb p l); reflexivity.
Qed.

Lemma existsb_pointwise {A} (p q : A -> bool) (l : list A) :
  (forall x, p x = q x) -> existsb p l = existsb q l.
Proof.
  intros H. induction l as [|x l IH]; cbn; [reflexivity|].
  rewrite H, IH. reflexivity.
Qed.

Lemma existsb_map {A B} (p : B -> bool) (f : A -> B) (l : list A) :
  existsb p (map f l) = existsb (fun x => p (f x)) l.
Proof. induction l as [|x l IH]; cbn; [reflexivity|]. rewrite IH. reflexivity. Qed.

Lemma has_column_index (df : DataFrame) (col : pystr) :
  has_column df col = true -> exists i, col_index col (columns df) = Some i.
Proof.
  unfold has_column. intros H. apply bool_decide_eq_true in H.
  apply col_index_Some. exact H.
Qed.

Lemma missing_nil (df : DataFrame) :
  missing df = [] ->
  has_column df ID = true /\ has_column df RECEIVED = true
  /\ has_column df REQUESTED = true.
Proof.
  unfold missing, required_columns. cbn [List.filter].
  destruct (has_column df ID), (has_column df RECEIVED),
    (has_column df REQUESTED); cbn [negb]; intros H; try discriminate H; auto.
Qed.

Lemma names_distinct :
  ID <> RECEIVED /\ ID <> REQUESTED /\ RECEIVED <> REQUESTED
  /\ DISCREPANCY <> ID /\ DISCREPANCY <> RECEIVED /\ DISCREPANCY <> REQUESTED.
Proof. repeat split; intros H; vm_compute in H; discriminate H. Qed.

(** The five column assignments, as one function on a row. *)
Lemma normalized_row_updates (df : DataFrame) (i1 i2 i3 : nat)
    (r : list Cell) :
  col_index ID (columns df) = Some i1 ->
  col_index RECEIVED (columns df) = Some i2 ->
  col_index REQUESTED (columns df) = Some i3 ->
  update i3 (fun x => CFloat (to_numeric_coerce x))
    (update i2 (fun x => CFloat (to_numeric_coerce x))
       (update i3 normalize_numeric
          (update i2 normalize_numeric (update i1 fix_id r))))
  = normalized_row df r.
Proof.
  intros H1 H2 H3.
  destruct names_distinct as (N12 & N13 & N23 & _).
  pose proof (col_index_ne _ _ _ _ _ H1 H2 N12) as D12.
  pose proof (col_index_ne _ _ _ _ _ H1 H3 N13) as D13.
  pose proof (col_index_ne _ _ _ _ _ H2 H3 N23) as D23.
  rewrite (update_comm i2 i3) by exact D23.
  rewrite update_update, update_update.
  unfold normalized_row, put, requested, received, at_col.
  rewrite H1, H2, H3. unfold update, quantity.
  rewrite !cell_insert_ne by congruence. reflexivity.
Qed.

Lemma cell_normalized_row (df : DataFrame) (i : nat) (col : pystr)
    (r : list Cell) :
  missing df = [] ->
  col = RECEIVED \/ col = REQUESTED ->
  col_index col (columns df) = Some i ->
  cell i (normalized_row df r) = CFloat (quantity (at_col df col r)).
Proof.
  intros Hm Hcol Hi.
  destruct (missing_nil df Hm) as (C1 & C2 & C3).
  destruct (has_column_index _ _ C1) as [i1 H1].
  destruct (has_column_index _ _ C2) as [i2 H2].
  destruct (has_column_index _ _ C3) as [i3 H3].
  destruct names_distinct as (N12 & N13 & N23 & _).
  pose proof (col_index_ne _ _ _ _ _ H1 H2 N12) as D12.
  pose proof (col_index_ne _ _ _ _ _ H1 H3 N13) as D13.
  pose proof (col_index_ne _ _ _ _ _ H2 H3 N23) as D23.
  unfold normalized_row, put, requested, received, at_col.
  rewrite H1, H2, H3.
  assert (Hq : forall j, j <> i1 ->
    cell j (<[j := CFloat (quantity (cell j r))]> (<[i1 := fix_id (cell i1 r)]> r))
    = CFloat (quantity (cell j r))).
  { intros j Hj.
    pose proof (cell_update_eq j (fun x => CFloat (quantity x))
                  (<[i1 := fix_id (cell i1 r)]> r) quantity_NaN) as Hc.
    unfold update in Hc. rewrite (cell_insert_ne i1 j) in Hc by congruence.
    exact Hc. }
  destruct Hcol as [-> | ->]; rewrite Hi;
    [rewrite H2 in Hi | rewrite H3 in Hi]; injection Hi as <-.
  - rewrite cell_insert_ne by congruence. apply Hq. congruence.
  - rewrite list_insert_insert_ne by congruence.
    rewrite cell_insert_ne by congruence. apply Hq. congruence.
Qed.

(** The cells of the other columns come through normalisation as they are. *)
Lemma cell_normalized_row_other (df : DataFrame) (col : pystr) (i : nat)
    (r : list Cell) :
  missing df = [] ->
  col_index col (columns df) = Some i ->
  col <> ID -> col <> RECEIVED -> col <> REQUESTED ->
  cell i (normalized_row df r) = cell i r.
Proof.
  intros Hm Hi N1 N2 N3.
  destruct (missing_nil df Hm) as (C1 & C2 & C3).
  destruct (has_column_index _ _ C1) as [i1 H1].
  destruct (has_column_index _ _ C2) as [i2 H2].
  destruct (has_column_index _ _ C3) as [i3 H3].
  pose proof (col_index_ne _ _ _ _ _ Hi H1 N1) as D1.
  pose proof (col_index_ne _ _ _ _ _ Hi H2 N2) as D2.
  pose proof (col_index_ne _ _ _ _ _ Hi H3 N3) as D3.
  unfold normalized_row, put. rewrite H1, H2, H3.
  rewrite !cell_insert_ne by congruence. reflexivity.
Qed.

Lemma zip_with_maps {A B C D} (h : B -> C -> D) (f : A -> B) (g : A -> C)
    (l : list A) :
  zip_with h (map f l) (map g l) = map (fun x => h (f x) (g x)) l.
Proof. induction l; cbn; f_equal; assumption. Qed.

Lemma series_sub_map {A} (a b : A -> Cell) (l : list A) :
  series_sub (map a l) (map b l)
  = map (fun x => CFloat (as_float (a x) - as_float (b x))%float) l.
Proof. apply zip_with_maps. Qed.

Lemma forallb_map_eq {A B} (p : B -> bool) (f : A -> B) (l : list A) :
  forallb p (map f l) = forallb (fun x => p (f x)) l.
Proof. induction l as [|x l IH]; cbn; [reflexivity|]. rewrite IH. reflexivity. Qed.

Lemma forallb_const_true {A} (l : list A) : forallb (fun _ => true) l = true.
Proof. induction l; [reflexivity|assumption]. Qed.

Lemma loc_set_col_new (df : DataFrame) (col : pystr) (series : list Cell) :
  loc_set_col None df col series = Ok (set_col df col series).
Proof. destruct series; reflexivity. Qed.

Lemma loc_set_col_nil (dt : option dtype) (df : DataFrame) (col : pystr) :
  loc_set_col dt df col [] = Ok (set_col df col []).
Proof. destruct dt as [[| | | |]|]; reflexivity. Qed.

Lemma loc_set_col_cons (dt : dtype) (df : DataFrame) (col : pystr)
    (series : list Cell) :
  series <> [] ->
  loc_set_col (Some dt) df col series
  = match dt with
    | Int64 =>
        if forallb (fun x => bool_decide (is_Some (float_to_int64 (as_float x))))
                   series
        then Ok (set_col df col
                   (map (fun x => match float_to_int64 (as_float x) with
                                  | Some z => CInt z
                                  | None => x
                                  end) series))
        else Raise IncompatibleDtypeError
    | Float64 | Object => Ok (set_col df col series)
    | Bool | Str => Raise IncompatibleDtypeError
    end.
Proof. destruct series; [congruence|]. destruct dt; reflexivity. Qed.

(** Normalisation leaves the dtype of the discrepancy column as read. *)
Lemma column_dtype_normalized (df : DataFrame) :
  missing df = [] ->
  column_dtype {| columns := columns df;
                  rows := map (normalized_row df) (rows df) |} DISCREPANCY
  = column_dtype df DISCREPANCY.
Proof.
  intros Hm. unfold column_dtype. cbn [columns rows].
  destruct (col_index DISCREPANCY (columns df)) as [i4|] eqn:H4; [|reflexivity].
  destruct names_distinct as (_ & _ & _ & N1 & N2 & N3).
  rewrite map_map. do 2 f_equal. apply map_ext. intros r.
  exact (cell_normalized_row_other df DISCREPANCY i4 r Hm H4 N1 N2 N3).
Qed.

(** The assignment of the discrepancy, on the rows that pass the filter. *)
Lemma loc_set_col_discrepancy (df : DataFrame) (kept : list (list Cell)) :
  loc_set_col (column_dtype df DISCREPANCY)
    {| columns := columns df; rows := map (normalized_row df) kept |}
    DISCREPANCY
    (map (fun r => CFloat (requested df r - received df r)%float) kept)
  = if forallb (discrepancy_fits df) kept
    then Ok {| columns := output_columns df;
               rows := map (output_row df) kept |}
    else Raise IncompatibleDtypeError.
Proof.
  unfold discrepancy_fits, output_row, discrepancy_cell, output_columns,
    has_column, put.
  destruct (column_dtype df DISCREPANCY) as [dt|] eqn:Hdt;
    unfold column_dtype in Hdt;
    destruct (col_index DISCREPANCY (columns df)) as [i4|] eqn:H4;
    try discriminate Hdt.
  - pose proof (list_elem_of_lookup_2 _ _ _ (col_index_lookup _ _ _ H4)) as Hin.
    rewrite bool_decide_eq_true_2 by exact Hin. clear Hdt.
    assert (Hset : forall g : list Cell -> Cell,
      set_col {| columns := columns df; rows := map (normalized_row df) kept |}
              DISCREPANCY (map g kept)
      = {| columns := columns df;
           rows := map (fun r => <[i4 := g r]> (normalized_row df r)) kept |}).
    { intros g. unfold set_col. cbn [columns rows]. rewrite H4.
      rewrite zip_with_maps. reflexivity. }
    destruct kept as [|r0 kept0] eqn:Ek.
    { rewrite loc_set_col_nil.
      exact (f_equal Ok (Hset (fun _ => NaN))). }
    rewrite <- Ek in *.
    rewrite loc_set_col_cons
      by (rewrite Ek; discriminate).
    destruct dt.
    + rewrite forallb_map_eq. cbn [as_float].
      destruct (forallb _ kept); [|reflexivity].
      rewrite map_map, Hset. reflexivity.
    + rewrite forallb_const_true, Hset. reflexivity.
    + rewrite Ek. reflexivity.
    + rewrite Ek. reflexivity.
    + rewrite forallb_const_true, Hset. reflexivity.
  - assert (Hin : DISCREPANCY ∉ columns df).
    { intros Hin. apply col_index_Some in Hin as [i Hi]. congruence. }
    rewrite bool_decide_eq_false_2 by exact Hin.
    rewrite loc_set_col_new, forallb_const_true.
    unfold set_col. cbn [columns rows]. rewrite H4, zip_with_maps.
    reflexivity.
Qed.

(** What the pipeline computes, in terms of the rows of its input. *)
Lemma pipeline_rows (df : DataFrame) :
  empty df = false ->
  missing df = [] ->
  pipeline df
  = if existsb (fun r => is_nan (received df r) || is_nan (requested df r))
               (rows df)
    then Raise InvalidNumericDataError
    else if forallb (discrepancy_fits df) (List.filter (exceeds df) (rows df))
    then Ok {| columns := output_columns df;
               rows := map (output_row df)
                           (List.filter (exceeds df) (rows df)) |}
    else Raise IncompatibleDtypeError.
Proof.
  intros Hempty Hm.
  destruct (missing_nil df Hm) as (C1 & C2 & C3).
  destruct (has_column_index _ _ C1) as [i1 H1].
  destruct (has_column_index _ _ C2) as [i2 H2].
  destruct (has_column_index _ _ C3) as [i3 H3].
  unfold pipeline. rewrite Hempty. fold (missing df). rewrite Hm.
  rewrite (get_col_rows df ID i1 H1), bind_Ok. cbv zeta.
  rewrite map_map, (set_col_map df ID i1) by exact H1.
  fold (update i1 fix_id).
  set (rows1 := map (update i1 fix_id) (rows df)).
  rewrite (get_col_rows _ RECEIVED i2) by exact H2.
  rewrite bind_Ok. cbn [rows columns].
  rewrite map_map.
  rewrite (set_col_map {| columns := columns df; rows := rows1 |} RECEIVED i2)
    by exact H2.
  cbn [rows columns]. fold (update i2 normalize_numeric).
  set (rows2 := map (update i2 normalize_numeric) rows1).
  rewrite (get_col_rows _ REQUESTED i3) by exact H3.
  rewrite bind_Ok. cbn [rows columns].
  rewrite map_map.
  rewrite (set_col_map {| columns := columns df; rows := rows2 |} REQUESTED i3)
    by exact H3.
  cbn [rows columns]. fold (update i3 normalize_numeric).
  set (rows3 := map (update i3 normalize_numeric) rows2).
  rewrite (get_col_rows _ RECEIVED i2) by exact H2.
  rewrite bind_Ok. cbn [rows columns].
  unfold to_numeric. rewrite map_map.
  rewrite (set_col_map {| columns := columns df; rows := rows3 |} RECEIVED i2)
    by exact H2.
  cbn [rows columns].
  fold (update i2 (fun x => CFloat (to_numeric_coerce x))).
  set (rows4 := map (update i2 (fun x => CFloat (to_numeric_coerce x))) rows3).
  rewrite (get_col_rows _ REQUESTED i3) by exact H3.
  rewrite bind_Ok. cbn [rows columns].
  rewrite map_map.
  rewrite (set_col_map {| columns := columns df; rows := rows4 |} REQUESTED i3)
    by exact H3.
  cbn [rows columns].
  fold (update i3 (fun x => CFloat (to_numeric_coerce x))).
  set (rows5 := map (update i3 (fun x => CFloat (to_numeric_coerce x))) rows4).
  assert (Hrows : rows5 = map (normalized_row df) (rows df)).
  { unfold rows5, rows4, rows3, rows2, rows1. rewrite !map_map.
    apply map_ext. intros r. apply normalized_row_updates; assumption. }
  clearbody rows5. clear rows1 rows2 rows3 rows4. subst rows5.
  assert (Hrec : forall r, cell i2 (normalized_row df r) = CFloat (received df r)).
  { intros r. exact (cell_normalized_row df i2 RECEIVED r Hm (or_introl eq_refl) H2). }
  assert (Hreq : forall r, cell i3 (normalized_row df r) = CFloat (requested df r)).
  { intros r. exact (cell_normalized_row df i3 REQUESTED r Hm (or_intror eq_refl) H3). }
  remember (normalized_row df) as nrow eqn:Hn.
  pose proof (fun d => get_col_rows {| columns := columns df; rows := d |}
                         RECEIVED i2 H2) as G2.
  pose proof (fun d => get_col_rows {| columns := columns df; rows := d |}
                         REQUESTED i3 H3) as G3.
  cbn [rows columns] in G2, G3.
  rewrite G2, bind_Ok, G3, bind_Ok, !map_map.
  rewrite !existsb_map, existsb_orb.
  erewrite existsb_pointwise; [|intros r; rewrite Hrec, Hreq; reflexivity].
  cbn [isna].
  destruct (existsb _ (rows df)); [reflexivity|].
  unfold select. cbn [rows columns].
  rewrite <- !map_map with (f := nrow).
  rewrite select_rows, filter_map.
  erewrite List.filter_ext;
    [|intros r; rewrite Hrec, Hreq; cbn [as_float]; reflexivity].
  fold (exceeds df).
  set (kept := List.filter (exceeds df) (rows df)).
  rewrite G3, bind_Ok, G2, bind_Ok.
  rewrite (map_map nrow (cell i3) kept), (map_map nrow (cell i2) kept).
  rewrite series_sub_map.
  replace (map (fun x => CFloat (as_float (cell i3 (nrow x))
                                 - as_float (cell i2 (nrow x)))%float) kept)
    with (map (fun r => CFloat (requested df r - received df r)%float) kept)
    by (apply map_ext; intros r; rewrite Hrec, Hreq; reflexivity).
  rewrite Hn, (column_dtype_normalized df Hm).
  apply loc_set_col_discrepancy.
Qed.

End Rows.

(** ** Binary64 subtraction keeps a strict order *)

Section Binary64.

Local Open Scope Z_scope.

Lemma digits2_pos_bounds (p : positive) :
  2 ^ (Zpos (digits2_pos p) - 1) <= Zpos p < 2 ^ Zpos (digits2_pos p).
Proof.
  induction p as [p IH|p IH|]; cbn [digits2_pos].
  - rewrite Pos2Z.inj_succ.
    replace (Z.succ (Zpos (digits2_pos p)) - 1)
      with (Z.succ (Zpos (digits2_pos p) - 1)) by lia.
    rewrite !Z.pow_succ_r by lia. lia.
  - rewrite Pos2Z.inj_succ.
    replace (Z.succ (Zpos (digits2_pos p)) - 1)
      with (Z.succ (Zpos (digits2_pos p) - 1)) by lia.
    rewrite !Z.pow_succ_r by lia. lia.
  - cbn. lia.
Qed.

Lemma shr_1_half (mrs : shr_record) :
  0 <= shr_m mrs -> shr_m (shr_1 mrs) = shr_m mrs / 2.
Proof.
  destruct mrs as [m r s]. cbn [shr_m]. intros Hm.
  destruct m as [|[p|p|]|p]; cbn [shr_1 shr_m]; try lia.
  - reflexivity.
  - rewrite Pos2Z.inj_xI. apply Z.div_unique with (r := 1); lia.
  - rewrite Pos2Z.inj_xO. apply Z.div_unique with (r := 0); lia.
  - reflexivity.
Qed.

Lemma pow2_xO (n : positive) : 2 ^ Zpos n~0 = 2 ^ Zpos n * 2 ^ Zpos n.
Proof. rewrite <- Z.pow_add_r by lia. f_equal. lia. Qed.

Lemma pow2_xI (n : positive) : 2 ^ Zpos n~1 = 2 * (2 ^ Zpos n * 2 ^ Zpos n).
Proof.
  rewrite <- Z.pow_add_r, <- Z.pow_succ_r by lia. f_equal. lia.
Qed.

Lemma iter_shr_1 (n : positive) (mrs : shr_record) :
  0 <= shr_m mrs ->
  shr_m (SpecFloat.iter_pos shr_1 n mrs) = shr_m mrs / 2 ^ Zpos n.
Proof.
  revert mrs. induction n as [n IH|n IH|]; intros mrs Hm;
    cbn [SpecFloat.iter_pos].
  - assert (H1 : 0 <= shr_m (shr_1 mrs)).
    { rewrite shr_1_half by exact Hm. apply Z.div_pos; lia. }
    assert (H2 : 0 <= shr_m (SpecFloat.iter_pos shr_1 n (shr_1 mrs))).
    { rewrite IH by exact H1. apply Z.div_pos; lia. }
    rewrite IH by exact H2. rewrite IH by exact H1.
    rewrite shr_1_half by exact Hm.
    rewrite !Z.div_div by lia. rewrite pow2_xI. reflexivity.
  - assert (H1 : 0 <= shr_m (SpecFloat.iter_pos shr_1 n mrs)).
    { rewrite IH by exact Hm. apply Z.div_pos; lia. }
    rewrite IH by exact H1. rewrite IH by exact Hm.
    rewrite Z.div_div by lia. rewrite pow2_xO. reflexivity.
  - rewrite shr_1_half by exact Hm. reflexivity.
Qed.

Lemma shr_record_of_loc_m (m : Z) (l : location) :
  shr_m (shr_record_of_loc m l) = m.
Proof. destruct l as [|[| |]]; reflexivity. Qed.

(** Shifting to the format's exponent never loses a whole number. *)
Lemma shr_fexp_positive (m : positive) (e : Z) (l : location) :
  -1074 <= e ->
  0 < shr_m (fst (shr_fexp prec emax (Zpos m) e l))
  /\ -1074 <= snd (shr_fexp prec emax (Zpos m) e l).
Proof.
  intros He. unfold shr_fexp, shr, fexp, SpecFloat.emin, Zdigits2.
  change prec with 53. change emax with 1024.
  pose proof (digits2_pos_bounds m) as [Hlo Hhi].
  set (d := Zpos (digits2_pos m)) in *.
  destruct (Z.max (d + e - 53) (3 - 1024 - 53) - e) as [|n|n] eqn:En;
    cbn [fst snd]; rewrite ?shr_record_of_loc_m; try lia.
  rewrite iter_shr_1 by (rewrite shr_record_of_loc_m; lia).
  rewrite shr_record_of_loc_m.
  assert (Hn : Zpos n = d - 53) by lia.
  split; [|lia].
  apply Z.div_str_pos. split; [lia|].
  apply Z.le_trans with (2 ^ (d - 1)); [|exact Hlo].
  apply Z.pow_le_mono_r; lia.
Qed.

Lemma round_nearest_even_ge (m : Z) (l : location) :
  m <= round_nearest_even m l.
Proof.
  destruct l as [|[| |]]; cbn [round_nearest_even]; try lia.
  destruct (Z.even m); lia.
Qed.

Lemma binary_round_aux_positive (m : positive) (e : Z) (l : location) :
  -1074 <= e ->
  positive_float (binary_round_aux prec emax false (Zpos m) e l).
Proof.
  intros He. unfold binary_round_aux.
  pose proof (shr_fexp_positive m e l He) as [Hm1 He1].
  destruct (shr_fexp prec emax (Zpos m) e l) as [mrs1 e1].
  cbn [fst snd] in Hm1, He1.
  pose proof (round_nearest_even_ge (shr_m mrs1) (loc_of_shr_record mrs1)) as Hr.
  destruct (round_nearest_even (shr_m mrs1) (loc_of_shr_record mrs1))
    as [|m2|m2]; try lia.
  pose proof (shr_fexp_positive m2 e1 loc_Exact He1) as [Hm2 _].
  destruct (shr_fexp prec emax (Zpos m2) e1 loc_Exact) as [mrs2 e2].
  cbn [fst snd] in Hm2.
  destruct (shr_m mrs2) as [|m3|m3]; try lia.
  destruct (e2 <=? emax - prec); reflexivity.
Qed.

Lemma pos_iter_xO (m d : positive) :
  Zpos (Pos.iter xO m d) = Zpos m * 2 ^ Zpos d.
Proof.
  induction d as [|d IH] using Pos.peano_ind.
  - cbn. lia.
  - rewrite Pos.iter_succ, Pos2Z.inj_xO, IH, Pos2Z.inj_succ.
    rewrite Z.pow_succ_r by lia. lia.
Qed.

Lemma shl_align_value (m : positive) (e e' : Z) :
  e' <= e -> Zpos (fst (shl_align m e e')) = Zpos m * 2 ^ (e - e').
Proof.
  intros H. unfold shl_align.
  destruct (e' - e) as [|d|d] eqn:E; cbn [fst]; try lia.
  - replace (e - e') with 0 by lia. lia.
  - rewrite pos_iter_xO. f_equal. f_equal. lia.
Qed.

Lemma binary_round_positive (m : positive) (e : Z) :
  -1074 <= e -> positive_float (binary_round prec emax false m e).
Proof.
  intros He. unfold binary_round.
  destruct (shl_align m e (fexp prec emax (Zpos (digits2_pos m) + e)))
    as [mz ez] eqn:E.
  apply binary_round_aux_positive.
  unfold shl_align in E.
  assert (Hf : -1074 <= fexp prec emax (Zpos (digits2_pos m) + e)).
  { unfold fexp, SpecFloat.emin. change prec with 53. change emax with 1024. lia. }
  destruct (fexp prec emax (Zpos (digits2_pos m) + e) - e);
    injection E as <- <-; lia.
Qed.

(** What validity says of a finite binary64 number. *)
Lemma valid_finite (s : bool) (m : positive) (e : Z) :
  valid_binary (S754_finite s m e) = true ->
  -1074 <= e /\ Zpos m < 2 ^ 53 /\ (-1074 < e -> 2 ^ 52 <= Zpos m).
Proof.
  cbn [SpecFloat.valid_binary]. unfold bounded, canonical_mantissa, fexp, SpecFloat.emin.
  change prec with 53. change emax with 1024.
  intros H. apply andb_prop in H as [H _]. apply Z.eqb_eq in H.
  pose proof (digits2_pos_bounds m) as [Hlo Hhi].
  set (d := Zpos (digits2_pos m)) in *.
  assert (Hd : d <= 53) by lia.
  split; [lia|]. split.
  - apply Z.lt_le_trans with (2 ^ d); [exact Hhi|].
    apply Z.pow_le_mono_r; lia.
  - intros He. assert (d = 53) by lia. subst d.
    replace 52 with (Zpos (digits2_pos m) - 1) by lia. exact Hlo.
Qed.

(** [y < x] makes [x - y] strictly positive, for valid binary64 numbers. *)
Lemma SFsub_positive (x y : spec_float) :
  valid_binary x = true -> valid_binary y = true ->
  SFltb y x = true -> positive_float (SFsub prec emax x y).
Proof.
  intros Vx Vy Hlt. unfold SFltb in Hlt.
  destruct x as [sx|sx| |sx mx ex], y as [sy|sy| |sy my ey];
    cbn [SFcompare] in Hlt; try discriminate Hlt;
    try (destruct sx; discriminate Hlt);
    try (destruct sy; discriminate Hlt);
    try (destruct sx, sy; discriminate Hlt);
    try (destruct sx; try discriminate Hlt; reflexivity);
    try (destruct sy; try discriminate Hlt; reflexivity);
    try (destruct sx, sy; try discriminate Hlt; reflexivity).
  apply valid_finite in Vx as (Ex & Mx & Nx).
  apply valid_finite in Vy as (Ey & My & Ny).
  cbn [SFsub]. set (ez := Z.min ex ey).
  pose proof (shl_align_value mx ex ez ltac:(lia)) as Hx.
  pose proof (shl_align_value my ey ez ltac:(lia)) as Hy.
  set (X := Zpos (fst (shl_align mx ex ez))) in *.
  set (Y := Zpos (fst (shl_align my ey ez))) in *.
  assert (HX : 0 < X) by (unfold X; lia).
  assert (HY : 0 < Y) by (unfold Y; lia).
  assert (Hez : -1074 <= ez) by lia.
  assert (HD : 0 < cond_Zopp sx X - cond_Zopp sy Y).
  { destruct sx, sy; cbn [cond_Zopp]; try discriminate Hlt; try lia.
    - (* both negative: |x| < |y| *)
      destruct (Z.compare_spec ey ex) as [Heq|Hl|Hg]; try discriminate Hlt.
      + subst ey. replace (ex - ez) with 0 in * by lia.
        change (Pos.compare_cont Eq my mx) with (Pos.compare my mx) in Hlt.
        destruct (Pos.compare_spec my mx); try discriminate Hlt. lia.
      + replace (ex - ez) with 0 in Hx by lia.
        replace (ey - ez) with (ey - ex) in Hy by lia.
        assert (2 <= 2 ^ (ey - ex)).
        { change 2 with (2 ^ 1) at 1. apply Z.pow_le_mono_r; lia. }
        specialize (Ny ltac:(lia)). nia.
    - (* both positive: y < x *)
      destruct (Z.compare_spec ey ex) as [Heq|Hl|Hg]; try discriminate Hlt.
      + subst ey. replace (ex - ez) with 0 in * by lia.
        change (Pos.compare_cont Eq my mx) with (Pos.compare my mx) in Hlt.
        destruct (Pos.compare_spec my mx); try discriminate Hlt. lia.
      + replace (ey - ez) with 0 in Hy by lia.
        replace (ex - ez) with (ex - ey) in Hx by lia.
        assert (2 <= 2 ^ (ex - ey)).
        { change 2 with (2 ^ 1) at 1. apply Z.pow_le_mono_r; lia. }
        specialize (Nx ltac:(lia)). nia. }
  destruct (cond_Zopp sx X - cond_Zopp sy Y) as [|D|D]; try lia.
  cbn [binary_normalize]. apply binary_round_positive. exact Hez.
Qed.

(** The same for the machine floats. *)
Lemma float_sub_positive (x y : float) :
  (y <? x)%float = true -> (0 <? x - y)%float = true.
Proof.
  rewrite !ltb_spec, sub_spec. intros H.
  apply SFsub_positive; [apply Prim2SF_valid|apply Prim2SF_valid|exact H].
Qed.

End Binary64.

(** ** The pipeline as a whole *)

Lemma pipeline_Ok_inv (df out : DataFrame) :
  pipeline df = Ok out -> empty df = false /\ missing df = [].
Proof.
  unfold pipeline. fold (missing df).
  destruct (empty df); [discriminate|].
  destruct (missing df); [auto|discriminate].
Qed.

Lemma existsb_false_Forall {A} (p : A -> bool) (l : list A) :
  existsb p l = false <-> Forall (fun x => p x = false) l.
Proof.
  induction l as [|x l IH]; cbn; [split; auto|].
  rewrite orb_false_iff, IH. split.
  - intros [H1 H2]. constructor; assumption.
  - inversion 1; auto.
Qed.

Lemma filter_none {A} (p : A -> bool) (l : list A) :
  Forall (fun x => p x = false) l -> List.filter p l = [].
Proof.
  induction 1 as [|x l Hx _ IH]; [reflexivity|].
  cbn. rewrite Hx. exact IH.
Qed.

Lemma process_xlsb_file_raise (fs : files) (input_path output_path : pystr)
    (df : DataFrame) (e : exn) :
  read_excel fs input_path = Ok df -> pipeline df = Raise e ->
  process_xlsb_file fs input_path output_path = (fs, Raise (wrapped e)).
Proof.
  intros Hr Hp. unfold process_xlsb_file. rewrite Hr, bind_Ok, Hp. reflexivity.
Qed.

Lemma process_xlsb_file_ok (fs : files) (input_path output_path : pystr)
    (df out : DataFrame) :
  read_excel fs input_path = Ok df -> pipeline df = Ok out ->
  process_xlsb_file fs input_path output_path
  = (<[output_path := Workbook out]> fs, Ok tt).
Proof.
  intros Hr Hp. unfold process_xlsb_file. rewrite Hr, bind_Ok, Hp. reflexivity.
Qed.

(** C1: when a table passes the empty and the schema check and some row
    has NaN as its requested or received quantity after normalisation and
    numeric coercion, the pipeline raises the invalid-numeric-data error and
    the run ends with that error wrapped and the files as they were: no
    output is written, whatever the other rows hold. *)
Theorem invalid_numeric_aborts (fs : files) (input_path output_path : pystr)
    (df : DataFrame) (r : list Cell) :
  read_excel fs input_path = Ok df ->
  empty df = false ->
  missing df = [] ->
  r ∈ rows df ->
  is_nan (requested df r) = true \/ is_nan (received df r) = true ->
  pipeline df = Raise InvalidNumericDataError
  /\ process_xlsb_file fs input_path output_path
     = (fs, Raise (wrapped InvalidNumericDataError)).
Proof.
  intros Hread Hempty Hm Hr Hnan.
  assert (Hp : pipeline df = Raise InvalidNumericDataError).
  { rewrite pipeline_rows by assumption.
    destruct (existsb _ (rows df)) eqn:E; [reflexivity|].
    apply existsb_false_Forall in E. rewrite Forall_forall in E.
    specialize (E r Hr). cbn beta in E.
    apply orb_false_iff in E as [E1 E2].
    destruct Hnan; congruence. }
  split; [exact Hp|].
  apply process_xlsb_file_raise with (df := df); assumption.
Qed.

(** The theorem at the test's table, whose received quantity is ["abc"]. *)
Lemma invalid_numeric_aborts_witness :
  pipeline invalid_data = Raise InvalidNumericDataError
  /\ process_xlsb_file {[py "in.xlsx" := Workbook invalid_data]}
       (py "in.xlsx") (py "out.xlsx")
     = ({[py "in.xlsx" := Workbook invalid_data]},
        Raise (wrapped InvalidNumericDataError)).
Proof.
  apply (invalid_numeric_aborts _ _ _ invalid_data
           [CStr (py "I123"); CStr (py "abc"); CStr (py "100")]).
  - vm_compute. reflexivity.
  - reflexivity.
  - vm_compute. reflexivity.
  - left.
  - right. vm_compute. reflexivity.
Defined.

(** The shape of a successful output. *)
Lemma pipeline_Ok_shape (df out : DataFrame) :
  pipeline df = Ok out ->
  out = {| columns := output_columns df;
           rows := map (output_row df) (List.filter (exceeds df) (rows df)) |}.
Proof.
  intros Hp. destruct (pipeline_Ok_inv df out Hp) as [Hempty Hm].
  rewrite pipeline_rows in Hp by assumption.
  destruct (existsb _ (rows df)); [discriminate|].
  destruct (forallb _ _); [|discriminate].
  injection Hp as <-. reflexivity.
Qed.

(** The output row when the discrepancy column is new or one of floats. *)
Lemma output_row_float (df : DataFrame) (r : list Cell) :
  float_discrepancy df ->
  output_row df r
  = put df DISCREPANCY (CFloat (requested df r - received df r)%float)
        (normalized_row df r).
Proof.
  intros [H|H]; unfold output_row, discrepancy_cell; rewrite H; reflexivity.
Qed.




(** C5: a table that is not empty and lacks some required column makes the
    pipeline raise the missing-columns error, a [ValueError] whose message
    is the fixed beginning followed by every required column the table
    lacks, and only those, in the order of the code's list and separated by
    [", "]: all of them, not the first alone.  The run ends with that error
    wrapped and writes nothing.  A table with neither quantity column gets
    both named, a table with none of the three gets all three. *)
Theorem missing_columns_reported (fs : files) (input_path output_path : pystr)
    (df : DataFrame) :
  read_excel fs input_path = Ok df ->
  empty df = false ->
  missing df <> [] ->
  pipeline df = Raise (MissingColumnsError (missing df))
  /\ kind (MissingColumnsError (missing df)) = ValueError
  /\ (forall col, col ∈ missing df <-> col ∈ required_columns /\ col ∉ columns df)
  /\ (forall a, missing df = [a] ->
        message (MissingColumnsError (missing df))
        = py "Отсутствуют колонки: " ++ a)
  /\ (forall a b, missing df = [a; b] ->
        message (MissingColumnsError (missing df))
        = py "Отсутствуют колонки: " ++ a ++ py ", " ++ b)
  /\ (forall a b c, missing df = [a; b; c] ->
        message (MissingColumnsError (missing df))
        = py "Отсутствуют колонки: " ++ a ++ py ", " ++ b ++ py ", " ++ c)
  /\ length (missing df) <= 3
  /\ process_xlsb_file fs input_path output_path
     = (fs, Raise (wrapped (MissingColumnsError (missing df))))
  /\ pipeline ids_only
     = Raise (Exn ValueError
                (py "Отсутствуют колонки: Поступило всего, Кол-во по заявке"))
  /\ pipeline names_only
     = Raise (Exn ValueError
                (py "Отсутствуют колонки: ID Материала, Поступило всего, Кол-во по заявке")).
Proof.
  intros Hread Hempty Hmiss.
  assert (Hp : pipeline df = Raise (MissingColumnsError (missing df))).
  { unfold pipeline. rewrite Hempty. fold (missing df).
    destruct (missing df); [congruence|reflexivity]. }
  split; [exact Hp|]. split; [reflexivity|].
  split; [|split; [|split; [|split; [|split; [|split; [|split]]]]]].
  - intros col. unfold missing. rewrite !list_elem_of_In, filter_In.
    unfold has_column. rewrite negb_true_iff, bool_decide_eq_false.
    rewrite list_elem_of_In. reflexivity.
  - intros a Ha. rewrite Ha. reflexivity.
  - intros a b Ha. rewrite Ha. reflexivity.
  - intros a b c Ha. rewrite Ha. reflexivity.
  - unfold missing. apply (List.filter_length_le _ required_columns).
  - apply process_xlsb_file_raise with (df := df); assumption.
  - vm_compute. reflexivity.
  - vm_compute. reflexivity.
Qed.

(** The theorem at a table with neither quantity column: both are named. *)
Lemma missing_columns_reported_witness :
  pipeline ids_only = Raise (MissingColumnsError (missing ids_only)).
Proof.
  refine (proj1 (missing_columns_reported {[py "in.xlsx" := Workbook ids_only]}
                   (py "in.xlsx") (py "out.xlsx") ids_only _ _ _)).
  - vm_compute. reflexivity.
  - reflexivity.
  - vm_compute. discriminate.
Defined.

(** C7 (as amended): when a table passes the three checks and no row has
    its requested quantity above its received quantity, the pipeline
    succeeds with a table of no rows whose columns are those of the input
    with the discrepancy column, added at the end unless the input already
    has a column of that name; the run writes that table and returns. *)
Theorem empty_result_succeeds (fs : files) (input_path output_path : pystr)
    (df : DataFrame) :
  read_excel fs input_path = Ok df ->
  empty df = false ->
  missing df = [] ->
  Forall (fun r => is_nan (received df r) = false
                   /\ is_nan (requested df r) = false) (rows df) ->
  Forall (fun r => exceeds df r = false) (rows df) ->
  pipeline df = Ok {| columns := output_columns df; rows := [] |}
  /\ (has_column df DISCREPANCY = false ->
      output_columns df = columns df ++ [DISCREPANCY])
  /\ process_xlsb_file fs input_path output_path
     = (<[output_path := Workbook {| columns := output_columns df; rows := [] |}]> fs,
        Ok tt).
Proof.
  intros Hread Hempty Hm Hvalid Hnone.
  assert (Hp : pipeline df = Ok {| columns := output_columns df; rows := [] |}).
  { rewrite pipeline_rows by assumption.
    rewrite (proj2 (existsb_false_Forall _ _)).
    - rewrite filter_none by exact Hnone. reflexivity.
    - eapply Forall_impl; [exact Hvalid|]. cbn beta. intros r [-> ->]. reflexivity. }
  split; [exact Hp|]. split.
  - intros Hd. unfold output_columns. rewrite Hd. reflexivity.
  - apply process_xlsb_file_ok with (df := df); assumption.
Qed.

(** The theorem at a table whose only row is fully received. *)
Lemma empty_result_succeeds_witness :
  pipeline fulfilled
  = Ok {| columns := [ID; RECEIVED; REQUESTED; DISCREPANCY]; rows := [] |}.
Proof.
  refine (proj1 (empty_result_succeeds {[py "in.xlsx" := Workbook fulfilled]}
                   (py "in.xlsx") (py "out.xlsx") fulfilled _ _ _ _ _)).
  - vm_compute. reflexivity.
  - reflexivity.
  - vm_compute. reflexivity.
  - repeat constructor; vm_compute; reflexivity.
  - repeat constructor; vm_compute; reflexivity.
Defined.

(** C7 as stated fails on a table that already has the discrepancy column:
    the empty output has the input's columns and none appended. *)
Lemma discrepancy_not_appended :
  pipeline rerun_table_none
  = Ok {| columns := [ID; RECEIVED; REQUESTED; DISCREPANCY]; rows := [] |}
  /\ pipeline rerun_table_none
     <> Ok {| columns := [ID; RECEIVED; REQUESTED; DISCREPANCY; DISCREPANCY];
              rows := [] |}.
Proof.
  split; [vm_compute; reflexivity|].
  intros H. vm_compute in H. discriminate H.
Qed.

(** ** The text of a whole number *)

Section WholeNumbers.

Lemma uint_codes_plain (d : Decimal.uint) : Forall plain_digit (uint_codes d).
Proof.
  induction d; cbn [uint_codes]; constructor; try assumption;
    (split; [lia|split; reflexivity]).
Qed.

Lemma digitpart_cons (c : N) (s' : pystr) :
  digitpart (c :: s')
  = if is_digit c then
      let '(ds, r) :=
        match s' with
        | u :: t =>
            if (u =? 95)%N && match t with d :: _ => is_digit d | [] => false end
            then digitpart t
            else digitpart s'
        | [] => ([], [])
        end in
      ((c - 48)%N :: ds, r)
    else ([], c :: s').
Proof. reflexivity. Qed.

(** A run of digits is read to its end. *)
Lemma digitpart_digits (s : pystr) :
  Forall plain_digit s -> digitpart s = (map (fun c => (c - 48)%N) s, []).
Proof.
  induction 1 as [|c s Hc Hs IH]; [reflexivity|].
  rewrite digitpart_cons.
  assert (Hd : is_digit c = true).
  { destruct Hc as [Hc _]. unfold is_digit.
    apply andb_true_iff. split; apply N.leb_le; lia. }
  rewrite Hd. destruct s as [|u t]; [reflexivity|].
  assert (Hu : (u =? 95)%N = false).
  { apply Forall_cons in Hs as [[Hu _] _]. apply N.eqb_neq. lia. }
  rewrite Hu. cbn [andb]. rewrite IH. reflexivity.
Qed.

Lemma digits_value_acc (d : Decimal.uint) (acc : positive) :
  fold_left (fun a x => 10 * a + x)%N
            (map (fun c => (c - 48)%N) (uint_codes d)) (Npos acc)
  = Npos (Pos.of_uint_acc d acc).
Proof.
  revert acc.
  induction d as [|d IH|d IH|d IH|d IH|d IH|d IH|d IH|d IH|d IH|d IH];
    intros acc; cbn [uint_codes map fold_left Pos.of_uint_acc];
    [reflexivity|rewrite <- IH; f_equal; lia ..].
Qed.

(** The digits of a number, read back. *)
Lemma digits_value_uint (d : Decimal.uint) :
  digits_value (map (fun c => (c - 48)%N) (uint_codes d)) = N.of_uint d.
Proof.
  unfold digits_value, N.of_uint.
  induction d as [|d IH|d IH|d IH|d IH|d IH|d IH|d IH|d IH|d IH|d IH];
    cbn [uint_codes map fold_left Pos.of_uint];
    [reflexivity|exact IH|apply (digits_value_acc d) ..].
Qed.

Lemma digits_value_digits_of (n : N) :
  digits_value (map (fun c => (c - 48)%N) (digits_of n)) = n.
Proof.
  unfold digits_of. rewrite digits_value_uint. apply DecimalN.Unsigned.of_to.
Qed.

Lemma transform_ascii (s : pystr) :
  Forall (fun c => (c < 127)%N) s -> map transform_decimal_and_space s = s.
Proof.
  induction 1 as [|c s Hc _ IH]; [reflexivity|].
  cbn [map]. rewrite IH. unfold transform_decimal_and_space.
  apply N.ltb_lt in Hc. rewrite Hc. reflexivity.
Qed.

Lemma ascii_lstrip_id (s : pystr) :
  Forall (fun c => ascii_isspace c = false) s -> ascii_lstrip s = s.
Proof. destruct 1 as [|c s Hc _]; [reflexivity|]. cbn [ascii_lstrip]. rewrite Hc. reflexivity. Qed.

Lemma ascii_strip_id (s : pystr) :
  Forall (fun c => ascii_isspace c = false) s -> ascii_strip s = s.
Proof.
  intros H. unfold ascii_strip. rewrite (ascii_lstrip_id s H).
  rewrite ascii_lstrip_id by (apply Forall_rev; exact H).
  apply rev_involutive.
Qed.

Lemma ascii_lower_digits (s : pystr) :
  Forall plain_digit s -> map ascii_lower s = s.
Proof.
  induction 1 as [|c s [Hc _] _ IH]; [reflexivity|].
  cbn [map]. rewrite IH. unfold ascii_lower.
  replace (65 <=? c)%N with false by (symmetry; apply N.leb_gt; lia).
  reflexivity.
Qed.

(** [float()] of an unsigned run of digits. *)
Lemma parse_number_digits (n : N) :
  parse_number (digits_of n) = Some (n, 0%Z).
Proof.
  unfold parse_number.
  rewrite (digitpart_digits (digits_of n) (uint_codes_plain _)).
  rewrite app_nil_r.
  pose proof (digits_value_digits_of n) as Hv.
  destruct (map (fun c => (c - 48)%N) (digits_of n)) as [|v vs] eqn:E.
  - unfold digits_of in E. destruct n as [|p]; [discriminate E|].
    cbn [digits_value fold_left] in Hv. discriminate Hv.
  - cbn [parse_exponent length Z.of_nat]. rewrite Hv. reflexivity.
Qed.

Lemma split_sign_digit (c : N) (r : pystr) :
  (48 <= c <= 57)%N -> split_sign (c :: r) = (false, c :: r).
Proof.
  intros Hc. unfold split_sign.
  destruct c as [|p]; [reflexivity|].
  do 7 (try (destruct p as [p|p|]; try reflexivity)); lia.
Qed.

Lemma not_special (c : N) (r : pystr) :
  (48 <= c <= 57)%N ->
  bool_decide (c :: r = py "inf") || bool_decide (c :: r = py "infinity") = false
  /\ bool_decide (c :: r = py "nan") = false.
Proof.
  intros Hc.
  change (py "inf") with [105; 110; 102]%N.
  change (py "infinity") with [105; 110; 102; 105; 110; 105; 116; 121]%N.
  change (py "nan") with [110; 97; 110]%N.
  rewrite !bool_decide_eq_false_2; [auto| | |]; intros [= -> _]; lia.
Qed.

Lemma py_float_digits (neg : bool) (p : positive) :
  py_float ((if neg then [45%N] else []) ++ digits_of (Npos p))
  = Some (SF2Prim (binary_round prec emax neg p 0)).
Proof.
  pose proof (uint_codes_plain (N.to_uint (Npos p))) as Hd.
  fold (digits_of (Npos p)) in Hd.
  assert (Hs : Forall (fun c => (c < 127)%N /\ ascii_isspace c = false)
                 ((if neg then [45%N] else []) ++ digits_of (Npos p))).
  { apply Forall_app. split.
    - destruct neg; repeat constructor.
    - eapply Forall_impl; [exact Hd|]. cbn beta. intros c ([? ?] & _ & ?).
      split; [lia|assumption]. }
  unfold py_float.
  rewrite transform_ascii by (eapply Forall_impl; [exact Hs|]; cbn beta; tauto).
  rewrite ascii_strip_id by (eapply Forall_impl; [exact Hs|]; cbn beta; tauto).
  assert (Hsplit : split_sign ((if neg then [45%N] else []) ++ digits_of (Npos p))
                   = (neg, digits_of (Npos p))).
  { destruct neg; [reflexivity|]. cbn [app].
    destruct (digits_of (Npos p)) as [|c r]; [reflexivity|].
    apply Forall_cons in Hd as [[Hc _] _]. apply split_sign_digit. exact Hc. }
  rewrite Hsplit. rewrite (ascii_lower_digits _ Hd).
  pose proof (parse_number_digits (Npos p)) as Hp. rewrite Hp.
  destruct (digits_of (Npos p)) as [|c r] eqn:E; [discriminate Hp|].
  apply Forall_cons in Hd as [[Hc _] _].
  destruct (not_special c r Hc) as [H1 H2]. rewrite H1, H2.
  unfold sf_of_decimal.
  change (Zpos p * 10 ^ 0)%Z with (Zpos (p * 1)). rewrite Pos.mul_1_r.
  reflexivity.
Qed.

(** The text of a whole number is clean already. *)
Lemma clean_str_int (z : Z) : clean (str_int z) = str_int z.
Proof.
  assert (Hd : forall n, Forall (fun c => ((c < 128)%N /\ isspace c = false)
                                          /\ c <> 44%N) (digits_of n)).
  { intros n. eapply Forall_impl; [apply uint_codes_plain|].
    cbn beta. intros c ([? ?] & ? & _). repeat split; (lia || assumption). }
  assert (H : Forall (fun c => ((c < 128)%N /\ isspace c = false) /\ c <> 44%N)
                     (str_int z)).
  { destruct z; cbn [str_int]; [apply Hd|apply Hd|].
    constructor; [|apply Hd]. split; [split; reflexivity|discriminate]. }
  apply Forall_and in H as [H1 H2].
  rewrite <- (app_nil_r (str_int z)) at 1.
  rewrite clean_unit_suffix; [|exact H1|constructor].
  apply map_subst_id. exact H2.
Qed.

End WholeNumbers.

(** ** The identifier column *)

Lemma col_index_app (col : pystr) (cols more : list pystr) (i : nat) :
  col_index col cols = Some i -> col_index col (cols ++ more) = Some i.
Proof.
  revert i. induction cols as [|c cols IH]; [discriminate|].
  intros i. cbn [col_index app]. case_bool_decide; [auto|].
  destruct (col_index col cols) as [j|]; [|discriminate].
  intros [= <-]. rewrite (IH j eq_refl). reflexivity.
Qed.

(** The identifier cell of an output row is the corrected identifier of
    the input row it comes from. *)
Lemma output_row_id (df : DataFrame) (r : list Cell) (i : nat) :
  missing df = [] ->
  col_index ID (columns df) = Some i ->
  length r = length (columns df) ->
  cell i (output_row df r) = fix_id (at_col df ID r).
Proof.
  intros Hm Hi Hlen.
  destruct (missing_nil df Hm) as (_ & C2 & C3).
  destruct (has_column_index _ _ C2) as [i2 H2].
  destruct (has_column_index _ _ C3) as [i3 H3].
  destruct names_distinct as (N12 & N13 & _ & N41 & _).
  pose proof (col_index_ne _ _ _ _ _ Hi H2 N12) as D12.
  pose proof (col_index_ne _ _ _ _ _ Hi H3 N13) as D13.
  assert (Hlt : i < length r).
  { rewrite Hlen. apply col_index_lookup in Hi.
    apply lookup_lt_Some in Hi. exact Hi. }
  assert (Hn : cell i (normalized_row df r) = fix_id (at_col df ID r)).
  { unfold normalized_row, put, at_col. rewrite Hi, H2, H3.
    rewrite !cell_insert_ne by congruence.
    apply cell_insert_eq. exact Hlt. }
  assert (Hl : length (normalized_row df r) = length r).
  { unfold normalized_row, put. rewrite Hi, H2, H3.
    rewrite !length_insert. reflexivity. }
  unfold output_row, put.
  destruct (col_index DISCREPANCY (columns df)) as [i4|] eqn:H4.
  - rewrite cell_insert_ne; [exact Hn|].
    apply (col_index_ne _ _ _ _ _ H4 Hi N41).
  - unfold cell. rewrite lookup_app_l by (rewrite Hl; exact Hlt). exact Hn.
Qed.

(** C9: the correction renders every cell as text before it replaces
    ["I"] by ["1"], whatever the cell holds: its result is text and never
    missing, and an empty cell (NaN) becomes the text ["nan"].  A whole
    number (of at most 4300 digits, the most [str()] renders) becomes its
    decimal numeral: a minus sign when it is negative, then digits that
    read back as its absolute value.  A float becomes its [repr]: [146872.0]
    becomes ["146872.0"], [0.5] ["0.5"], [1e22] ["1e+22"], [2 ^ -24]
    ["5.960464477539063e-08"].  In the output of the pipeline on a
    rectangular table, every identifier cell is that text of the input row
    it comes from; in a table as read, where a whole-number identifier
    beside an empty one is a float, the rows come out with ["nan"] and
    ["146872.0"]. *)
Theorem fix_id_renders (x : Cell) :
  (forall z, x = CInt z -> (Z.abs z < 10 ^ 4300)%Z) ->
  fix_id x = CStr (map (fun c => if (c =? 73)%N then 49%N else c) (py_str x))
  /\ isna (fix_id x) = false
  /\ fix_id NaN = CStr (py "nan")
  /\ (forall z, (Z.abs z < 10 ^ 4300)%Z ->
        fix_id (CInt z)
        = CStr ((if (z <? 0)%Z then [45%N] else []) ++ digits_of (Z.abs_N z))
        /\ Forall (fun c => (48 <= c <= 57)%N) (digits_of (Z.abs_N z))
        /\ digits_value (map (fun c => (c - 48)%N) (digits_of (Z.abs_N z)))
           = Z.abs_N z)
  /\ fix_id (CInt 146872) = CStr (py "146872")
  /\ fix_id (CFloat 146872) = CStr (py "146872.0")
  /\ fix_id (CFloat 0.5) = CStr (py "0.5")
  /\ fix_id (CFloat (-2.5)) = CStr (py "-2.5")
  /\ fix_id (CFloat 1e22) = CStr (py "1e+22")
  /\ fix_id (CFloat 0x1p-24) = CStr (py "5.960464477539063e-08")
  /\ fix_id (CFloat infinity) = CStr (py "inf")
  /\ (forall df out,
        rectangular df ->
        pipeline df = Ok out ->
        Forall (fun r => exists r0, r0 ∈ rows df
                  /\ at_col out ID r = fix_id (at_col df ID r0)) (rows out))
  /\ typed blank_id
  /\ pipeline blank_id
     = Ok {| columns := [ID; RECEIVED; REQUESTED; DISCREPANCY];
             rows := [[CStr (py "nan"); CFloat 1; CFloat 2; CFloat 1];
                      [CStr (py "146872.0"); CFloat 1; CFloat 2; CFloat 1]] |}.
Proof.
  intros _.
  assert (Hfix : forall y, fix_id y
            = CStr (map (fun c => if (c =? 73)%N then 49%N else c) (py_str y))).
  { intros y. unfold fix_id.
    change (py "I") with [73%N]. change (py "1") with [49%N].
    rewrite replace_char. reflexivity. }
  split; [apply Hfix|]. split; [reflexivity|]. split; [reflexivity|].
  split; [|do 7 (split; [vm_compute; reflexivity|]); split; [|split]].
  - intros z _. split; [|split].
    + rewrite Hfix. cbn [py_str]. f_equal.
      rewrite (map_subst_id 73 49) by apply str_int_no_I.
      destruct z as [|p|p]; reflexivity.
    + apply uint_codes_digits.
    + apply digits_value_digits_of.
  - intros df out Hrect Hp.
    destruct (pipeline_Ok_inv df out Hp) as [Hempty Hm].
    pose proof (pipeline_Ok_shape df out Hp) as Hout.
    assert (Hcols : columns out = output_columns df) by (rewrite Hout; reflexivity).
    assert (Hrows : rows out = map (output_row df)
                                   (List.filter (exceeds df) (rows df)))
      by (rewrite Hout; reflexivity).
    clear Hout.
    destruct (missing_nil df Hm) as (C1 & _).
    destruct (has_column_index _ _ C1) as [i Hi].
    assert (Hi' : col_index ID (columns out) = Some i).
    { rewrite Hcols. unfold output_columns.
      destruct (has_column df DISCREPANCY); [exact Hi|].
      apply col_index_app. exact Hi. }
    rewrite Hrows. apply Forall_forall. intros r Hr.
    apply list_elem_of_In, in_map_iff in Hr as (r0 & <- & Hr0).
    apply filter_In in Hr0 as [Hr0 _]. apply list_elem_of_In in Hr0.
    exists r0. split; [exact Hr0|].
    unfold at_col at 1. rewrite Hi'.
    apply output_row_id; [exact Hm|exact Hi|].
    unfold rectangular in Hrect. rewrite Forall_forall in Hrect.
    apply Hrect. exact Hr0.
  - split; [repeat constructor|].
    intros i Hi. cbn [blank_id columns length] in Hi.
    do 3 (destruct i as [|i]; [vm_compute; reflexivity|]). lia.
  - vm_compute. reflexivity.
Qed.

(** The theorem at a whole-number identifier. *)
Lemma fix_id_renders_witness : fix_id (CInt 146872) = CStr (py "146872").
Proof.
  refine (proj1 (proj2 (proj2 (proj2 (proj2
            (fix_id_renders (CInt 146872) _)))))).
  intros z [= <-]. reflexivity.
Defined.

(** ** The service *)

Section Service.

Lemma upload_file_tasks (filename : pystr) (content : file) (id : pystr)
    (w : world) (h : pystr) :
  id <> h ->
  tasks (upload_file filename content id w).1 !! h = tasks w !! h.
Proof.
  intros Hne. unfold upload_file.
  destruct (negb (endswith filename (py ".xlsx"))); [reflexivity|].
  destruct (read_excel _ _) as [df|e]; [|destruct (kind e)];
    cbn [fst tasks]; apply lookup_insert_ne; exact Hne.
Qed.

Lemma upload_file_loop (filename : pystr) (content : file) (id : pystr)
    (w : world) :
  loop (upload_file filename content id w).1 = loop w
  \/ exists c, co_task_id c = id
               /\ loop (upload_file filename content id w).1 = loop w ++ [c].
Proof.
  unfold upload_file.
  destruct (negb (endswith filename (py ".xlsx"))); [left; reflexivity|].
  destruct (read_excel _ _) as [df|e]; [|destruct (kind e)];
    cbn [fst loop]; try (left; reflexivity).
  right. eexists. split; [|reflexivity]. reflexivity.
Qed.

Lemma upload_file_registered (filename : pystr) (content : file) (id : pystr)
    (w : world) (h : pystr) :
  is_Some (tasks w !! h) ->
  is_Some (tasks (upload_file filename content id w).1 !! h).
Proof.
  intros Hh. unfold upload_file.
  destruct (negb (endswith filename (py ".xlsx"))); [exact Hh|].
  destruct (read_excel _ _) as [df|e]; [|destruct (kind e)];
    cbn [fst tasks]; rewrite lookup_insert_is_Some;
    destruct (decide (id = h)); auto.
Qed.

Lemma upload_file_new (filename : pystr) (content : file) (id : pystr)
    (w : world) :
  loop (upload_file filename content id w).1 <> loop w ->
  is_Some (tasks (upload_file filename content id w).1 !! id).
Proof.
  unfold upload_file.
  destruct (negb (endswith filename (py ".xlsx")));
    [cbn [fst]; congruence|].
  destruct (read_excel _ _) as [df|e]; [|destruct (kind e)];
    cbn [fst tasks loop]; intros _; rewrite lookup_insert_eq; eauto.
Qed.

Lemma process_task_tasks (c : coroutine) (w : world) (h : pystr) :
  co_task_id c <> h -> tasks (process_task c w) !! h = tasks w !! h.
Proof.
  intros Hne. unfold process_task.
  destruct (process_xlsb_file _ _ _) as [fs' [u|e]]; cbn [tasks];
    rewrite ?lookup_alter_ne by exact Hne; reflexivity.
Qed.

Lemma process_task_registered (c : coroutine) (w : world) (h : pystr) :
  is_Some (tasks w !! h) -> is_Some (tasks (process_task c w) !! h).
Proof.
  intros Hh. unfold process_task.
  destruct (process_xlsb_file _ _ _) as [fs' [u|e]]; cbn [tasks];
    rewrite ?lookup_alter_is_Some; exact Hh.
Qed.

Lemma process_task_loop (c : coroutine) (w : world) :
  loop (process_task c w) = loop w.
Proof.
  unfold process_task.
  destruct (process_xlsb_file _ _ _) as [fs' r]. reflexivity.
Qed.

Lemma step_loop_registered (w : world) (ev : event) (w' : world) :
  step w ev w' -> loop_registered w -> loop_registered w'.
Proof.
  unfold loop_registered.
  intros Hstep Hw. destruct Hstep as [w filename content id Hfresh|w| |];
    try exact Hw.
  - destruct (upload_file_loop filename content id w) as [Hl|(c & Hc & Hl)].
    + rewrite Hl. eapply Forall_impl; [exact Hw|]. cbn beta.
      intros c. apply upload_file_registered.
    + assert (Hnew : is_Some (tasks (upload_file filename content id w).1 !! id)).
      { apply upload_file_new. rewrite Hl. intros H.
        apply (f_equal length) in H. rewrite length_app in H. cbn in H. lia. }
      rewrite Hl. apply Forall_app. split.
      * eapply Forall_impl; [exact Hw|]. cbn beta.
        intros c'. apply upload_file_registered.
      * constructor; [|constructor]. rewrite Hc. exact Hnew.
  - unfold run_next. destruct (loop w) as [|c rest] eqn:E.
    + rewrite E. constructor.
    + rewrite process_task_loop. cbn [loop].
      inversion_clear Hw as [|? ? _ Hrest].
      eapply Forall_impl; [exact Hrest|]. cbn beta.
      intros c' Hc'. apply process_task_registered. exact Hc'.
Qed.

Lemma steps_loop_registered (w : world) (evs : list event) (w' : world) :
  steps w evs w' -> loop_registered w -> loop_registered w'.
Proof.
  induction 1 as [|w1 ev w2 evs w3 Hstep _ IH]; [auto|].
  intros Hw. apply IH. exact (step_loop_registered _ _ _ Hstep Hw).
Qed.

Lemma step_abandoned (h : pystr) (w : world) (ev : event) (w' : world) :
  step w ev w' -> abandoned h w -> abandoned h w'.
Proof.
  intros Hstep [(t & Ht & Hs & He) Hloop].
  destruct Hstep as [w filename content id Hfresh|w| |];
    try (split; [exists t; auto|exact Hloop]).
  - assert (Hne : id <> h) by congruence.
    split.
    + exists t. rewrite upload_file_tasks by exact Hne. auto.
    + destruct (upload_file_loop filename content id w) as [Hl|(c & Hc & Hl)];
        rewrite Hl; [exact Hloop|].
      apply Forall_app. split; [exact Hloop|].
      constructor; [congruence|constructor].
  - unfold run_next. destruct (loop w) as [|c rest] eqn:E.
    + split; [exists t; auto|]. rewrite E. constructor.
    + inversion_clear Hloop as [|? ? Hc Hrest]. split.
      * exists t. rewrite process_task_tasks by exact Hc. auto.
      * rewrite process_task_loop. exact Hrest.
Qed.

Lemma steps_abandoned (h : pystr) (w : world) (evs : list event) (w' : world) :
  steps w evs w' -> abandoned h w -> abandoned h w'.
Proof.
  induction 1 as [|w1 ev w2 evs w3 Hstep _ IH]; [auto|].
  intros Hw. apply IH. exact (step_abandoned h _ _ _ Hstep Hw).
Qed.

End Service.

(** C10: an upload whose name ends in [.xlsx] and whose content
    [read_excel] rejects is answered with an error, yet its handle [h] has
    been registered as pending; nothing is scheduled for it, so after any
    further events of the service the status of [h] is still pending,
    without an error. *)
Theorem rejected_upload_stays_pending (fs0 : files) (evs0 : list event)
    (w : world) (filename : pystr) (e : exn) (h : pystr)
    (evs : list event) (w' : world) :
  steps (start fs0) evs0 w ->
  tasks w !! h = None ->
  endswith filename (py ".xlsx") = true ->
  steps (upload_file filename (Unreadable e) h w).1 evs w' ->
  ((upload_file filename (Unreadable e) h w).2
   = HTTPException 400 (py "Некорректный формат XLSX-файла")
   \/ (upload_file filename (Unreadable e) h w).2 = Unhandled e)
  /\ get_status h (upload_file filename (Unreadable e) h w).1
     = TaskStatus h (py "pending") None
  /\ get_status h w' = TaskStatus h (py "pending") None.
Proof.
  intros Hreach Hfresh Hext Hsteps.
  assert (Hreg : loop_registered w).
  { apply (steps_loop_registered _ _ _ Hreach). constructor. }
  assert (Hup : upload_file filename (Unreadable e) h w
    = match kind e with
      | ValueError =>
          ({| fs := delete (path_join TEMP_DIR (h ++ py "_input.xlsx"))
                      (<[path_join TEMP_DIR (h ++ py "_input.xlsx")
                         := Unreadable e]> (fs w));
              tasks := <[h := {| status := py "pending";
                                 output_path :=
                                   path_join TEMP_DIR (h ++ py "_output.xlsx");
                                 error := None |}]> (tasks w);
              loop := loop w |},
           HTTPException 400 (py "Некорректный формат XLSX-файла"))
      | _ =>
          ({| fs := <[path_join TEMP_DIR (h ++ py "_input.xlsx")
                      := Unreadable e]> (fs w);
              tasks := <[h := {| status := py "pending";
                                 output_path :=
                                   path_join TEMP_DIR (h ++ py "_output.xlsx");
                                 error := None |}]> (tasks w);
              loop := loop w |},
           Unhandled e)
      end).
  { unfold upload_file. rewrite Hext. cbn [negb].
    unfold read_excel. rewrite lookup_insert_eq. reflexivity. }
  assert (Hab : abandoned h (upload_file filename (Unreadable e) h w).1).
  { assert (Hloop : Forall (fun c => co_task_id c <> h) (loop w)).
    { unfold loop_registered in Hreg.
      eapply Forall_impl; [exact Hreg|]. cbn beta.
      intros c [t Ht] Hc. rewrite Hc in Ht. congruence. }
    rewrite Hup.
    destruct (kind e);
      (split;
       [exists {| status := py "pending";
                  output_path := path_join TEMP_DIR (h ++ py "_output.xlsx");
                  error := None |};
        split; [apply lookup_insert_eq|split; reflexivity]
       |exact Hloop]). }
  assert (Hstatus : forall w0, abandoned h w0 ->
                    get_status h w0 = TaskStatus h (py "pending") None).
  { intros w0 [(t & Ht & Hs & He) _]. unfold get_status.
    rewrite Ht, Hs, He. reflexivity. }
  split; [|split].
  - rewrite Hup. destruct (kind e); auto.
  - apply Hstatus. exact Hab.
  - apply Hstatus. exact (steps_abandoned h _ _ _ Hsteps Hab).
Qed.

(** The theorem at a service that has just started: a rejected upload
    [h1], then an accepted upload [h2] and the turn that processes it. *)
Lemma rejected_upload_stays_pending_witness :
  get_status (py "h1")
    (run_next
       (upload_file (py "ok.xlsx") (Workbook test_data) (py "h2")
          (upload_file (py "bad.xlsx")
             (Unreadable (Exn ValueError (py "Excel file format cannot be determined")))
             (py "h1") (start ∅)).1).1)
  = TaskStatus (py "h1") (py "pending") None.
Proof.
  refine (proj2 (proj2
    (rejected_upload_stays_pending ∅ [] (start ∅) (py "bad.xlsx")
       (Exn ValueError (py "Excel file format cannot be determined")) (py "h1")
       [Upload (py "ok.xlsx") (Workbook test_data) (py "h2"); Turn] _ _ _ _ _))).
  - apply steps_nil.
  - reflexivity.
  - vm_compute. reflexivity.
  - eapply steps_cons; [apply step_upload|].
    + vm_compute. reflexivity.
    + eapply steps_cons; [apply step_turn|apply steps_nil].
Defined.

(** ** More on the pipeline *)

Section Tables.

Lemma existsb_true_elem {A} (p : A -> bool) (l : list A) :
  existsb p l = true -> exists x, x ∈ l /\ p x = true.
Proof.
  intros H. apply existsb_exists in H as (x & Hx & Hp).
  exists x. split; [apply list_elem_of_In; exact Hx|exact Hp].
Qed.

Lemma forallb_false_elem {A} (p : A -> bool) (l : list A) :
  forallb p l = false -> exists x, x ∈ l /\ p x = false.
Proof.
  induction l as [|x l IH]; [discriminate|]. cbn [forallb].
  destruct (p x) eqn:Hx; cbn [andb].
  - intros H. destruct (IH H) as (y & Hy & Hp). exists y.
    split; [right; exact Hy|exact Hp].
  - intros _. exists x. split; [left|exact Hx].
Qed.

(** A float column, or a new one, holds every discrepancy. *)
Lemma discrepancy_fits_float (df : DataFrame) (r : list Cell) :
  float_discrepancy df -> discrepancy_fits df r = true.
Proof. intros [H|H]; unfold discrepancy_fits; rewrite H; reflexivity. Qed.

(** What the pipeline computes when the discrepancy column is new or one of
    floats. *)
Lemma pipeline_rows_float (df : DataFrame) :
  empty df = false ->
  missing df = [] ->
  float_discrepancy df ->
  pipeline df
  = if existsb (fun r => is_nan (received df r) || is_nan (requested df r))
               (rows df)
    then Raise InvalidNumericDataError
    else Ok {| columns := output_columns df;
               rows := map (fun r => put df DISCREPANCY
                                       (CFloat (requested df r - received df r)%float)
                                       (normalized_row df r))
                           (List.filter (exceeds df) (rows df)) |}.
Proof.
  intros Hempty Hm Hf. rewrite pipeline_rows by assumption.
  destruct (existsb _ (rows df)); [reflexivity|].
  rewrite (proj2 (forallb_forall _ _))
    by (intros r _; apply discrepancy_fits_float; exact Hf).
  do 2 f_equal. apply map_ext. intros r. apply output_row_float. exact Hf.
Qed.

(** Every way the pipeline fails. *)
Lemma pipeline_Raise_inv (df : DataFrame) (e : exn) :
  pipeline df = Raise e ->
  empty df = true /\ e = EmptyInputError
  \/ empty df = false /\ missing df <> []
     /\ e = MissingColumnsError (missing df)
  \/ empty df = false /\ missing df = [] /\ e = InvalidNumericDataError
     /\ (exists r, r ∈ rows df
          /\ (is_nan (received df r) = true \/ is_nan (requested df r) = true))
  \/ empty df = false /\ missing df = [] /\ e = IncompatibleDtypeError
     /\ exists r, r ∈ rows df /\ exceeds df r = true
          /\ discrepancy_fits df r = false.
Proof.
  intros Hp. destruct (empty df) eqn:Hempty.
  - left. unfold pipeline in Hp. rewrite Hempty in Hp.
    injection Hp as <-. auto.
  - right. destruct (missing df) as [|c m] eqn:Hm.
    + right. rewrite pipeline_rows in Hp by assumption.
      destruct (existsb _ (rows df)) eqn:E.
      * left. injection Hp as <-. split; [reflexivity|]. split; [reflexivity|].
        split; [reflexivity|].
        apply existsb_true_elem in E as (r & Hr & Hnan).
        exists r. split; [exact Hr|]. apply orb_true_iff. exact Hnan.
      * right. destruct (forallb _ _) eqn:F; [discriminate Hp|].
        injection Hp as <-. split; [reflexivity|]. split; [reflexivity|].
        split; [reflexivity|].
        apply forallb_false_elem in F as (r & Hr & Hfit).
        apply list_elem_of_In, filter_In in Hr as [Hr Hex].
        exists r. split; [apply list_elem_of_In; exact Hr|]. auto.
    + left. unfold pipeline in Hp. rewrite Hempty in Hp.
      fold (missing df) in Hp. rewrite Hm in Hp. injection Hp as <-.
      split; [reflexivity|]. split; [discriminate|reflexivity].
Qed.

Lemma length_normalized_row (df : DataFrame) (r : list Cell) :
  missing df = [] -> length (normalized_row df r) = length r.
Proof.
  intros Hm. destruct (missing_nil df Hm) as (C1 & C2 & C3).
  destruct (has_column_index _ _ C1) as [i1 H1].
  destruct (has_column_index _ _ C2) as [i2 H2].
  destruct (has_column_index _ _ C3) as [i3 H3].
  unfold normalized_row, put. rewrite H1, H2, H3.
  rewrite !length_insert. reflexivity.
Qed.

Lemma col_index_lt (col : pystr) (cols : list pystr) (i : nat) :
  col_index col cols = Some i -> i < length cols.
Proof.
  intros H. apply col_index_lookup in H. apply lookup_lt_Some in H. exact H.
Qed.

Lemma col_index_snoc (col : pystr) (cols : list pystr) :
  col ∉ cols -> col_index col (cols ++ [col]) = Some (length cols).
Proof.
  induction cols as [|c cols IH]; intros Hn; cbn [col_index app length].
  - rewrite bool_decide_eq_true_2 by reflexivity. reflexivity.
  - apply not_elem_of_cons in Hn as [Hne Hn].
    rewrite bool_decide_eq_false_2 by congruence.
    rewrite (IH Hn). reflexivity.
Qed.

(** The position of an input column in the output. *)
Lemma col_index_output (df : DataFrame) (col : pystr) (i : nat) :
  col_index col (columns df) = Some i ->
  col_index col (output_columns df) = Some i.
Proof.
  intros H. unfold output_columns.
  destruct (has_column df DISCREPANCY); [exact H|].
  apply col_index_app. exact H.
Qed.

(** Writing the discrepancy leaves the cells of the other columns alone. *)
Lemma cell_output_row_other (df : DataFrame) (col : pystr) (i : nat)
    (r : list Cell) :
  missing df = [] ->
  length r = length (columns df) ->
  col_index col (columns df) = Some i ->
  col <> DISCREPANCY ->
  cell i (output_row df r) = cell i (normalized_row df r).
Proof.
  intros Hm Hlen Hi Hne. unfold output_row, put.
  destruct (col_index DISCREPANCY (columns df)) as [i4|] eqn:H4.
  - apply cell_insert_ne. apply (col_index_ne _ _ _ _ _ H4 Hi). congruence.
  - unfold cell. rewrite lookup_app_l; [reflexivity|].
    rewrite length_normalized_row by exact Hm.
    rewrite Hlen. exact (col_index_lt _ _ _ Hi).
Qed.

(** The discrepancy cell of an output row. *)
Lemma cell_output_row_discrepancy (df : DataFrame) (j : nat) (r : list Cell) :
  missing df = [] ->
  float_discrepancy df ->
  length r = length (columns df) ->
  col_index DISCREPANCY (output_columns df) = Some j ->
  cell j (output_row df r) = CFloat (requested df r - received df r)%float.
Proof.
  intros Hm Hf Hlen Hj. rewrite (output_row_float df r Hf). unfold put.
  unfold output_columns, has_column in Hj.
  destruct (col_index DISCREPANCY (columns df)) as [i4|] eqn:H4.
  - pose proof (list_elem_of_lookup_2 _ _ _ (col_index_lookup _ _ _ H4)) as Hin.
    rewrite bool_decide_eq_true_2 in Hj by exact Hin.
    rewrite H4 in Hj. injection Hj as <-.
    apply cell_insert_eq. rewrite length_normalized_row by exact Hm.
    rewrite Hlen. exact (col_index_lt _ _ _ H4).
  - assert (Hin : DISCREPANCY ∉ columns df).
    { intros Hin. apply col_index_Some in Hin as [i Hi]. congruence. }
    rewrite bool_decide_eq_false_2 in Hj by exact Hin.
    rewrite (col_index_snoc _ _ Hin) in Hj. injection Hj as <-.
    unfold cell. rewrite lookup_app_r
      by (rewrite length_normalized_row by exact Hm; lia).
    rewrite length_normalized_row, Hlen, Nat.sub_diag by exact Hm.
    reflexivity.
Qed.

Lemma length_output_row (df : DataFrame) (r : list Cell) :
  missing df = [] ->
  length r = length (columns df) ->
  length (output_row df r) = length (output_columns df).
Proof.
  intros Hm Hlen. unfold output_row, put, output_columns, has_column.
  destruct (col_index DISCREPANCY (columns df)) as [i4|] eqn:H4.
  - apply col_index_lookup, list_elem_of_lookup_2 in H4 as Hin.
    rewrite bool_decide_eq_true_2 by exact Hin.
    rewrite length_insert, length_normalized_row by exact Hm. exact Hlen.
  - assert (Hin : DISCREPANCY ∉ columns df).
    { intros Hin. apply col_index_Some in Hin as [i Hi]. congruence. }
    rewrite bool_decide_eq_false_2 by exact Hin.
    rewrite !length_app, length_normalized_row by exact Hm.
    rewrite Hlen. reflexivity.
Qed.

(** The rows of a successful output and the input rows they come from. *)
Lemma pipeline_Ok_rows (df out : DataFrame) (r : list Cell) :
  pipeline df = Ok out -> r ∈ rows out ->
  exists r0, r0 ∈ rows df /\ exceeds df r0 = true /\ r = output_row df r0
    /\ is_nan (received df r0) = false /\ is_nan (requested df r0) = false.
Proof.
  intros Hp Hr. destruct (pipeline_Ok_inv df out Hp) as [Hempty Hm].
  rewrite pipeline_rows in Hp by assumption.
  destruct (existsb _ (rows df)) eqn:E; [discriminate Hp|].
  destruct (forallb _ _); [|discriminate Hp].
  injection Hp as <-. cbn [rows] in Hr.
  apply list_elem_of_In, in_map_iff in Hr as (r0 & <- & Hr0).
  apply filter_In in Hr0 as [Hr0 Hex]. apply list_elem_of_In in Hr0.
  exists r0. split; [exact Hr0|]. split; [exact Hex|]. split; [reflexivity|].
  apply existsb_false_Forall in E. rewrite Forall_forall in E.
  specialize (E r0 Hr0). cbn beta in E. apply orb_false_iff in E. exact E.
Qed.

End Tables.

(** The assignment of the discrepancy to a column the table already has:
    a column of whole numbers keeps whole numbers, and raises a
    [TypeError] when a discrepancy is not whole; a column of text raises
    one. *)
Lemma existing_discrepancy_column :
  pipeline {| columns := [ID; RECEIVED; REQUESTED; DISCREPANCY];
              rows := [[CStr (py "727698"); CInt 723; CInt 934; CInt 5]] |}
  = Ok {| columns := [ID; RECEIVED; REQUESTED; DISCREPANCY];
          rows := [[CStr (py "727698"); CFloat 723; CFloat 934; CInt 211]] |}
  /\ (exists e,
        pipeline {| columns := [ID; RECEIVED; REQUESTED; DISCREPANCY];
                    rows := [[CStr (py "727698"); CInt 723;
                              CStr (py "934,5"); CInt 5]] |}
        = Raise e /\ kind e = TypeError)
  /\ (exists e,
        pipeline {| columns := [ID; RECEIVED; REQUESTED; DISCREPANCY];
                    rows := [[CStr (py "727698"); CInt 723; CInt 934;
                              CStr (py "old")]] |}
        = Raise e /\ kind e = TypeError).
Proof.
  split; [vm_compute; reflexivity|].
  split; eexists; (split; [vm_compute; reflexivity|reflexivity]).
Qed.

(** X1: the pipeline fails in four ways only, never with a [KeyError]: on
    an empty table with the empty-file error; else, when a required column
    lacks, with the missing-columns error; else, when some row has NaN as
    its received or requested quantity, with the invalid-numeric-data
    error; else, when the table already has a discrepancy column of whole
    numbers, booleans or text that cannot hold the discrepancy of some row
    that passes the filter, with the [TypeError] of the assignment.  The
    first three are [ValueError]s, and on a table without a discrepancy
    column, or with one of floats, every failure is one of them. *)
Theorem pipeline_errors (df : DataFrame) (e : exn) :
  pipeline df = Raise e ->
  (empty df = true /\ e = EmptyInputError /\ kind e = ValueError
   \/ empty df = false /\ missing df <> []
      /\ e = MissingColumnsError (missing df) /\ kind e = ValueError
   \/ empty df = false /\ missing df = [] /\ e = InvalidNumericDataError
      /\ kind e = ValueError
      /\ (exists r, r ∈ rows df
           /\ (is_nan (received df r) = true
               \/ is_nan (requested df r) = true))
   \/ empty df = false /\ missing df = [] /\ kind e = TypeError
      /\ (exists dt, column_dtype df DISCREPANCY = Some dt
            /\ (dt = Int64 \/ dt = Bool \/ dt = Str))
      /\ (exists r, r ∈ rows df /\ exceeds df r = true
            /\ discrepancy_fits df r = false))
  /\ (float_discrepancy df -> kind e = ValueError).
Proof.
  intros Hp. pose proof (pipeline_Raise_inv df e Hp) as H.
  destruct H as [[H1 ->]|[(H1 & H2 & ->)|[(H1 & H2 & -> & H3)
                                         |(H1 & H2 & -> & r & Hr & Hex & Hfit)]]].
  - split; [left; auto|reflexivity].
  - split; [right; left; auto|reflexivity].
  - split; [right; right; left; auto|reflexivity].
  - split.
    + right; right; right. split; [exact H1|]. split; [exact H2|].
      split; [reflexivity|]. split; [|exists r; auto].
      unfold discrepancy_fits in Hfit.
      destruct (column_dtype df DISCREPANCY) as [[| | | |]|];
        try discriminate Hfit; eexists; (split; [reflexivity|]); auto.
    + intros Hf. rewrite (discrepancy_fits_float df r Hf) in Hfit.
      discriminate Hfit.
Qed.

(** The theorem at the table with a received quantity ["abc"]. *)
Lemma pipeline_errors_witness : kind InvalidNumericDataError = ValueError.
Proof.
  refine (proj2 (pipeline_errors invalid_data InvalidNumericDataError _) _).
  - vm_compute. reflexivity.
  - left. vm_compute. reflexivity.
Defined.

(** X2: a run of [process_xlsb_file] touches no file but the output path.
    When it returns, the input was a workbook the pipeline accepted and the
    output path holds the pipeline's table.  When it raises, no file has
    changed and the exception is a plain [Exception] whose message starts
    with the processing-error prefix; a missing input file ends that way. *)
Theorem process_xlsb_file_effects (fs : files) (input_path output_path : pystr) :
  (forall p, p <> output_path ->
     (process_xlsb_file fs input_path output_path).1 !! p = fs !! p)
  /\ match (process_xlsb_file fs input_path output_path).2 with
     | Ok _ =>
         exists df out,
           fs !! input_path = Some (Workbook df) /\ pipeline df = Ok out
           /\ (process_xlsb_file fs input_path output_path).1
              = <[output_path := Workbook out]> fs
     | Raise e =>
         (process_xlsb_file fs input_path output_path).1 = fs
         /\ kind e = Exception
         /\ startswith (message e) (py "Ошибка обработки файла: ") = true
     end
  /\ (fs !! input_path = None ->
      exists e, kind e = FileNotFoundError
        /\ process_xlsb_file fs input_path output_path = (fs, Raise (wrapped e))).
Proof.
  unfold process_xlsb_file, read_excel.
  destruct (fs !! input_path) as [[df|e]|] eqn:Hin.
  - rewrite bind_Ok. destruct (pipeline df) as [out|e] eqn:Hp; cbn [fst snd].
    + split; [|split; [|discriminate]].
      * intros p Hne. unfold to_excel. apply lookup_insert_ne. congruence.
      * exists df, out. auto.
    + split; [reflexivity|]. split; [|discriminate].
      split; [reflexivity|]. split; [reflexivity|].
      exact (startswith_app _ _).
  - cbn [mbind result_bind fst snd]. split; [reflexivity|]. split; [|discriminate].
    split; [reflexivity|]. split; [reflexivity|]. exact (startswith_app _ _).
  - cbn [mbind result_bind fst snd]. split; [reflexivity|]. split.
    + split; [reflexivity|]. split; [reflexivity|]. exact (startswith_app _ _).
    + intros _. eexists. split; [|reflexivity]. reflexivity.
Qed.

(** X3: the pipeline works row by row.  Take a table, as read, without a
    discrepancy column, and cut its rows in two so that each part is a
    table as read as well (no column changes its dtype by the cut).  When
    the pipeline accepts both parts it accepts the whole, and its output on
    the whole is its output on the first part followed by the rows of its
    output on the second. *)
Theorem pipeline_batches (cols : list pystr) (l1 l2 : list (list Cell))
    (o1 o2 : DataFrame) :
  DISCREPANCY ∉ cols ->
  typed {| columns := cols; rows := l1 |} ->
  typed {| columns := cols; rows := l2 |} ->
  typed {| columns := cols; rows := l1 ++ l2 |} ->
  pipeline {| columns := cols; rows := l1 |} = Ok o1 ->
  pipeline {| columns := cols; rows := l2 |} = Ok o2 ->
  columns o2 = columns o1
  /\ pipeline {| columns := cols; rows := l1 ++ l2 |}
     = Ok {| columns := columns o1; rows := rows o1 ++ rows o2 |}.
Proof.
  intros Hd _ _ _ H1 H2.
  destruct (pipeline_Ok_inv _ _ H1) as [He1 Hm1].
  destruct (pipeline_Ok_inv _ _ H2) as [He2 Hm2].
  assert (He : empty {| columns := cols; rows := l1 ++ l2 |} = false).
  { unfold empty in *. cbn [columns rows] in *.
    destruct cols; [discriminate He1|]. destruct l1; [discriminate He1|reflexivity]. }
  assert (Hm : missing {| columns := cols; rows := l1 ++ l2 |} = []) by exact Hm1.
  assert (Hf : forall l, float_discrepancy {| columns := cols; rows := l |}).
  { intros l. left. unfold column_dtype. cbn [columns].
    rewrite col_index_None by exact Hd. reflexivity. }
  rewrite pipeline_rows_float in H1, H2 |- * by (assumption || apply Hf).
  cbn [rows] in *.
  change (fun r => is_nan (received {| columns := cols; rows := l1 ++ l2 |} r)
                   || is_nan (requested {| columns := cols; rows := l1 ++ l2 |} r))
    with (fun r => is_nan (received {| columns := cols; rows := l1 |} r)
                   || is_nan (requested {| columns := cols; rows := l1 |} r)).
  change (fun r => is_nan (received {| columns := cols; rows := l2 |} r)
                   || is_nan (requested {| columns := cols; rows := l2 |} r))
    with (fun r => is_nan (received {| columns := cols; rows := l1 |} r)
                   || is_nan (requested {| columns := cols; rows := l1 |} r)) in H2.
  rewrite existsb_app.
  destruct (existsb _ l1); [discriminate H1|].
  destruct (existsb _ l2); [discriminate H2|].
  injection H1 as <-. injection H2 as <-. cbn [orb columns rows].
  split; [reflexivity|].
  rewrite List.filter_app, map_app. reflexivity.
Qed.

(** The theorem at a row that passes the filter followed by the fully
    received row. *)
Lemma pipeline_batches_witness :
  columns {| columns := [ID; RECEIVED; REQUESTED; DISCREPANCY]; rows := [] |}
  = columns {| columns := [ID; RECEIVED; REQUESTED; DISCREPANCY];
               rows := [[CStr (py "146872"); CFloat 1; CFloat 2; CFloat 1]] |}.
Proof.
  refine (proj1 (pipeline_batches [ID; RECEIVED; REQUESTED]
                   [[CStr (py "I46872"); CInt 1; CInt 2]]
                   (rows fulfilled) _ _ _ _ _ _ _ _)).
  - intros H. apply list_elem_of_In in H. vm_compute in H.
    intuition discriminate.
  - split; [repeat constructor|]. intros i Hi.
    do 3 (destruct i as [|i]; [vm_compute; reflexivity|]).
    cbn [columns length] in Hi. lia.
  - split; [repeat constructor|]. intros i Hi.
    do 3 (destruct i as [|i]; [vm_compute; reflexivity|]).
    cbn [columns length] in Hi. lia.
  - split; [repeat constructor|]. intros i Hi.
    do 3 (destruct i as [|i]; [vm_compute; reflexivity|]).
    cbn [columns length] in Hi. lia.
  - vm_compute. reflexivity.
  - vm_compute. reflexivity.
Defined.

(** X4: the output of the pipeline on a rectangular table is a rectangular
    table with at most as many rows, whose columns are those of the input,
    in their order, followed by the discrepancy column unless the input has
    one; distinct input labels stay distinct. *)
Theorem pipeline_keeps_shape (df out : DataFrame) :
  rectangular df ->
  pipeline df = Ok out ->
  rectangular out
  /\ length (rows out) <= length (rows df)
  /\ columns out
     = columns df ++ (if has_column df DISCREPANCY then [] else [DISCREPANCY])
  /\ DISCREPANCY ∈ columns out
  /\ (NoDup (columns df) -> NoDup (columns out)).
Proof.
  intros Hrect Hp. destruct (pipeline_Ok_inv df out Hp) as [_ Hm].
  rewrite (pipeline_Ok_shape df out Hp). unfold rectangular in *.
  cbn [columns rows]. split; [|split; [|split; [|split]]].
  - apply Forall_forall. intros r Hr.
    apply list_elem_of_In, in_map_iff in Hr as (r0 & <- & Hr0).
    apply filter_In in Hr0 as [Hr0 _]. apply list_elem_of_In in Hr0.
    rewrite Forall_forall in Hrect.
    apply length_output_row; [exact Hm|apply Hrect; exact Hr0].
  - rewrite length_map. apply List.filter_length_le.
  - unfold output_columns. destruct (has_column df DISCREPANCY);
      [rewrite app_nil_r|]; reflexivity.
  - unfold output_columns, has_column. case_bool_decide as Hd; [exact Hd|].
    apply elem_of_app. right. apply list_elem_of_singleton. reflexivity.
  - intros Hnd. unfold output_columns, has_column.
    case_bool_decide as Hd; [exact Hnd|].
    apply NoDup_app. split; [exact Hnd|]. split; [|apply NoDup_singleton].
    intros x Hx Hx'. apply list_elem_of_singleton in Hx'. subst x. exact (Hd Hx).
Qed.

(** The theorem at the test table. *)
Lemma pipeline_keeps_shape_witness : rectangular test_output.
Proof.
  refine (proj1 (pipeline_keeps_shape test_data test_output _ _)).
  - repeat constructor.
  - vm_compute. reflexivity.
Defined.

(** X5: the pipeline changes no cell of a column other than the
    identifier, the two quantities and the discrepancy: under such a column
    the output holds, row for row, what the input rows that pass the filter
    hold. *)
Theorem other_columns_untouched (df out : DataFrame) (col : pystr) :
  rectangular df ->
  pipeline df = Ok out ->
  col ∈ columns df ->
  col ∉ [ID; RECEIVED; REQUESTED; DISCREPANCY] ->
  map (at_col out col) (rows out)
  = map (at_col df col) (List.filter (exceeds df) (rows df)).
Proof.
  intros Hrect Hp Hcol Hother.
  destruct (pipeline_Ok_inv df out Hp) as [_ Hm].
  rewrite (pipeline_Ok_shape df out Hp). cbn [rows].
  apply col_index_Some in Hcol as [i Hi].
  unfold at_col. cbn [columns]. rewrite (col_index_output df col i Hi), Hi.
  rewrite map_map. apply map_ext_in. intros r Hr.
  apply filter_In in Hr as [Hr _]. apply list_elem_of_In in Hr.
  unfold rectangular in Hrect. rewrite Forall_forall in Hrect.
  assert (N1 : col <> ID) by (intros ->; apply Hother; set_solver).
  assert (N2 : col <> RECEIVED) by (intros ->; apply Hother; set_solver).
  assert (N3 : col <> REQUESTED) by (intros ->; apply Hother; set_solver).
  assert (N4 : col <> DISCREPANCY) by (intros ->; apply Hother; set_solver).
  rewrite (cell_output_row_other df col i r Hm (Hrect r Hr) Hi N4).
  exact (cell_normalized_row_other df col i r Hm Hi N1 N2 N3).
Qed.

(** The theorem at the test table and its column of unit names. *)
Lemma other_columns_untouched_witness :
  map (at_col test_output (py "Единица измерения")) (rows test_output)
  = map (at_col test_data (py "Единица измерения"))
        (List.filter (exceeds test_data) (rows test_data)).
Proof.
  refine (other_columns_untouched test_data test_output
            (py "Единица измерения") _ _ _ _).
  - repeat constructor.
  - vm_compute. reflexivity.
  - apply list_elem_of_In. vm_compute. tauto.
  - intros H. apply list_elem_of_In in H. vm_compute in H.
    intuition discriminate.
Defined.

(** X6: when the input has no discrepancy column, or has one of floats,
    every row of a successful output is consistent in itself: its two
    quantity cells hold floats that are not NaN, the requested one strictly
    above the received one, and its discrepancy cell holds their
    difference, which is strictly positive. *)
Theorem output_rows_consistent (df out : DataFrame) (r : list Cell) :
  rectangular df ->
  float_discrepancy df ->
  pipeline df = Ok out ->
  r ∈ rows out ->
  exists q c : float,
    at_col out REQUESTED r = CFloat q
    /\ at_col out RECEIVED r = CFloat c
    /\ at_col out DISCREPANCY r = CFloat (q - c)%float
    /\ is_nan q = false /\ is_nan c = false
    /\ (c <? q)%float = true
    /\ (0 <? q - c)%float = true.
Proof.
  intros Hrect Hf Hp Hr.
  destruct (pipeline_Ok_inv df out Hp) as [_ Hm].
  destruct (pipeline_Ok_rows df out r Hp Hr) as (r0 & Hr0 & Hex & -> & Hc & Hq).
  unfold rectangular in Hrect. rewrite Forall_forall in Hrect.
  pose proof (Hrect r0 Hr0) as Hlen.
  pose proof (pipeline_Ok_shape df out Hp) as Hout.
  assert (Hcols : columns out = output_columns df) by (rewrite Hout; reflexivity).
  clear Hout.
  destruct (missing_nil df Hm) as (_ & C2 & C3).
  destruct (has_column_index _ _ C2) as [i2 H2].
  destruct (has_column_index _ _ C3) as [i3 H3].
  destruct names_distinct as (_ & _ & _ & _ & N42 & N43).
  assert (Hd : exists j, col_index DISCREPANCY (output_columns df) = Some j).
  { apply col_index_Some. unfold output_columns, has_column.
    case_bool_decide as Hd; [exact Hd|].
    apply elem_of_app. right. apply list_elem_of_singleton. reflexivity. }
  destruct Hd as [j Hj].
  exists (requested df r0), (received df r0).
  unfold at_col. rewrite Hcols, Hj.
  rewrite (col_index_output df _ _ H2), (col_index_output df _ _ H3).
  split; [|split; [|split; [|split; [|split; [|split]]]]].
  - rewrite (cell_output_row_other df REQUESTED i3 r0 Hm Hlen H3)
      by congruence.
    exact (cell_normalized_row df i3 REQUESTED r0 Hm (or_intror eq_refl) H3).
  - rewrite (cell_output_row_other df RECEIVED i2 r0 Hm Hlen H2)
      by congruence.
    exact (cell_normalized_row df i2 RECEIVED r0 Hm (or_introl eq_refl) H2).
  - exact (cell_output_row_discrepancy df j r0 Hm Hf Hlen Hj).
  - exact Hq.
  - exact Hc.
  - exact Hex.
  - apply float_sub_positive. exact Hex.
Qed.

(** The theorem at the row of the test output. *)
Lemma output_rows_consistent_witness :
  exists q c : float,
    at_col test_output REQUESTED
      [CFloat 723; CStr []; CStr []; CStr []; CStr (py "727698");
       CStr (py "Гайка М20"); CStr (py "кг"); CFloat 934;
       CStr (py "-"); CStr (py "-"); CStr (py "-"); CStr (py "-"); CFloat 211]
    = CFloat q
    /\ at_col test_output RECEIVED
         [CFloat 723; CStr []; CStr []; CStr []; CStr (py "727698");
          CStr (py "Гайка М20"); CStr (py "кг"); CFloat 934;
          CStr (py "-"); CStr (py "-"); CStr (py "-"); CStr (py "-"); CFloat 211]
       = CFloat c
    /\ at_col test_output DISCREPANCY
         [CFloat 723; CStr []; CStr []; CStr []; CStr (py "727698");
          CStr (py "Гайка М20"); CStr (py "кг"); CFloat 934;
          CStr (py "-"); CStr (py "-"); CStr (py "-"); CStr (py "-"); CFloat 211]
       = CFloat (q - c)%float
    /\ is_nan q = false /\ is_nan c = false
    /\ (c <? q)%float = true
    /\ (0 <? q - c)%float = true.
Proof.
  refine (output_rows_consistent test_data test_output _ _ _ _ _).
  - repeat constructor.
  - left. vm_compute. reflexivity.
  - vm_compute. reflexivity.
  - left.
Defined.

(** ** Whole numbers through [normalize_numeric] *)

(** X7: a whole-number cell, of at most 4300 digits (the most [str()]
    renders), comes through [normalize_numeric] as the binary64 number
    nearest to it: rendering the number as text, cleaning the text and
    reading it with [float()] loses nothing, so the result is what numeric
    coercion makes of the number itself. *)
Theorem normalize_numeric_whole_number (z : Z) :
  (Z.abs z < 10 ^ 4300)%Z ->
  normalize_numeric (CInt z)
  = CFloat (SF2Prim (binary_normalize prec emax z 0 false))
  /\ quantity (CInt z) = to_numeric_coerce (CInt z).
Proof.
  intros _.
  assert (H : normalize_numeric (CInt z)
              = CFloat (SF2Prim (binary_normalize prec emax z 0 false))).
  { unfold normalize_numeric. cbn [isna py_str]. rewrite clean_str_int.
    destruct z as [|p|p].
    - vm_compute. reflexivity.
    - cbn [str_int Z.to_N binary_normalize].
      pose proof (py_float_digits false p) as Hf. cbn [app] in Hf.
      rewrite Hf. reflexivity.
    - cbn [str_int binary_normalize].
      pose proof (py_float_digits true p) as Hf. cbn [app] in Hf.
      rewrite Hf. reflexivity. }
  split; [exact H|]. unfold quantity. rewrite H. reflexivity.
Qed.

(** The theorem at a negative number. *)
Lemma normalize_numeric_whole_number_witness :
  normalize_numeric (CInt (-934))
  = CFloat (SF2Prim (binary_normalize prec emax (-934) 0 false)).
Proof.
  refine (proj1 (normalize_numeric_whole_number (-934) _)).
  reflexivity.
Defined.

(** ** The life of a task *)

Section Paths.

Lemma input_path_inj (a b : pystr) : input_path_of a = input_path_of b -> a = b.
Proof.
  unfold input_path_of, path_join. intros H.
  apply app_inv_head, app_inv_head, app_inv_tail in H. exact H.
Qed.

Lemma output_path_inj (a b : pystr) :
  output_path_of a = output_path_of b -> a = b.
Proof.
  unfold output_path_of, path_join. intros H.
  apply app_inv_head, app_inv_head, app_inv_tail in H. exact H.
Qed.

(** No input path is an output path: the two suffixes differ. *)
Lemma input_output_path (a b : pystr) : input_path_of a <> output_path_of b.
Proof.
  unfold input_path_of, output_path_of, path_join. intros H.
  apply app_inv_head, app_inv_head in H.
  apply (f_equal (@rev N)) in H. rewrite !rev_app_distr in H.
  let x := eval vm_compute in (rev (py "_input.xlsx")) in
  change (rev (py "_input.xlsx")) with x in H.
  let x := eval vm_compute in (rev (py "_output.xlsx")) in
  change (rev (py "_output.xlsx")) with x in H.
  cbn [app] in H. discriminate H.
Qed.

End Paths.

Section Lifecycle.

Lemma read_excel_workbook (fs : files) (path : pystr) (df : DataFrame) :
  fs !! path = Some (Workbook df) -> read_excel fs path = Ok df.
Proof. intros H. unfold read_excel. rewrite H. reflexivity. Qed.

(** The three ways [upload_file] ends once the extension is right. *)
Lemma upload_file_accepted (filename : pystr) (df : DataFrame) (h : pystr)
    (w : world) :
  endswith filename (py ".xlsx") = true ->
  upload_file filename (Workbook df) h w
  = ({| fs := <[input_path_of h := Workbook df]> (fs w);
        tasks := <[h := {| status := py "pending";
                           output_path := output_path_of h;
                           error := None |}]> (tasks w);
        loop := loop w ++ [coroutine_of h] |},
     Uploaded h).
Proof.
  intros Hext. unfold upload_file. rewrite Hext. cbn [negb].
  unfold read_excel. rewrite lookup_insert_eq. reflexivity.
Qed.

Lemma upload_file_rejected (filename : pystr) (e : exn) (h : pystr)
    (w : world) :
  endswith filename (py ".xlsx") = true ->
  upload_file filename (Unreadable e) h w
  = match kind e with
    | ValueError =>
        ({| fs := delete (input_path_of h)
                    (<[input_path_of h := Unreadable e]> (fs w));
            tasks := <[h := {| status := py "pending";
                               output_path := output_path_of h;
                               error := None |}]> (tasks w);
            loop := loop w |},
         HTTPException 400 (py "Некорректный формат XLSX-файла"))
    | _ =>
        ({| fs := <[input_path_of h := Unreadable e]> (fs w);
            tasks := <[h := {| status := py "pending";
                               output_path := output_path_of h;
                               error := None |}]> (tasks w);
            loop := loop w |},
         Unhandled e)
    end.
Proof.
  intros Hext. unfold upload_file. rewrite Hext. cbn [negb].
  unfold read_excel. rewrite lookup_insert_eq. reflexivity.
Qed.

Lemma upload_file_wrong_extension (filename : pystr) (content : file)
    (h : pystr) (w : world) :
  endswith filename (py ".xlsx") = false ->
  upload_file filename content h w
  = (w, HTTPException 400 (py "Требуется файл с расширением .xlsx")).
Proof. intros Hext. unfold upload_file. rewrite Hext. reflexivity. Qed.

(** The two ways [process_task] ends when its input is a workbook. *)
Lemma process_task_success (c : coroutine) (w : world) (df out : DataFrame) :
  fs w !! co_input_path c = Some (Workbook df) ->
  pipeline df = Ok out ->
  process_task c w
  = {| fs := delete (co_input_path c)
               (<[co_output_path c := Workbook out]> (fs w));
       tasks := alter (set_status (py "success")) (co_task_id c) (tasks w);
       loop := loop w |}.
Proof.
  intros Hin Hp. unfold process_task.
  rewrite (process_xlsb_file_ok _ _ _ df out (read_excel_workbook _ _ _ Hin) Hp).
  reflexivity.
Qed.

Lemma process_task_failure (c : coroutine) (w : world) (df : DataFrame)
    (e : exn) :
  fs w !! co_input_path c = Some (Workbook df) ->
  pipeline df = Raise e ->
  process_task c w
  = {| fs := delete (co_input_path c) (fs w);
       tasks := alter (set_error (message (wrapped e))) (co_task_id c)
                  (alter (set_status (py "failed")) (co_task_id c) (tasks w));
       loop := loop w |}.
Proof.
  intros Hin Hp. unfold process_task.
  rewrite (process_xlsb_file_raise _ _ _ df e (read_excel_workbook _ _ _ Hin) Hp).
  reflexivity.
Qed.

Lemma task_ok_frame (w w' : world) (h : pystr) (t : task) :
  fs w' !! output_path_of h = fs w !! output_path_of h ->
  task_ok w h t -> task_ok w' h t.
Proof.
  intros Hfs [Hout Hst]. split; [exact Hout|].
  destruct Hst as [H|[(H1 & H2 & H3)|H]]; [left; exact H| |right; right; exact H].
  right; left. rewrite Hfs. auto.
Qed.

Lemma coroutine_ok_frame (w w' : world) (c : coroutine) :
  tasks w' !! co_task_id c = tasks w !! co_task_id c ->
  fs w' !! input_path_of (co_task_id c) = fs w !! input_path_of (co_task_id c) ->
  coroutine_ok w c -> coroutine_ok w' c.
Proof.
  intros Ht Hfs (Hc & Hp & Hin). unfold coroutine_ok.
  rewrite Ht, Hfs. auto.
Qed.

Lemma well_formed_start (fs0 : files) : well_formed (start fs0).
Proof.
  split; [constructor|]. split; [constructor|].
  intros h t H. cbn [start tasks] in H. rewrite lookup_empty in H. discriminate H.
Qed.

(** A handle without a task has no waiting coroutine. *)
Lemma fresh_not_waiting (w : world) (h : pystr) :
  well_formed w -> tasks w !! h = None -> h ∉ map co_task_id (loop w).
Proof.
  intros (_ & Hloop & _) Hfresh Hin.
  apply list_elem_of_In, in_map_iff in Hin as (c & Hc & Hin).
  apply list_elem_of_In in Hin.
  rewrite Forall_forall in Hloop. destruct (Hloop c Hin) as (_ & (t & Ht & _) & _).
  congruence.
Qed.

Lemma well_formed_upload (filename : pystr) (content : file) (h : pystr)
    (w : world) :
  well_formed w -> tasks w !! h = None ->
  well_formed (upload_file filename content h w).1.
Proof.
  intros Hw Hfresh.
  pose proof (fresh_not_waiting w h Hw Hfresh) as Hnw.
  destruct Hw as (Hnd & Hloop & Htasks).
  destruct (endswith filename (py ".xlsx")) eqn:Hext;
    [|rewrite upload_file_wrong_extension by exact Hext;
      split; [exact Hnd|split; [exact Hloop|exact Htasks]]].
  assert (Hold : forall fs' l',
    (forall h', fs' !! output_path_of h' = fs w !! output_path_of h') ->
    (forall h', h' <> h -> fs' !! input_path_of h' = fs w !! input_path_of h') ->
    Forall (coroutine_ok
              {| fs := fs';
                 tasks := <[h := {| status := py "pending";
                                    output_path := output_path_of h;
                                    error := None |}]> (tasks w);
                 loop := l' |}) (loop w)
    /\ forall h' t,
         <[h := {| status := py "pending"; output_path := output_path_of h;
                   error := None |}]> (tasks w) !! h' = Some t ->
         task_ok {| fs := fs';
                    tasks := <[h := {| status := py "pending";
                                       output_path := output_path_of h;
                                       error := None |}]> (tasks w);
                    loop := l' |} h' t).
  { intros fs' l' Hout Hin. split.
    - rewrite Forall_forall in Hloop. apply Forall_forall. intros c Hc.
      assert (Hne : co_task_id c <> h).
      { intros <-. apply Hnw. apply list_elem_of_In, in_map.
        apply list_elem_of_In. exact Hc. }
      apply (coroutine_ok_frame w); [| |apply Hloop; exact Hc]; cbn [tasks fs].
      + apply lookup_insert_ne. congruence.
      + apply Hin. exact Hne.
    - intros h' t Ht. destruct (decide (h = h')) as [<-|Hne].
      + rewrite lookup_insert_eq in Ht. injection Ht as <-.
        split; [reflexivity|]. left. split; reflexivity.
      + rewrite lookup_insert_ne in Ht by exact Hne.
        apply (task_ok_frame w); [apply Hout|apply Htasks; exact Ht]. }
  destruct content as [df|e].
  - rewrite upload_file_accepted by exact Hext. cbn [fst].
    destruct (Hold (<[input_path_of h := Workbook df]> (fs w))
                   (loop w ++ [coroutine_of h])) as [Hl Ht].
    { intros h'. apply lookup_insert_ne. apply input_output_path. }
    { intros h' Hne. apply lookup_insert_ne. intros E.
      apply input_path_inj in E. congruence. }
    split; [|split; [|exact Ht]]; cbn [loop].
    + rewrite map_app. cbn [map coroutine_of co_task_id].
      apply NoDup_app. split; [exact Hnd|]. split.
      * intros x Hx Hx'. apply list_elem_of_singleton in Hx'. subst x.
        apply Hnw. exact Hx.
      * apply NoDup_singleton.
    + apply Forall_app. split; [exact Hl|].
      constructor; [|constructor].
      split; [reflexivity|]. cbn [coroutine_of co_task_id tasks fs]. split.
      * eexists. rewrite lookup_insert_eq. split; reflexivity.
      * exists df. apply lookup_insert_eq.
  - rewrite upload_file_rejected by exact Hext.
    destruct (kind e); cbn [fst].
    all: match goal with
         | |- well_formed {| fs := ?f; tasks := _; loop := _ |} =>
             destruct (Hold f (loop w)) as [Hl Ht];
             [intros h'; rewrite ?lookup_delete_ne by apply input_output_path;
              apply lookup_insert_ne; apply input_output_path
             |intros h' Hne;
              assert (input_path_of h <> input_path_of h')
                by (intros E; apply input_path_inj in E; congruence);
              rewrite ?lookup_delete_ne by assumption;
              apply lookup_insert_ne; assumption
             |split; [exact Hnd|split; [exact Hl|exact Ht]]]
         end.
Qed.

Lemma well_formed_run_next (w : world) : well_formed w -> well_formed (run_next w).
Proof.
  intros (Hnd & Hloop & Htasks). unfold run_next.
  destruct (loop w) as [|c rest] eqn:E;
    [split; [rewrite E; constructor|split; [rewrite E; constructor|exact Htasks]]|].
  cbn [map] in Hnd. apply NoDup_cons in Hnd as [Hc Hnd].
  inversion_clear Hloop as [|? ? Hcok Hrest].
  destruct Hcok as (Hceq & (t & Ht & Hpend) & (df & Hin)).
  assert (Hci : co_input_path c = input_path_of (co_task_id c))
    by (rewrite Hceq; reflexivity).
  assert (Hco : co_output_path c = output_path_of (co_task_id c))
    by (rewrite Hceq; reflexivity).
  clear Hceq. remember (co_task_id c) as h eqn:Hh in *.
  destruct (Htasks h t Ht) as [Hop Hst].
  assert (Herr : error t = None).
  { destruct Hst as [[_ H]|[(H & _)|[H _]]]; [exact H| |];
      rewrite Hpend in H; vm_compute in H; discriminate H. }
  assert (Hrest' : forall fs' tasks',
    (forall h', h' <> h -> tasks' !! h' = tasks w !! h') ->
    (forall h', h' <> h -> fs' !! input_path_of h' = fs w !! input_path_of h') ->
    Forall (coroutine_ok {| fs := fs'; tasks := tasks'; loop := rest |}) rest).
  { intros fs' tasks' Htk Hfs. rewrite Forall_forall in Hrest.
    apply Forall_forall. intros c' Hc'.
    assert (Hne : co_task_id c' <> h).
    { intros Heq. apply Hc. rewrite <- Heq. apply list_elem_of_In, in_map.
      apply list_elem_of_In. exact Hc'. }
    apply (coroutine_ok_frame w); cbn [tasks fs];
      [apply Htk; exact Hne|apply Hfs; exact Hne|apply Hrest; exact Hc']. }
  destruct (pipeline df) as [out|e] eqn:Hp.
  - pose proof (process_task_success c
                  {| fs := fs w; tasks := tasks w; loop := rest |} df out) as Hps.
    cbn [fs tasks loop] in Hps. rewrite Hci, Hco, <- Hh in Hps.
    rewrite (Hps Hin Hp). clear Hps.
    split; [exact Hnd|]. split.
    + apply Hrest'.
      * intros h' Hne. apply lookup_alter_ne. congruence.
      * intros h' Hne.
        rewrite lookup_delete_ne
          by (intros E'; apply input_path_inj in E'; congruence).
        apply lookup_insert_ne. intros E'. symmetry in E'.
        exact (input_output_path _ _ E').
    + intros h' t' Ht'. destruct (decide (h = h')) as [<-|Hne].
      * cbn [tasks] in Ht'. rewrite lookup_alter_eq, Ht in Ht'.
        cbn [fmap option_fmap option_map] in Ht'. injection Ht' as <-.
        split; [exact Hop|]. right; left. cbn [set_status status error fs].
        split; [reflexivity|]. split; [exact Herr|]. exists out.
        rewrite lookup_delete_ne by apply input_output_path.
        apply lookup_insert_eq.
      * cbn [tasks] in Ht'. rewrite lookup_alter_ne in Ht' by exact Hne.
        apply (task_ok_frame w); [|apply Htasks; exact Ht']. cbn [fs].
        rewrite lookup_delete_ne by apply input_output_path.
        apply lookup_insert_ne. intros E'. apply output_path_inj in E'. congruence.
  - pose proof (process_task_failure c
                  {| fs := fs w; tasks := tasks w; loop := rest |} df e) as Hps.
    cbn [fs tasks loop] in Hps. rewrite Hci, <- Hh in Hps.
    rewrite (Hps Hin Hp). clear Hps.
    split; [exact Hnd|]. split.
    + apply Hrest'.
      * intros h' Hne. rewrite !lookup_alter_ne by congruence. reflexivity.
      * intros h' Hne. apply lookup_delete_ne.
        intros E'; apply input_path_inj in E'; congruence.
    + intros h' t' Ht'. destruct (decide (h = h')) as [<-|Hne].
      * cbn [tasks] in Ht'. rewrite !lookup_alter_eq, Ht in Ht'.
        cbn [fmap option_fmap option_map] in Ht'. injection Ht' as <-.
        split; [exact Hop|]. right; right. cbn [set_error set_status status error].
        split; [reflexivity|]. exists e. reflexivity.
      * cbn [tasks] in Ht'. rewrite !lookup_alter_ne in Ht' by exact Hne.
        apply (task_ok_frame w); [|apply Htasks; exact Ht']. cbn [fs].
        apply lookup_delete_ne. apply input_output_path.
Qed.

Lemma well_formed_step (w : world) (ev : event) (w' : world) :
  step w ev w' -> well_formed w -> well_formed w'.
Proof.
  intros Hstep Hw. destruct Hstep as [w filename content h Hfresh|w| |];
    [apply well_formed_upload; assumption
    |apply well_formed_run_next; assumption|assumption|assumption].
Qed.

Lemma well_formed_steps (w : world) (evs : list event) (w' : world) :
  steps w evs w' -> well_formed w -> well_formed w'.
Proof.
  induction 1 as [|w1 ev w2 evs w3 Hstep _ IH]; [auto|].
  intros Hw. apply IH. exact (well_formed_step _ _ _ Hstep Hw).
Qed.

Lemma status_values_distinct :
  py "pending" <> py "success" /\ py "failed" <> py "success"
  /\ py "pending" <> py "failed".
Proof. repeat split; intros H; vm_compute in H; discriminate H. Qed.

(** What [get_result] answers, by the status of the task. *)
Lemma get_result_by_status (w : world) (h : pystr) (t : task) :
  tasks w !! h = Some t ->
  get_result h w
  = if bool_decide (status t = py "success") then
      match fs w !! output_path t with
      | None => HTTPException 404 (py "Результат не найден")
      | Some _ => FileResponse (output_path t) (py "result_" ++ h ++ py ".xlsx")
      end
    else HTTPException 404 (py "Задача не завершена или завершилась с ошибкой").
Proof.
  intros Ht. unfold get_result. rewrite Ht.
  destruct (bool_decide (status t = py "success")); reflexivity.
Qed.

(** A task together with the fact that no coroutine waits for it. *)
Lemma step_settled (h : pystr) (t : task) (w : world) (ev : event) (w' : world) :
  step w ev w' ->
  tasks w !! h = Some t /\ Forall (fun c => co_task_id c <> h) (loop w) ->
  tasks w' !! h = Some t /\ Forall (fun c => co_task_id c <> h) (loop w').
Proof.
  intros Hstep [Ht Hloop].
  destruct Hstep as [w filename content id Hfresh|w| |]; try (split; assumption).
  - assert (Hne : id <> h) by congruence.
    split; [rewrite upload_file_tasks by exact Hne; exact Ht|].
    destruct (upload_file_loop filename content id w) as [Hl|(c & Hc & Hl)];
      rewrite Hl; [exact Hloop|].
    apply Forall_app. split; [exact Hloop|].
    constructor; [congruence|constructor].
  - unfold run_next. destruct (loop w) as [|c rest] eqn:E.
    + split; [exact Ht|]. rewrite E. constructor.
    + inversion_clear Hloop as [|? ? Hc Hrest]. split.
      * rewrite process_task_tasks by exact Hc. exact Ht.
      * rewrite process_task_loop. exact Hrest.
Qed.

Lemma steps_settled (h : pystr) (t : task) (w : world) (evs : list event)
    (w' : world) :
  steps w evs w' ->
  tasks w !! h = Some t /\ Forall (fun c => co_task_id c <> h) (loop w) ->
  tasks w' !! h = Some t /\ Forall (fun c => co_task_id c <> h) (loop w').
Proof.
  induction 1 as [|w1 ev w2 evs w3 Hstep _ IH]; [auto|].
  intros Hw. apply IH. exact (step_settled h t _ _ _ Hstep Hw).
Qed.

Lemma steps_app (w1 : world) (evs1 : list event) (w2 : world)
    (evs2 : list event) (w3 : world) :
  steps w1 evs1 w2 -> steps w2 evs2 w3 -> steps w1 (evs1 ++ evs2) w3.
Proof.
  induction 1 as [|wa ev wb evs wc Hstep _ IH]; [auto|].
  intros H. cbn [app]. eapply steps_cons; [exact Hstep|]. apply IH. exact H.
Qed.

Lemma steps_turns (n : nat) (w : world) : steps w (repeat Turn n) (turns n w).
Proof.
  revert w. induction n as [|n IH]; intros w; cbn [repeat turns].
  - apply steps_nil.
  - eapply steps_cons; [apply step_turn|apply IH].
Qed.

(** A finished task has no waiting coroutine. *)
Lemma finished_not_waiting (w : world) (h : pystr) (t : task) :
  well_formed w -> tasks w !! h = Some t -> status t <> py "pending" ->
  Forall (fun c => co_task_id c <> h) (loop w).
Proof.
  intros (_ & Hloop & _) Ht Hfin. eapply Forall_impl; [exact Hloop|].
  cbn beta. intros c (_ & (t' & Ht' & Hp) & _) Heq.
  rewrite Heq in Ht'. congruence.
Qed.

(** The files a coroutine's turn leaves alone. *)
Lemma process_task_fs (c : coroutine) (w : world) (p : pystr) :
  p <> co_input_path c -> p <> co_output_path c ->
  fs (process_task c w) !! p = fs w !! p.
Proof.
  intros Hi Ho. unfold process_task, process_xlsb_file.
  destruct (read_excel (fs w) (co_input_path c) ≫= pipeline) as [out|e];
    cbn [fs]; rewrite lookup_delete_ne by congruence;
    [unfold to_excel; apply lookup_insert_ne; congruence|reflexivity].
Qed.

Lemma process_task_input_gone (c : coroutine) (w : world) :
  fs (process_task c w) !! co_input_path c = None.
Proof.
  unfold process_task.
  destruct (process_xlsb_file _ _ _) as [fs' r]. cbn [fs].
  apply lookup_delete_eq.
Qed.




(** The turn of the coroutine of handle [h], by the outcome of the pipeline
    on its input. *)
Lemma run_next_head (w : world) (h : pystr) (rest : list coroutine)
    (df : DataFrame) :
  loop w = coroutine_of h :: rest ->
  fs w !! input_path_of h = Some (Workbook df) ->
  run_next w
  = match pipeline df with
    | Ok out =>
        {| fs := delete (input_path_of h)
                   (<[output_path_of h := Workbook out]> (fs w));
           tasks := alter (set_status (py "success")) h (tasks w);
           loop := rest |}
    | Raise e =>
        {| fs := delete (input_path_of h) (fs w);
           tasks := alter (set_error (message (wrapped e))) h
                      (alter (set_status (py "failed")) h (tasks w));
           loop := rest |}
    end.
Proof.
  intros E Hin. unfold run_next. rewrite E.
  destruct (pipeline df) as [out|e] eqn:Hp.
  - exact (process_task_success (coroutine_of h)
             {| fs := fs w; tasks := tasks w; loop := rest |} df out Hin Hp).
  - exact (process_task_failure (coroutine_of h)
             {| fs := fs w; tasks := tasks w; loop := rest |} df e Hin Hp).
Qed.

(** The head of the queue is finished by the next turn. *)
Lemma run_next_finishes (w : world) (c : coroutine) (rest : list coroutine) :
  well_formed w -> loop w = c :: rest ->
  loop (run_next w) = rest
  /\ exists t, tasks (run_next w) !! co_task_id c = Some t
               /\ status t <> py "pending".
Proof.
  intros (_ & Hloop & _) E. rewrite E in Hloop.
  apply Forall_cons in Hloop as [(Hc & (t & Ht & _) & (df & Hin)) _].
  assert (E' : loop w = coroutine_of (co_task_id c) :: rest)
    by (rewrite <- Hc; exact E).
  rewrite (run_next_head w _ rest df E' Hin).
  destruct status_values_distinct as (Hps & Hfs & Hpf).
  destruct (pipeline df) as [out|e]; cbn [loop tasks]; (split; [reflexivity|]).
  - rewrite lookup_alter_eq, Ht. cbn [fmap option_fmap option_map].
    eexists. split; [reflexivity|]. cbn [set_status status]. congruence.
  - rewrite !lookup_alter_eq, Ht. cbn [fmap option_fmap option_map].
    eexists. split; [reflexivity|]. cbn [set_error set_status status]. congruence.
Qed.

Lemma turns_drain (w : world) :
  well_formed w ->
  loop (turns (length (loop w)) w) = []
  /\ forall c, c ∈ loop w ->
       exists t, tasks (turns (length (loop w)) w) !! co_task_id c = Some t
                 /\ status t <> py "pending".
Proof.
  remember (loop w) as l eqn:El. revert w El.
  induction l as [|c rest IH]; intros w El Hw.
  - cbn [length turns]. split; [auto|]. intros c Hc. inversion Hc.
  - symmetry in El.
    destruct (run_next_finishes w c rest Hw El) as (El' & t & Ht & Hfin).
    pose proof (well_formed_run_next w Hw) as Hw'.
    destruct (IH (run_next w) (eq_sym El') Hw') as [Hnil Hall].
    cbn [length turns]. split; [exact Hnil|].
    intros c' Hc'. apply elem_of_cons in Hc' as [->|Hc']; [|apply Hall; exact Hc'].
    exists t. split; [|exact Hfin].
    apply (steps_settled (co_task_id c) t (run_next w) (repeat Turn (length rest))).
    + apply steps_turns.
    + split; [exact Ht|]. exact (finished_not_waiting _ _ t Hw' Ht Hfin).
Qed.

End Lifecycle.

(** X8: in every state the service reaches, a task's output path is
    [temp/<handle>_output.xlsx] and the task is in one of three states:
    pending without an error, where the result endpoint answers 404;
    success without an error, where the output file exists and the result
    endpoint serves it; or failed with the wrapped message of an exception,
    where the result endpoint answers 404. *)
Theorem task_records_consistent (fs0 : files) (evs : list event) (w : world)
    (h : pystr) (t : task) :
  steps (start fs0) evs w ->
  tasks w !! h = Some t ->
  output_path t = output_path_of h
  /\ (status t = py "pending" /\ error t = None
      /\ get_result h w
         = HTTPException 404 (py "Задача не завершена или завершилась с ошибкой")
      \/ status t = py "success" /\ error t = None
         /\ (exists out, fs w !! output_path_of h = Some (Workbook out))
         /\ get_result h w
            = FileResponse (output_path_of h) (py "result_" ++ h ++ py ".xlsx")
      \/ status t = py "failed"
         /\ (exists e, error t = Some (message (wrapped e)))
         /\ get_result h w
            = HTTPException 404 (py "Задача не завершена или завершилась с ошибкой")).
Proof.
  intros Hreach Ht.
  pose proof (well_formed_steps _ _ _ Hreach (well_formed_start fs0))
    as (_ & _ & Htasks).
  destruct (Htasks h t Ht) as [Hop Hst].
  destruct status_values_distinct as (Hps & Hfs & _).
  split; [exact Hop|].
  rewrite (get_result_by_status w h t Ht), Hop.
  destruct Hst as [[Hs He]|[(Hs & He & out & Hout)|(Hs & He)]].
  - left. rewrite Hs, bool_decide_eq_false_2 by exact Hps. auto.
  - right; left. rewrite Hs, bool_decide_eq_true_2, Hout by reflexivity. eauto.
  - right; right. rewrite Hs, bool_decide_eq_false_2 by exact Hfs. auto.
Qed.

(** The theorem after one accepted upload and its turn. *)
Lemma task_records_consistent_witness :
  output_path
    {| status := py "success"; output_path := output_path_of (py "h1");
       error := None |}
  = output_path_of (py "h1").
Proof.
  refine (proj1 (task_records_consistent ∅
    [Upload (py "ok.xlsx") (Workbook test_data) (py "h1"); Turn]
    (run_next (upload_file (py "ok.xlsx") (Workbook test_data) (py "h1")
                 (start ∅)).1)
    (py "h1") _ _ _)).
  - eapply steps_cons; [apply step_upload; vm_compute; reflexivity|].
    eapply steps_cons; [apply step_turn|apply steps_nil].
  - vm_compute. reflexivity.
Defined.

(** X9: once a task of a reachable state is finished (its status is not
    pending), no later event changes its record: the status and the result
    endpoints keep answering the same for it. *)
Theorem finished_task_final (fs0 : files) (evs0 : list event) (w : world)
    (h : pystr) (t : task) (evs : list event) (w' : world) :
  steps (start fs0) evs0 w ->
  tasks w !! h = Some t ->
  status t <> py "pending" ->
  steps w evs w' ->
  tasks w' !! h = Some t
  /\ get_status h w' = get_status h w
  /\ get_result h w' = get_result h w.
Proof.
  intros Hreach Ht Hfin Hsteps.
  pose proof (well_formed_steps _ _ _ Hreach (well_formed_start fs0)) as Hw.
  pose proof (well_formed_steps _ _ _ Hsteps Hw) as Hw'.
  destruct (steps_settled h t w evs w' Hsteps) as [Ht' _].
  { split; [exact Ht|]. exact (finished_not_waiting w h t Hw Ht Hfin). }
  split; [exact Ht'|]. split.
  - unfold get_status. rewrite Ht, Ht'. reflexivity.
  - rewrite (get_result_by_status w h t Ht), (get_result_by_status w' h t Ht').
    destruct Hw as (_ & _ & Htasks). destruct Hw' as (_ & _ & Htasks').
    destruct (Htasks h t Ht) as [Hop Hst].
    destruct (Htasks' h t Ht') as [_ Hst'].
    case_bool_decide as Hs; [|reflexivity].
    destruct status_values_distinct as (Hps & Hfs & _).
    rewrite Hop.
    destruct Hst as [[Hs1 _]|[(_ & _ & out & Hout)|(Hs1 & _)]]; [congruence| |congruence].
    destruct Hst' as [[Hs1 _]|[(_ & _ & out' & Hout')|(Hs1 & _)]]; [congruence| |congruence].
    rewrite Hout, Hout'. reflexivity.
Qed.

(** The theorem at a finished upload followed by a second upload and its
    turn. *)
Lemma finished_task_final_witness :
  get_status (py "h1")
    (run_next
       (upload_file (py "more.xlsx") (Workbook invalid_data) (py "h2")
          (run_next (upload_file (py "ok.xlsx") (Workbook test_data) (py "h1")
                       (start ∅)).1)).1)
  = get_status (py "h1")
      (run_next (upload_file (py "ok.xlsx") (Workbook test_data) (py "h1")
                   (start ∅)).1).
Proof.
  refine (proj1 (proj2 (finished_task_final ∅
    [Upload (py "ok.xlsx") (Workbook test_data) (py "h1"); Turn]
    (run_next (upload_file (py "ok.xlsx") (Workbook test_data) (py "h1")
                 (start ∅)).1)
    (py "h1")
    {| status := py "success"; output_path := output_path_of (py "h1");
       error := None |}
    [Upload (py "more.xlsx") (Workbook invalid_data) (py "h2"); Turn]
    _ _ _ _ _))).
  - eapply steps_cons; [apply step_upload; vm_compute; reflexivity|].
    eapply steps_cons; [apply step_turn|apply steps_nil].
  - vm_compute. reflexivity.
  - intros H. vm_compute in H. discriminate H.
  - eapply steps_cons; [apply step_upload; vm_compute; reflexivity|].
    eapply steps_cons; [apply step_turn|apply steps_nil].
Defined.

(** X10: a run of [process_task] is confined to its own handle: it leaves
    the waiting coroutines, every other task and every file but its input
    and its output as they are, registers and forgets no handle, and always
    ends with its input file deleted. *)
Theorem process_task_isolated (c : coroutine) (w : world) :
  loop (process_task c w) = loop w
  /\ (forall h, h <> co_task_id c ->
        tasks (process_task c w) !! h = tasks w !! h)
  /\ (forall h, is_Some (tasks (process_task c w) !! h)
                <-> is_Some (tasks w !! h))
  /\ (forall p, p <> co_input_path c -> p <> co_output_path c ->
        fs (process_task c w) !! p = fs w !! p)
  /\ fs (process_task c w) !! co_input_path c = None.
Proof.
  split; [apply process_task_loop|]. split.
  - intros h Hne. apply process_task_tasks. congruence.
  - split; [|split; [apply process_task_fs|apply process_task_input_gone]].
    intros h. unfold process_task.
    destruct (process_xlsb_file _ _ _) as [fs' [u|e]]; cbn [tasks];
      rewrite ?lookup_alter_is_Some; reflexivity.
Qed.

(** X11: no event removes a task: a handle that has a status keeps having
    one, so the status endpoint never turns to 404 for it. *)
Theorem handles_never_forgotten (w : world) (evs : list event) (w' : world)
    (h : pystr) :
  steps w evs w' ->
  is_Some (tasks w !! h) ->
  exists s e, get_status h w' = TaskStatus h s e.
Proof.
  intros Hsteps Hh.
  assert (Hh' : is_Some (tasks w' !! h)).
  { induction Hsteps as [|w1 ev w2 evs w3 Hstep _ IH]; [exact Hh|].
    apply IH. destruct Hstep as [w1 filename content id _|w1| |];
      [apply upload_file_registered; exact Hh| |exact Hh|exact Hh].
    unfold run_next. destruct (loop w1) as [|c rest]; [exact Hh|].
    apply process_task_registered. exact Hh. }
  destruct Hh' as [t Ht]. unfold get_status. rewrite Ht. eauto.
Qed.

(** The theorem at a rejected upload followed by an accepted one and its
    turn. *)
Lemma handles_never_forgotten_witness :
  exists s e,
    get_status (py "h1")
      (run_next
         (upload_file (py "ok.xlsx") (Workbook test_data) (py "h2")
            (upload_file (py "bad.xlsx") (Unreadable (Exn BadZipFile (py "File is not a zip file")))
               (py "h1") (start ∅)).1).1)
    = TaskStatus (py "h1") s e.
Proof.
  refine (handles_never_forgotten
    (upload_file (py "bad.xlsx") (Unreadable (Exn BadZipFile (py "File is not a zip file")))
       (py "h1") (start ∅)).1
    [Upload (py "ok.xlsx") (Workbook test_data) (py "h2"); Turn] _ (py "h1") _ _).
  - eapply steps_cons; [apply step_upload; vm_compute; reflexivity|].
    eapply steps_cons; [apply step_turn|apply steps_nil].
  - vm_compute. eauto.
Defined.



(** X13: the queue drains: in a state the service reaches with [n]
    coroutines waiting, [n] turns of the event loop leave none waiting and
    every task that waited is finished, as a success or as a failure. *)
Theorem queue_drains (fs0 : files) (evs : list event) (w : world) :
  steps (start fs0) evs w ->
  loop (turns (length (loop w)) w) = []
  /\ forall c, c ∈ loop w ->
       exists t, tasks (turns (length (loop w)) w) !! co_task_id c = Some t
                 /\ (status t = py "success" \/ status t = py "failed").
Proof.
  intros Hreach.
  pose proof (well_formed_steps _ _ _ Hreach (well_formed_start fs0)) as Hw.
  destruct (turns_drain w Hw) as [Hnil Hall]. split; [exact Hnil|].
  intros c Hc. destruct (Hall c Hc) as (t & Ht & Hfin).
  exists t. split; [exact Ht|].
  assert (Hw' : well_formed (turns (length (loop w)) w))
    by exact (well_formed_steps _ _ _ (steps_turns _ w) Hw).
  destruct Hw' as (_ & _ & Htasks).
  destruct (Htasks _ t Ht) as [_ [[Hs _]|[(Hs & _)|(Hs & _)]]];
    [contradiction|left; exact Hs|right; exact Hs].
Qed.

(** The theorem with two uploads waiting. *)
Lemma queue_drains_witness :
  loop (turns
          (length (loop
             (upload_file (py "more.xlsx") (Workbook invalid_data) (py "h2")
                (upload_file (py "ok.xlsx") (Workbook test_data) (py "h1")
                   (start ∅)).1).1))
          (upload_file (py "more.xlsx") (Workbook invalid_data) (py "h2")
             (upload_file (py "ok.xlsx") (Workbook test_data) (py "h1")
                (start ∅)).1).1)
  = [].
Proof.
  refine (proj1 (queue_drains ∅
    [Upload (py "ok.xlsx") (Workbook test_data) (py "h1");
     Upload (py "more.xlsx") (Workbook invalid_data) (py "h2")]
    (upload_file (py "more.xlsx") (Workbook invalid_data) (py "h2")
       (upload_file (py "ok.xlsx") (Workbook test_data) (py "h1")
          (start ∅)).1).1 _)).
  eapply steps_cons; [apply step_upload; vm_compute; reflexivity|].
  eapply steps_cons; [apply step_upload; vm_compute; reflexivity|].
  apply steps_nil.
Defined.
